(** * dataviz engine: numeric disambiguation, type detection, aggregation,
      mapping validation and text parsing

    A shallow embedding of the engine modules [detector.ts], [mapper.ts],
    [validator.ts] and [parser.ts], with the dimensions of the column
    chart that the validator tests use.

    JavaScript values are modelled as the engine sees them:
    - a string is its sequence of UTF-16 code units ([list N]);
    - a number is an IEEE-754 binary64 value ([spec_float] with
      [prec = 53], [emax = 1024]), with the arithmetic of [SpecFloat];
    - [null] / [undefined] results are [option];
    - a [Map] is an association list in insertion order. *)

From Stdlib Require Import ZArith NArith List Bool Lia String Ascii.
From Stdlib Require Import Floats.SpecFloat Floats.PrimFloat Floats.FloatOps.
From Stdlib Require Import Sorting.Permutation.
Import ListNotations.

(** Decimal literals stand for the binary64 value nearest to them. *)
Set Warnings "-inexact-float".

(* ================================================================== *)
(** * JavaScript built-ins used by the engine *)
(* ================================================================== *)

Module JS.

(** ** Strings as sequences of UTF-16 code units *)

Definition codeunit := N.
Definition jsstring := list codeunit.

(** An ASCII literal as a JavaScript string. *)
Definition js (s : string) : jsstring :=
  List.map N_of_ascii (list_ascii_of_string s).

Fixpoint str_eqb (a b : jsstring) : bool :=
  match a, b with
  | [], [] => true
  | x :: a', y :: b' => N.eqb x y && str_eqb a' b'
  | _, _ => false
  end.

(** [\d] and the ECMAScript DecimalDigit production: U+0030 .. U+0039. *)
Definition is_digit (c : codeunit) : bool :=
  (N.leb 48 c && N.leb c 57)%N.

(** ECMAScript WhiteSpace and LineTerminator code points, the set that both
    [String.prototype.trim] and StringToNumber strip. *)
Definition is_space (c : codeunit) : bool :=
  existsb (N.eqb c)
    [9; 10; 11; 12; 13; 32; 160; 5760;
     8192; 8193; 8194; 8195; 8196; 8197; 8198; 8199; 8200; 8201; 8202;
     8232; 8233; 8239; 8287; 12288; 65279]%N.

Fixpoint trimStart (s : jsstring) : jsstring :=
  match s with
  | [] => []
  | c :: r => if is_space c then trimStart r else s
  end.

Definition trimEnd (s : jsstring) : jsstring := rev (trimStart (rev s)).

(** [s.trim()] *)
Definition trim (s : jsstring) : jsstring := trimEnd (trimStart s).

(** [s.includes(c)] for a one-character needle. *)
Definition includes (c : codeunit) (s : jsstring) : bool :=
  existsb (N.eqb c) s.

Fixpoint lastIndexOf_from (c : codeunit) (s : jsstring) (i acc : Z) : Z :=
  match s with
  | [] => acc
  | x :: r => lastIndexOf_from c r (i + 1)%Z (if N.eqb x c then i else acc)
  end.

(** [s.lastIndexOf(c)]: the greatest index holding [c], or [-1]. *)
Definition lastIndexOf (c : codeunit) (s : jsstring) : Z :=
  lastIndexOf_from c s 0%Z (-1)%Z.

(** [s.replace(/c/g, "")] *)
Definition removeAll (c : codeunit) (s : jsstring) : jsstring :=
  filter (fun x => negb (N.eqb x c)) s.

(** [s.replace(c, d)] with a string pattern: only the first occurrence. *)
Fixpoint replaceFirst (c d : codeunit) (s : jsstring) : jsstring :=
  match s with
  | [] => []
  | x :: r => if N.eqb x c then d :: r else x :: replaceFirst c d r
  end.

(** [s.toLowerCase()] on the ASCII letters.  The engine only compares the
    result with ASCII words none of which contains a letter that a
    non-ASCII code unit lowercases to on its own, so the membership test is
    the same. *)
Definition lower (c : codeunit) : codeunit :=
  if (N.leb 65 c && N.leb c 90)%N then (c + 32)%N else c.

Definition toLowerCase (s : jsstring) : jsstring := List.map lower s.

(** ** Regular expressions

    The engine's patterns are all anchored ([^...$]), flag-free and
    regular, so [RegExp.prototype.test] is language membership. *)

Inductive regex : Type :=
| RNone : regex
| REps : regex
| RChr : codeunit -> regex
| RRange : codeunit -> codeunit -> regex
| RCat : regex -> regex -> regex
| RAlt : regex -> regex -> regex
| RStar : regex -> regex.

Definition in_range (lo hi c : codeunit) : bool :=
  (N.leb lo c && N.leb c hi)%N.

Inductive matches : regex -> jsstring -> Prop :=
| MEps : matches REps []
| MChr : forall c, matches (RChr c) [c]
| MRange : forall lo hi c, in_range lo hi c = true -> matches (RRange lo hi) [c]
| MCat : forall a b s t, matches a s -> matches b t -> matches (RCat a b) (s ++ t)
| MAltL : forall a b s, matches a s -> matches (RAlt a b) s
| MAltR : forall a b s, matches b s -> matches (RAlt a b) s
| MStarNil : forall a, matches (RStar a) []
| MStarCons : forall a s t,
    matches a s -> matches (RStar a) t -> matches (RStar a) (s ++ t).

Fixpoint nullable (r : regex) : bool :=
  match r with
  | RNone => false
  | REps => true
  | RChr _ => false
  | RRange _ _ => false
  | RCat a b => nullable a && nullable b
  | RAlt a b => nullable a || nullable b
  | RStar _ => true
  end.

Fixpoint deriv (c : codeunit) (r : regex) : regex :=
  match r with
  | RNone => RNone
  | REps => RNone
  | RChr d => if N.eqb c d then REps else RNone
  | RRange lo hi => if in_range lo hi c then REps else RNone
  | RCat a b =>
      if nullable a then RAlt (RCat (deriv c a) b) (deriv c b)
      else RCat (deriv c a) b
  | RAlt a b => RAlt (deriv c a) (deriv c b)
  | RStar a => RCat (deriv c a) (RStar a)
  end.

Fixpoint test (r : regex) (s : jsstring) : bool :=
  match s with
  | [] => nullable r
  | c :: s' => test (deriv c r) s'
  end.

(** Pattern combinators: [r?], [r+], [r{n}], [r{1,n+1}]. *)
Definition ropt (r : regex) : regex := RAlt REps r.
Definition rplus (r : regex) : regex := RCat r (RStar r).

Fixpoint rrep (n : nat) (r : regex) : regex :=
  match n with
  | O => REps
  | S n' => RCat r (rrep n' r)
  end.

Fixpoint rupto (n : nat) (r : regex) : regex :=
  match n with
  | O => REps
  | S n' => ropt (RCat r (rupto n' r))
  end.

Definition rdigit : regex := RRange 48%N 57%N.

(** ** Numbers: IEEE-754 binary64 *)

Definition prec : Z := 53.
Definition emax : Z := 1024.

Definition number := spec_float.

Definition NaN : number := S754_nan.
Definition Infinity (neg : bool) : number := S754_infinity neg.

Definition isNaN (x : number) : bool :=
  match x with
  | S754_nan => true
  | _ => false
  end.

(** The number denoted by an integer (array lengths, counts, integer
    literals). *)
Definition of_Z (z : Z) : number := binary_normalize prec emax z 0%Z false.
Definition of_nat (n : nat) : number := of_Z (Z.of_nat n).

Definition add (x y : number) : number := SFadd prec emax x y.
Definition sub (x y : number) : number := SFsub prec emax x y.
Definition div (x y : number) : number := SFdiv prec emax x y.

(** [x > y] and [x < y] *)
Definition gt (x y : number) : bool := SFltb y x.
Definition lt (x y : number) : bool := SFltb x y.

(** The binary64 value nearest to [m * 10^e], ties to even. *)
Definition dec_to_number (neg : bool) (m : N) (e : Z) : number :=
  match m with
  | N0 => S754_zero neg
  | Npos p =>
      if (0 <=? e)%Z
      then binary_round prec emax neg (p * Z.to_pos (10 ^ e))%positive 0%Z
      else
        let '(q, e', l) :=
          SFdiv_core_binary prec emax (Zpos p) 0%Z (10 ^ (- e))%Z 0%Z in
        binary_round_aux prec emax neg q e' l
  end.

(** ** [Number(string)]: the StringToNumber abstract operation *)

Fixpoint span_digits (s : jsstring) : list codeunit * jsstring :=
  match s with
  | [] => ([], [])
  | c :: r =>
      if is_digit c
      then let '(ds, rest) := span_digits r in (c :: ds, rest)
      else ([], s)
  end.

Definition digits_value (ds : list codeunit) : N :=
  fold_left (fun acc d => (10 * acc + (d - 48))%N) ds 0%N.

(** ExponentPart, optional, up to the end of the literal. *)
Definition parse_exponent (s : jsstring) : option Z :=
  match s with
  | [] => Some 0%Z
  | c :: r =>
      if (N.eqb c 101 || N.eqb c 69)%N then
        let '(neg, r') :=
          match r with
          | p :: r' =>
              if N.eqb p 43 then (false, r')
              else if N.eqb p 45 then (true, r')
              else (false, r)
          | [] => (false, r)
          end in
        let '(ds, rest) := span_digits r' in
        match ds, rest with
        | _ :: _, [] =>
            Some (if neg then (- Z.of_N (digits_value ds))%Z
                  else Z.of_N (digits_value ds))
        | _, _ => None
        end
      else None
  end.

(** StrUnsignedDecimalLiteral without [Infinity]: the mantissa digits as an
    integer and the decimal exponent. *)
Definition parse_unsigned_decimal (s : jsstring) : option (N * Z) :=
  let '(ip, r1) := span_digits s in
  let plain :=
    match ip with
    | [] => None
    | _ :: _ =>
        match parse_exponent r1 with
        | Some e => Some (digits_value ip, e)
        | None => None
        end
    end in
  match r1 with
  | c :: r2 =>
      if N.eqb c 46 then
        let '(fp, r3) := span_digits r2 in
        match ip ++ fp with
        | [] => None
        | _ :: _ =>
            match parse_exponent r3 with
            | Some e =>
                Some (digits_value (ip ++ fp),
                      (e - Z.of_nat (List.length fp))%Z)
            | None => None
            end
        end
      else plain
  | [] => plain
  end.

Definition radix_digit (radix : N) (c : codeunit) : option N :=
  let v :=
    if is_digit c then Some (c - 48)%N
    else if (N.leb 97 c && N.leb c 102)%N then Some (c - 87)%N
    else if (N.leb 65 c && N.leb c 70)%N then Some (c - 55)%N
    else None in
  match v with
  | Some d => if N.ltb d radix then Some d else None
  | None => None
  end.

Fixpoint radix_value (radix : N) (acc : N) (s : jsstring) : option N :=
  match s with
  | [] => Some acc
  | c :: r =>
      match radix_digit radix c with
      | Some d => radix_value radix (radix * acc + d)%N r
      | None => None
      end
  end.

(** NonDecimalIntegerLiteral: [0x], [0o], [0b] prefixes, no sign. *)
Definition parse_non_decimal (s : jsstring) : option N :=
  match s with
  | z :: p :: (_ :: _) as ds =>
      if negb (N.eqb z 48) then None
      else if (N.eqb p 120 || N.eqb p 88)%N then radix_value 16 0 ds
      else if (N.eqb p 111 || N.eqb p 79)%N then radix_value 8 0 ds
      else if (N.eqb p 98 || N.eqb p 66)%N then radix_value 2 0 ds
      else None
  | _ => None
  end.

Definition split_sign (s : jsstring) : bool * jsstring :=
  match s with
  | c :: r =>
      if N.eqb c 43 then (false, r)
      else if N.eqb c 45 then (true, r)
      else (false, s)
  | [] => (false, s)
  end.

(** StrDecimalLiteral *)
Definition parse_decimal (s : jsstring) : option number :=
  let '(neg, u) := split_sign s in
  if str_eqb u (js "Infinity") then Some (Infinity neg)
  else
    match parse_unsigned_decimal u with
    | Some (m, e) => Some (dec_to_number neg m e)
    | None => None
    end.

(** [Number(s)] for a string argument.  Blank text is [+0]; text outside
    the StringNumericLiteral grammar is [NaN]; a literal is rounded to the
    nearest binary64 value. *)
Definition Number (s : jsstring) : number :=
  match trim s with
  | [] => S754_zero false
  | t =>
      match parse_non_decimal t with
      | Some n => of_Z (Z.of_N n)
      | None =>
          match parse_decimal t with
          | Some v => v
          | None => NaN
          end
      end
  end.

Definition is_neg_zero (x : number) : bool :=
  match x with
  | S754_zero true => true
  | _ => false
  end.

Definition is_pos_zero (x : number) : bool :=
  match x with
  | S754_zero false => true
  | _ => false
  end.

(** [Math.min(...xs)]: NaN if any argument is, and [-0] below [+0]. *)
Fixpoint Math_min_from (lowest : number) (xs : list number) : number :=
  match xs with
  | [] => lowest
  | x :: r =>
      if isNaN x then NaN
      else if is_neg_zero x && is_pos_zero lowest then Math_min_from x r
      else if lt x lowest then Math_min_from x r
      else Math_min_from lowest r
  end.

Definition Math_min (xs : list number) : number :=
  Math_min_from (Infinity false) xs.

(** [Math.max(...xs)] *)
Fixpoint Math_max_from (highest : number) (xs : list number) : number :=
  match xs with
  | [] => highest
  | x :: r =>
      if isNaN x then NaN
      else if is_pos_zero x && is_neg_zero highest then Math_max_from x r
      else if gt x highest then Math_max_from x r
      else Math_max_from highest r
  end.

Definition Math_max (xs : list number) : number :=
  Math_max_from (Infinity true) xs.

(** [xs.reduce((a, b) => a + b, 0)] *)
Definition sum (xs : list number) : number :=
  fold_left add xs (S754_zero false).

(** ** Values held by a data row *)

(** [string | number | boolean | Date | null], and [undefined] for a key
    the row does not have.  A [Date] is an object: it is known by its
    reference. *)
Inductive value : Type :=
| VUndefined : value
| VNull : value
| VString : jsstring -> value
| VNumber : number -> value
| VBoolean : bool -> value
| VDate : nat -> value.

(** An object used as a record: its own properties in insertion order.
    What a plain object inherits from [Object.prototype] is left out. *)
Definition object (A : Type) := list (jsstring * A).

Fixpoint lookup {A : Type} (o : object A) (k : jsstring) : option A :=
  match o with
  | [] => None
  | (k', v) :: r => if str_eqb k k' then Some v else lookup r k
  end.

(** [row[name]] *)
Definition get (r : object value) (k : jsstring) : value :=
  match lookup r k with
  | Some v => v
  | None => VUndefined
  end.

(** [v == null] *)
Definition is_nullish (v : value) : bool :=
  match v with
  | VUndefined | VNull => true
  | _ => false
  end.

(** [v == null || v === ""] *)
Definition is_blank (v : value) : bool :=
  match v with
  | VUndefined | VNull => true
  | VString [] => true
  | _ => false
  end.

(** SameValueZero, the equality of [Set] and [Map] keys. *)
Definition sameValueZero (a b : value) : bool :=
  match a, b with
  | VUndefined, VUndefined => true
  | VNull, VNull => true
  | VString s, VString t => str_eqb s t
  | VNumber x, VNumber y => (isNaN x && isNaN y) || SFeqb x y
  | VBoolean x, VBoolean y => Bool.eqb x y
  | VDate x, VDate y => Nat.eqb x y
  | _, _ => false
  end.

(** The elements of [new Set(xs)], in insertion order. *)
Fixpoint Set_of (seen : list value) (xs : list value) : list value :=
  match xs with
  | [] => seen
  | x :: r =>
      if existsb (sameValueZero x) seen then Set_of seen r
      else Set_of (seen ++ [x]) r
  end.

(** The conversions to string that the host provides: [Number::toString]
    and the time-zone dependent [Date.prototype.toString]. *)
Class Host : Type := {
  NumberToString : number -> jsstring;
  DateToString : nat -> jsstring
}.

(** [String(v)] *)
Definition ToString `{Host} (v : value) : jsstring :=
  match v with
  | VUndefined => js "undefined"
  | VNull => js "null"
  | VString s => s
  | VNumber x => NumberToString x
  | VBoolean true => js "true"
  | VBoolean false => js "false"
  | VDate d => DateToString d
  end.

(** [v ?? ""] *)
Definition or_empty (v : value) : value :=
  if is_nullish v then VString [] else v.

Definition COMMA : codeunit := 44%N.
Definition DOT : codeunit := 46%N.
Definition MINUS : codeunit := 45%N.
Definition SLASH : codeunit := 47%N.

End JS.

(* ================================================================== *)
(** * engine/detector.ts *)
(* ================================================================== *)

Module Detector.
Import JS.

Inductive DataType : Type := TString | TNumber | TDate | TBoolean.

Record ColumnMeta : Type := {
  name : jsstring;
  detectedType : DataType;
  confirmedType : DataType;
  uniqueValues : nat;
  nullCount : nat;
  sampleValues : list value;
  min : option number;
  max : option number;
  mean : option number
}.

Definition DataRow := object value.

Definition SAMPLE_SIZE : nat := 100.

Definition sep_group (sep : codeunit) : regex := RCat (RChr sep) (rrep 3 rdigit).

(** [/^\d{4}-\d{2}-\d{2}$/] and the four other date shapes. *)
Definition DATE_PATTERNS : list regex :=
  [ RCat (rrep 4 rdigit) (RCat (RChr MINUS) (RCat (rrep 2 rdigit)
      (RCat (RChr MINUS) (rrep 2 rdigit))));
    RCat (rrep 2 rdigit) (RCat (RChr SLASH) (RCat (rrep 2 rdigit)
      (RCat (RChr SLASH) (rrep 4 rdigit))));
    RCat (rrep 2 rdigit) (RCat (RChr DOT) (RCat (rrep 2 rdigit)
      (RCat (RChr DOT) (rrep 4 rdigit))));
    RCat (rrep 2 rdigit) (RCat (RChr MINUS) (RCat (rrep 2 rdigit)
      (RCat (RChr MINUS) (rrep 4 rdigit))));
    RCat (rrep 4 rdigit) (RCat (RChr SLASH) (RCat (rrep 2 rdigit)
      (RCat (RChr SLASH) (rrep 2 rdigit)))) ].

Definition BOOLEAN_VALUES : list jsstring :=
  List.map js
    ["true"; "false"; "yes"; "no"; "1"; "0"; "ja"; "nein"; "oui"; "non"]%string.

(** [BOOLEAN_VALUES.has(s)] *)
Definition BOOLEAN_VALUES_has (s : jsstring) : bool :=
  existsb (str_eqb s) BOOLEAN_VALUES.

(** [isNaN(n) ? null : n] *)
Definition guard (n : number) : option number :=
  if isNaN n then None else Some n.

(** [/^-?\d{1,3}(,\d{3})+$/] *)
Definition US_THOUSANDS : regex :=
  RCat (ropt (RChr MINUS))
    (RCat (RCat rdigit (rupto 2 rdigit)) (rplus (sep_group COMMA))).

(** [/^-?\d+(,\d+)$/] *)
Definition EU_DECIMAL : regex :=
  RCat (ropt (RChr MINUS))
    (RCat (rplus rdigit) (RCat (RChr COMMA) (rplus rdigit))).

(** [/^-?\d{1,3}(\.\d{3})+$/] *)
Definition EU_THOUSANDS : regex :=
  RCat (ropt (RChr MINUS))
    (RCat (RCat rdigit (rupto 2 rdigit)) (rplus (sep_group DOT))).

(** [parseNumber], detector.ts lines 114-164. *)
Definition parseNumber (value : jsstring) : option number :=
  let trimmed := trim value in
  if str_eqb trimmed [] || str_eqb trimmed (js "-") then None
  else
    let hasComma := includes COMMA trimmed in
    let hasDot := includes DOT trimmed in
    if hasComma && hasDot then
      let lastDot := lastIndexOf DOT trimmed in
      let lastComma := lastIndexOf COMMA trimmed in
      if (lastComma >? lastDot)%Z then
        let normalized := replaceFirst COMMA DOT (removeAll DOT trimmed) in
        guard (Number normalized)
      else
        let normalized := removeAll COMMA trimmed in
        guard (Number normalized)
    else if hasComma && test US_THOUSANDS trimmed then
      guard (Number (removeAll COMMA trimmed))
    else if hasComma && test EU_DECIMAL trimmed then
      guard (Number (replaceFirst COMMA DOT trimmed))
    else if hasDot && test EU_THOUSANDS trimmed then
      guard (Number (removeAll DOT trimmed))
    else guard (Number trimmed).

(** The literal [0.8]. *)
Definition THRESHOLD : number := dec_to_number false 8 (-1).

(** [count / total > 0.8] *)
Definition clears (count total : nat) : bool :=
  gt (div (of_nat count) (of_nat total)) THRESHOLD.

Section WithHost.
Context `{Host}.

Definition is_boolean_text (v : jsstring) : bool :=
  BOOLEAN_VALUES_has (toLowerCase v).

Definition is_date_text (v : jsstring) : bool :=
  existsb (fun p => test p v) DATE_PATTERNS.

Definition is_number_text (v : jsstring) : bool :=
  match parseNumber v with
  | Some _ => true
  | None => false
  end.

Definition detectSingleColumnType (values : list value) : DataType :=
  match values with
  | [] => TString
  | _ :: _ =>
      let stringValues := List.map (fun v => trim (ToString v)) values in
      let boolCount := List.length (filter is_boolean_text stringValues) in
      if clears boolCount (List.length stringValues) then TBoolean
      else
        let dateCount := List.length (filter is_date_text stringValues) in
        if clears dateCount (List.length stringValues) then TDate
        else
          let numberCount :=
            List.length (filter is_number_text stringValues) in
          if clears numberCount (List.length stringValues) then TNumber
          else TString
  end.

(** [allValues.map((v) => parseNumber(String(v ?? ""))).filter((n) => n !== null)] *)
Fixpoint parsed_numbers (allValues : list value) : list number :=
  match allValues with
  | [] => []
  | v :: r =>
      match parseNumber (ToString (or_empty v)) with
      | Some n => n :: parsed_numbers r
      | None => parsed_numbers r
      end
  end.

Definition columnMeta (data : list DataRow) (name : jsstring) : ColumnMeta :=
  let sample := firstn SAMPLE_SIZE data in
  let values :=
    filter (fun v => negb (is_blank v)) (List.map (fun row => get row name) sample) in
  let detectedType := detectSingleColumnType values in
  let allValues := List.map (fun row => get row name) data in
  let nullCount := List.length (filter is_blank allValues) in
  let uniqueValues :=
    List.length (Set_of [] (filter (fun v => negb (is_blank v)) allValues)) in
  let sampleValues := firstn 5 values in
  let nums :=
    match detectedType with
    | TNumber => parsed_numbers allValues
    | _ => []
    end in
  let stat (f : list number -> number) :=
    match nums with
    | [] => None
    | _ :: _ => Some (f nums)
    end in
  {| name := name;
     detectedType := detectedType;
     confirmedType := detectedType;
     uniqueValues := uniqueValues;
     nullCount := nullCount;
     sampleValues := sampleValues;
     min := stat Math_min;
     max := stat Math_max;
     mean := stat (fun ns => div (sum ns) (of_nat (List.length ns))) |}.

Definition detectColumnTypes (data : list DataRow) (headers : list jsstring)
  : list ColumnMeta :=
  List.map (columnMeta data) headers.

End WithHost.

End Detector.

(* ================================================================== *)
(** * engine/detector.ts, second copy *)
(* ================================================================== *)

(** The file holds the module twice.  The second copy (lines 166-307)
    differs from the first in [parseNumber] alone, which goes by three
    fixed-arity patterns instead of the position of the last separator. *)
Module Detector2.
Import JS.

(** [/^-?\d{1,3}(\.\d{3})*(,\d+)?$/] *)
Definition EU_NUMBER_PATTERN : regex :=
  RCat (ropt (RChr MINUS))
    (RCat (RCat rdigit (rupto 2 rdigit))
       (RCat (RStar (Detector.sep_group DOT))
          (ropt (RCat (RChr COMMA) (rplus rdigit))))).

(** [/^-?\d{1,3}(,\d{3})*(\.\d+)?$/] *)
Definition US_NUMBER_PATTERN : regex :=
  RCat (ropt (RChr MINUS))
    (RCat (RCat rdigit (rupto 2 rdigit))
       (RCat (RStar (Detector.sep_group COMMA))
          (ropt (RCat (RChr DOT) (rplus rdigit))))).

(** [/^-?\d+(\.\d+)?$/] *)
Definition PLAIN_NUMBER_PATTERN : regex :=
  RCat (ropt (RChr MINUS))
    (RCat (rplus rdigit) (ropt (RCat (RChr DOT) (rplus rdigit)))).

(** [parseNumber], detector.ts lines 280-307. *)
Definition parseNumber (value : jsstring) : option number :=
  let trimmed := trim value in
  if str_eqb trimmed [] || str_eqb trimmed (js "-") then None
  else if test PLAIN_NUMBER_PATTERN trimmed then
    Detector.guard (Number trimmed)
  else if test EU_NUMBER_PATTERN trimmed then
    let normalized := replaceFirst COMMA DOT (removeAll DOT trimmed) in
    Detector.guard (Number normalized)
  else if test US_NUMBER_PATTERN trimmed then
    let normalized := removeAll COMMA trimmed in
    Detector.guard (Number normalized)
  else Detector.guard (Number trimmed).

End Detector2.

(* ================================================================== *)
(** * engine/mapper.ts *)
(* ================================================================== *)

Module Mapper.
Import JS.

Inductive AggregationType : Type :=
| AggSum | AggMean | AggMedian | AggCount | AggMin | AggMax.

(** One element of the [MappedData] that [groupAndAggregate] returns. *)
Record Group : Type := { category : jsstring; value : number }.

(** [x] goes before the first element it does not compare greater than:
    the stable order of [Array.prototype.sort] under [(a, b) => a - b],
    a NaN difference counting as 0.  (Where the differences do not order
    the values consistently the language leaves the order open; this is
    the order of a stable insertion.) *)
Fixpoint sort_insert (x : number) (l : list number) : list number :=
  match l with
  | [] => [x]
  | y :: r =>
      if gt (sub x y) (S754_zero false) then y :: sort_insert x r
      else x :: l
  end.

(** [[...values].sort((a, b) => a - b)] *)
Definition sort (values : list number) : list number :=
  fold_right sort_insert [] values.

Definition two : number := of_Z 2.

Definition median (values : list number) : number :=
  let sorted := sort values in
  let mid := Nat.div (List.length sorted) 2 in
  if Nat.eqb (Nat.modulo (List.length sorted) 2) 0
  then div (add (nth (mid - 1) sorted NaN) (nth mid sorted NaN)) two
  else nth mid sorted NaN.

Definition aggregate (values : list number) (method : AggregationType) : number :=
  match values with
  | [] => S754_zero false
  | _ :: _ =>
      match method with
      | AggSum => sum values
      | AggMean => div (sum values) (of_nat (List.length values))
      | AggMedian => median values
      | AggCount => of_nat (List.length values)
      | AggMin => Math_min values
      | AggMax => Math_max values
      end
  end.

(** ** The [Map<string, number[]>] of [groupAndAggregate] *)

Definition Groups := list (jsstring * list number).

Definition Map_has (groups : Groups) (k : jsstring) : bool :=
  existsb (fun e => str_eqb k (fst e)) groups.

(** [groups.set(k, [])] for a key the map does not hold: a new last entry. *)
Definition Map_set_new (groups : Groups) (k : jsstring) : Groups :=
  groups ++ [(k, [])].

(** [groups.get(k)!.push(v)]: the array stored under [k] grows in place. *)
Fixpoint Map_push (groups : Groups) (k : jsstring) (v : number) : Groups :=
  match groups with
  | [] => []
  | (k', vs) :: r =>
      if str_eqb k k' then (k', vs ++ [v]) :: r
      else (k', vs) :: Map_push r k v
  end.

Section WithHost.
Context `{Host}.

(** [String(row[categoryColumn] ?? "")] *)
Definition category_of (categoryColumn : jsstring) (row : Detector.DataRow)
  : jsstring :=
  ToString (or_empty (get row categoryColumn)).

(** [typeof rawValue === "number" ? rawValue
      : parseNumber(String(rawValue ?? ""))] *)
Definition value_of (valueColumn : jsstring) (row : Detector.DataRow)
  : option number :=
  match get row valueColumn with
  | VNumber x => Some x
  | rawValue => Detector.parseNumber (ToString (or_empty rawValue))
  end.

(** One turn of the [for (const row of data)] loop. *)
Definition group_step (categoryColumn valueColumn : jsstring)
  (groups : Groups) (row : Detector.DataRow) : Groups :=
  let category := category_of categoryColumn row in
  match value_of valueColumn row with
  | None => groups
  | Some value =>
      let groups' :=
        if Map_has groups category then groups
        else Map_set_new groups category in
      Map_push groups' category value
  end.

Definition groupAndAggregate (data : list Detector.DataRow)
  (categoryColumn valueColumn : jsstring) (aggregation : AggregationType)
  : list Group :=
  let groups := fold_left (group_step categoryColumn valueColumn) data [] in
  List.map
    (fun e => {| category := fst e; value := aggregate (snd e) aggregation |})
    groups.

End WithHost.

End Mapper.

(* ================================================================== *)
(** * engine/validator.ts *)
(* ================================================================== *)

Module Validator.
Import JS.

Record DimensionDefinition : Type := {
  id : jsstring;
  name : jsstring;
  description : jsstring;
  required : bool;
  acceptedTypes : list Detector.DataType;
  multiple : bool;
  defaultAggregation : option Mapper.AggregationType
}.

(** A value of a [MappingConfig]: [string | string[]]. *)
Inductive Mapped : Type :=
| One : jsstring -> Mapped
| Many : list jsstring -> Mapped.

Definition MappingConfig := object Mapped.

Record ValidationError : Type :=
  { dimensionId : jsstring; message : jsstring }.

(** [ValidationWarning] has the shape of [ValidationError]. *)
Definition ValidationWarning := ValidationError.

Record ValidationResult : Type := {
  isValid : bool;
  errors : list ValidationError;
  warnings : list ValidationWarning
}.

Definition QUOTE : codeunit := 34%N.

Definition quoted (s : jsstring) : jsstring := QUOTE :: s ++ [QUOTE].

Definition type_name (t : Detector.DataType) : jsstring :=
  match t with
  | Detector.TString => js "string"
  | Detector.TNumber => js "number"
  | Detector.TDate => js "date"
  | Detector.TBoolean => js "boolean"
  end.

(** [xs.join(sep)] *)
Fixpoint join (sep : jsstring) (xs : list jsstring) : jsstring :=
  match xs with
  | [] => []
  | [x] => x
  | x :: r => x ++ sep ++ join sep r
  end.

Definition DataType_eqb (a b : Detector.DataType) : bool :=
  match a, b with
  | Detector.TString, Detector.TString
  | Detector.TNumber, Detector.TNumber
  | Detector.TDate, Detector.TDate
  | Detector.TBoolean, Detector.TBoolean => true
  | _, _ => false
  end.

(** [acceptedTypes.includes(columnType)] *)
Definition isTypeCompatible (columnType : Detector.DataType)
  (acceptedTypes : list Detector.DataType) : bool :=
  existsb (DataType_eqb columnType) acceptedTypes.

(** [!mapped] *)
Definition falsy (mapped : option Mapped) : bool :=
  match mapped with
  | None => true
  | Some (One []) => true
  | Some _ => false
  end.

(** [Array.isArray(mapped) && mapped.length === 0] *)
Definition empty_array (mapped : option Mapped) : bool :=
  match mapped with
  | Some (Many []) => true
  | _ => false
  end.

(** [Array.isArray(mapped) ? mapped : [mapped]] *)
Definition column_names (mapped : Mapped) : list jsstring :=
  match mapped with
  | One s => [s]
  | Many l => l
  end.

(** [Array.isArray(mapped) && mapped.length > 1] *)
Definition several (mapped : Mapped) : bool :=
  match mapped with
  | Many (_ :: _ :: _) => true
  | _ => false
  end.

(** [columns.find((c) => c.name === colName)] *)
Definition find_column (columns : list Detector.ColumnMeta) (colName : jsstring)
  : option Detector.ColumnMeta :=
  find (fun c => str_eqb (Detector.name c) colName) columns.

(** The two arrays the function pushes to. *)
Definition Lists := (list ValidationError * list ValidationWarning)%type.

(** One turn of [for (const colName of columnNames)]. *)
Definition check_column (dim : DimensionDefinition)
  (columns : list Detector.ColumnMeta) (acc : Lists) (colName : jsstring)
  : Lists :=
  let '(errs, warns) := acc in
  match find_column columns colName with
  | None =>
      (errs ++ [{| dimensionId := id dim;
                   message := js "Column " ++ quoted colName
                              ++ js " not found in data." |}],
       warns)
  | Some col =>
      if negb (isTypeCompatible (Detector.confirmedType col) (acceptedTypes dim))
      then
        (errs,
         warns ++ [{| dimensionId := id dim;
                      message := quoted colName ++ js " is "
                        ++ type_name (Detector.confirmedType col)
                        ++ js ", but " ++ quoted (name dim) ++ js " expects "
                        ++ join (js " or ") (List.map type_name (acceptedTypes dim))
                        ++ js "." |}])
      else (errs, warns)
  end.

(** One turn of [for (const dim of dimensions)]. *)
Definition check_dimension (mapping : MappingConfig)
  (columns : list Detector.ColumnMeta) (acc : Lists) (dim : DimensionDefinition)
  : Lists :=
  let '(errs, warns) := acc in
  let mapped := lookup mapping (id dim) in
  if required dim && (falsy mapped || empty_array mapped) then
    (errs ++ [{| dimensionId := id dim;
                 message := quoted (name dim) ++ js " is required." |}],
     warns)
  else
    match mapped with
    | None => acc
    | Some m =>
        if falsy mapped then acc
        else
          let '(errs1, warns1) :=
            fold_left (check_column dim columns) (column_names m) acc in
          if negb (multiple dim) && several m then
            (errs1 ++ [{| dimensionId := id dim;
                          message := quoted (name dim)
                                     ++ js " accepts only one column." |}],
             warns1)
          else (errs1, warns1)
    end.

Definition validateMapping (dimensions : list DimensionDefinition)
  (mapping : MappingConfig) (columns : list Detector.ColumnMeta)
  : ValidationResult :=
  let '(errs, warns) :=
    fold_left (check_dimension mapping columns) dimensions ([], []) in
  {| isValid := Nat.eqb (List.length errs) 0;
     errors := errs;
     warnings := warns |}.

End Validator.

(* ================================================================== *)
(** * engine/parser.ts *)
(* ================================================================== *)

Module Parser.
Import JS.

(** What [Papa.parse] hands back: [result.data], [result.errors] and
    [result.meta.fields]. *)
Record PapaError : Type := { row : value; message : jsstring }.

Record PapaResult : Type := {
  papa_data : list (object jsstring);
  papa_errors : list PapaError;
  papa_fields : option (list jsstring)
}.

Record ParseResult : Type := {
  data : list Detector.DataRow;
  columns : list Detector.ColumnMeta;
  rawHeaders : list jsstring;
  rowCount : nat;
  errors : list jsstring
}.

(** [result.data as DataRow[]]: the cells stay the strings they are. *)
Definition as_DataRow (r : object jsstring) : Detector.DataRow :=
  List.map (fun kv => (fst kv, VString (snd kv))) r.

Section WithPapa.
Context `{Host}.

(** [Papa.parse(text, { header: true, skipEmptyLines: "greedy",
    dynamicTyping: false, transformHeader })], a library call. *)
Variable Papa_parse : jsstring -> PapaResult.

(** [`Row ${e.row}: ${e.message}`] *)
Definition error_text (e : PapaError) : jsstring :=
  js "Row " ++ ToString (row e) ++ js ": " ++ message e.

Definition parseText (text : jsstring) : ParseResult :=
  let trimmed := trim text in
  match trimmed with
  | [] =>
      {| data := []; columns := []; rawHeaders := []; rowCount := 0;
         errors := [js "Empty input"] |}
  | _ :: _ =>
      let result := Papa_parse trimmed in
      match papa_errors result, papa_data result with
      | _ :: _, [] =>
          {| data := []; columns := []; rawHeaders := []; rowCount := 0;
             errors := List.map error_text (papa_errors result) |}
      | _, _ =>
          let headers :=
            match papa_fields result with
            | Some fs => fs
            | None => []
            end in
          let data := List.map as_DataRow (papa_data result) in
          let columns := Detector.detectColumnTypes data headers in
          let errors := List.map error_text (papa_errors result) in
          {| data := data; columns := columns; rawHeaders := headers;
             rowCount := List.length data; errors := errors |}
      end
  end.

End WithPapa.

(** ** A delimited-text reader standing in for the library *)

Definition TAB : codeunit := 9%N.
Definition SEMICOLON : codeunit := 59%N.
Definition LF : codeunit := 10%N.

Fixpoint split (d : codeunit) (s : jsstring) : list jsstring :=
  match s with
  | [] => [[]]
  | c :: r =>
      if N.eqb c d then [] :: split d r
      else
        match split d r with
        | [] => [[c]]
        | f :: fs => (c :: f) :: fs
        end
  end.

Definition occurrences (d : codeunit) (s : jsstring) : nat :=
  List.length (filter (N.eqb d) s).

(** The candidate with the most occurrences in the header line; the
    earlier candidate wins a tie. *)
Definition detect_delimiter (header : jsstring) : codeunit :=
  let best (a b : codeunit) :=
    if Nat.ltb (occurrences a header) (occurrences b header) then b else a in
  best (best COMMA TAB) SEMICOLON.

Fixpoint zip_fields (headers fields : list jsstring) : object jsstring :=
  match headers, fields with
  | h :: hs, f :: fs => (h, f) :: zip_fields hs fs
  | _, _ => []
  end.

Fixpoint read_rows (d : codeunit) (headers : list jsstring) (i : nat)
  (lines : list jsstring) : list (object jsstring) * list PapaError :=
  match lines with
  | [] => ([], [])
  | l :: r =>
      if str_eqb (trim l) [] then read_rows d headers i r
      else
        let fields := split d l in
        let '(rows, errs) := read_rows d headers (S i) r in
        let here :=
          if Nat.eqb (List.length fields) (List.length headers) then []
          else [{| row := VNumber (of_nat i);
                   message := js "Field count differs from the header row" |}] in
        (zip_fields headers fields :: rows, here ++ errs)
  end.

(** Modelled from the spec: [Papa.parse], the PapaParse library call of
    [parseText], whose code is not among the sources.  Following the
    Row Parser contract: the field delimiter is detected among comma, tab
    and semicolon; the first row gives the headers, each trimmed of
    surrounding whitespace; fully blank lines are skipped; no cell is
    coerced, every value stays a raw string.  The spec does not say how
    the delimiter is chosen nor what a row-level message says;
    [detect_delimiter] and the message text above are this model's. *)
Definition Papa_parse (text : jsstring) : PapaResult :=
  match filter (fun l => negb (str_eqb (trim l) [])) (split LF text) with
  | [] => {| papa_data := []; papa_errors := []; papa_fields := None |}
  | header :: lines =>
      let d := detect_delimiter header in
      let headers := List.map trim (split d header) in
      let '(rows, errs) := read_rows d headers 0 lines in
      {| papa_data := rows; papa_errors := errs; papa_fields := Some headers |}
  end.

End Parser.

(* ================================================================== *)
(** * charts/column-chart/index.ts *)
(* ================================================================== *)

Module ColumnChart.
Import JS.

Definition EM_DASH : codeunit := 8212%N.

(** [columnChart.dimensions] *)
Definition dimensions : list Validator.DimensionDefinition :=
  [ {| Validator.id := js "x";
       Validator.name := js "Categories (X Axis)";
       Validator.description :=
         js "The categories to compare " ++ [EM_DASH] ++ js " one bar per value";
       Validator.required := true;
       Validator.acceptedTypes :=
         [Detector.TString; Detector.TNumber; Detector.TDate];
       Validator.multiple := false;
       Validator.defaultAggregation := None |};
    {| Validator.id := js "y";
       Validator.name := js "Values (Y Axis)";
       Validator.description := js "The numeric values determining bar heights";
       Validator.required := true;
       Validator.acceptedTypes := [Detector.TNumber];
       Validator.multiple := false;
       Validator.defaultAggregation := None |};
    {| Validator.id := js "color";
       Validator.name := js "Color (Series)";
       Validator.description := js "Optional: split bars into colored groups";
       Validator.required := false;
       Validator.acceptedTypes := [Detector.TString];
       Validator.multiple := false;
       Validator.defaultAggregation := None |} ].

End ColumnChart.

(* ================================================================== *)
(** * engine/mapper.ts, the column extractors *)
(* ================================================================== *)

Module Extract.
Import JS.

Section WithHost.
Context `{Host}.

(** [extractColumn], mapper.ts lines 16-29: [(string | number | null)[]],
    empty when the dimension is unmapped or mapped to a list. *)
Definition extractColumn (data : list Detector.DataRow)
  (mapping : Validator.MappingConfig) (dimensionId : jsstring) : list value :=
  let columnName := lookup mapping dimensionId in
  match columnName with
  | Some (Validator.One c) =>
      if Validator.falsy columnName then []
      else
        List.map
          (fun row =>
             let raw := get row c in
             if is_blank raw then VNull
             else
               match raw with
               | VNumber _ => raw
               | _ => VString (ToString raw)
               end)
          data
  | _ => []
  end.

(** [extractNumericColumn], mapper.ts lines 34-48: [(number | null)[]]. *)
Definition extractNumericColumn (data : list Detector.DataRow)
  (mapping : Validator.MappingConfig) (dimensionId : jsstring)
  : list (option number) :=
  let columnName := lookup mapping dimensionId in
  match columnName with
  | Some (Validator.One c) =>
      if Validator.falsy columnName then []
      else
        List.map
          (fun row =>
             let raw := get row c in
             if is_blank raw then None
             else
               match raw with
               | VNumber x => Some x
               | _ => Detector.parseNumber (ToString raw)
               end)
          data
  | _ => []
  end.

End WithHost.

End Extract.

(* ================================================================== *)
(** * charts: the [mapData] of each chart template *)
(* ================================================================== *)

Module Charts.
Import JS.

(** [MappedData = Record<string, unknown>[]] *)
Definition MappedData := list (object value).

(** The property key that [row[col]] reads when [col] holds a value of
    the mapping: the string itself, or the list joined by commas. *)
Definition key (col : Validator.Mapped) : jsstring :=
  match col with
  | Validator.One s => s
  | Validator.Many l => Validator.join (js ",") l
  end.

(** [d.field !== ""] *)
Definition field_not_empty (field : jsstring) (d : object value) : bool :=
  match get d field with
  | VString [] => false
  | _ => true
  end.

(** The [{ category, value }] object of an aggregated group. *)
Definition group_object (g : Mapper.Group) : object value :=
  [(js "category", VString (Mapper.category g));
   (js "value", VNumber (Mapper.value g))].

Section WithHost.
Context `{Host}.

(** [String(row[col] ?? "")] *)
Definition text_of (col : Validator.Mapped) (row : Detector.DataRow) : value :=
  VString (Mapper.category_of (key col) row).

(** [typeof row[col] === "number" ? row[col]
      : parseNumber(String(row[col] ?? "")) ?? 0] *)
Definition number_of (col : Validator.Mapped) (row : Detector.DataRow) : value :=
  match Mapper.value_of (key col) row with
  | Some x => VNumber x
  | None => VNumber (S754_zero false)
  end.

(** [columnChart.mapData], column-chart/index.ts lines 138-158. *)
Definition columnChart_mapData (data : list Detector.DataRow)
  (mapping : Validator.MappingConfig) : MappedData :=
  let xCol := lookup mapping (js "x") in
  let yCol := lookup mapping (js "y") in
  let colorCol := lookup mapping (js "color") in
  match xCol, yCol with
  | Some x, Some y =>
      if Validator.falsy xCol || Validator.falsy yCol then []
      else
        match colorCol with
        | Some color =>
            if Validator.falsy colorCol then
              List.map group_object
                (Mapper.groupAndAggregate data (key x) (key y) Mapper.AggSum)
            else
              filter (field_not_empty (js "category"))
                (List.map
                   (fun row =>
                      [(js "category", text_of x row);
                       (js "series", text_of color row);
                       (js "value", number_of y row)])
                   data)
        | None =>
            List.map group_object
              (Mapper.groupAndAggregate data (key x) (key y) Mapper.AggSum)
        end
  | _, _ => []
  end.

(** [barChart.mapData], bar-chart/index.ts lines 120-138. *)
Definition barChart_mapData (data : list Detector.DataRow)
  (mapping : Validator.MappingConfig) : MappedData :=
  let yCol := lookup mapping (js "y") in
  let xCol := lookup mapping (js "x") in
  let colorCol := lookup mapping (js "color") in
  match yCol, xCol with
  | Some y, Some x =>
      if Validator.falsy yCol || Validator.falsy xCol then []
      else
        match colorCol with
        | Some color =>
            if Validator.falsy colorCol then
              List.map group_object
                (Mapper.groupAndAggregate data (key y) (key x) Mapper.AggSum)
            else
              filter (field_not_empty (js "category"))
                (List.map
                   (fun row =>
                      [(js "category", text_of y row);
                       (js "series", text_of color row);
                       (js "value", number_of x row)])
                   data)
        | None =>
            List.map group_object
              (Mapper.groupAndAggregate data (key y) (key x) Mapper.AggSum)
        end
  | _, _ => []
  end.

(** [lineChart.mapData], column-chart/index.ts lines 454-468. *)
Definition lineChart_mapData (data : list Detector.DataRow)
  (mapping : Validator.MappingConfig) : MappedData :=
  let xCol := lookup mapping (js "x") in
  let yCol := lookup mapping (js "y") in
  let colorCol := lookup mapping (js "color") in
  match xCol, yCol with
  | Some x, Some y =>
      if Validator.falsy xCol || Validator.falsy yCol then []
      else
        filter (field_not_empty (js "x"))
          (List.map
             (fun row =>
                [(js "x", text_of x row);
                 (js "y", number_of y row);
                 (js "series",
                  match colorCol with
                  | Some color =>
                      if Validator.falsy colorCol then VString (js "__default__")
                      else text_of color row
                  | None => VString (js "__default__")
                  end)])
             data)
  | _, _ => []
  end.

(** [mekkoChart.mapData], mekko/index.ts lines 116-131. *)
Definition mekkoChart_mapData (data : list Detector.DataRow)
  (mapping : Validator.MappingConfig) : MappedData :=
  let xCol := lookup mapping (js "x") in
  let segCol := lookup mapping (js "segment") in
  let valCol := lookup mapping (js "value") in
  match xCol, segCol, valCol with
  | Some x, Some seg, Some val =>
      if Validator.falsy xCol || Validator.falsy segCol || Validator.falsy valCol
      then []
      else
        filter
          (fun d => field_not_empty (js "x") d && field_not_empty (js "segment") d)
          (List.map
             (fun row =>
                [(js "x", text_of x row);
                 (js "segment", text_of seg row);
                 (js "value", number_of val row)])
             data)
  | _, _, _ => []
  end.

(** [heatmapChart.mapData], heatmap/index.ts lines 128-143. *)
Definition heatmapChart_mapData (data : list Detector.DataRow)
  (mapping : Validator.MappingConfig) : MappedData :=
  let xCol := lookup mapping (js "x") in
  let yCol := lookup mapping (js "y") in
  let valueCol := lookup mapping (js "value") in
  match xCol, yCol, valueCol with
  | Some x, Some y, Some val =>
      if Validator.falsy xCol || Validator.falsy yCol || Validator.falsy valueCol
      then []
      else
        filter
          (fun d => field_not_empty (js "x") d && field_not_empty (js "y") d)
          (List.map
             (fun row =>
                [(js "x", text_of x row);
                 (js "y", text_of y row);
                 (js "value", number_of val row)])
             data)
  | _, _, _ => []
  end.

End WithHost.

End Charts.

(* ================================================================== *)
(** * charts/registry.ts *)
(* ================================================================== *)

Module Registry.
Import JS.

(** What the registry reads of a [ChartTemplate]: its id and its
    dimensions.  (The other fields - texts, options, the render and
    code-generation functions - pass through untouched.) *)
Record ChartTemplate : Type := {
  id : jsstring;
  dimensions : list Validator.DimensionDefinition
}.

(** [private charts = new Map<string, ChartTemplate>()] *)
Definition Charts := list (jsstring * ChartTemplate).

(** [charts.set(k, v)]: the value under [k] is replaced where it stands;
    a new key goes last. *)
Fixpoint Map_set (charts : Charts) (k : jsstring) (v : ChartTemplate) : Charts :=
  match charts with
  | [] => [(k, v)]
  | (k', v') :: r =>
      if str_eqb k k' then (k', v) :: r else (k', v') :: Map_set r k v
  end.

Definition register (chart : ChartTemplate) (charts : Charts) : Charts :=
  Map_set charts (id chart) chart.

Definition get (charts : Charts) (chartId : jsstring) : option ChartTemplate :=
  lookup charts chartId.

Definition getAll (charts : Charts) : list ChartTemplate :=
  List.map snd charts.

(** [dim.acceptedTypes.some((type) => columnTypes.has(type))] *)
Definition satisfiable (columnTypes : list Detector.DataType)
  (dim : Validator.DimensionDefinition) : bool :=
  existsb
    (fun type => existsb (Validator.DataType_eqb type) columnTypes)
    (Validator.acceptedTypes dim).

Definition getCompatible (charts : Charts) (columns : list Detector.ColumnMeta)
  : list ChartTemplate :=
  let columnTypes := List.map Detector.confirmedType columns in
  filter
    (fun chart =>
       forallb (satisfiable columnTypes)
         (filter Validator.required (dimensions chart)))
    (getAll charts).

Definition columnChart : ChartTemplate :=
  {| id := js "column-chart"; dimensions := ColumnChart.dimensions |}.

(** [export const chartRegistry = new ChartRegistryImpl();
     chartRegistry.register(columnChart);] *)
Definition chartRegistry : Charts := register columnChart [].

End Registry.

(* ================================================================== *)
(** * Vocabulary of the statements *)
(* ================================================================== *)

Module Spec.
Import JS.

(** ** Strings *)

(** No white space at either end. *)
Definition no_outer_space (s : jsstring) : Prop :=
  match s with
  | [] => True
  | c :: _ => is_space c = false /\ is_space (last s c) = false
  end.

(** The text holds a decimal digit. *)
Definition has_digit (s : jsstring) : bool := existsb is_digit s.

(** ** Numbers and the text handed to [Number()] *)

(** A numeric literal of the source text, which the engine reads as the
    nearest binary64 value. *)
Definition literal (f : float) : number := Prim2SF f.

(** Membership in the StringNumericLiteral grammar (blank text included),
    the texts [Number()] does not turn into NaN. *)
Definition is_numeric_literal (t : jsstring) : bool :=
  match trim t with
  | [] => true
  | u =>
      match parse_non_decimal u with
      | Some _ => true
      | None =>
          match parse_decimal u with
          | Some _ => true
          | None => false
          end
      end
  end.

(** The text that [Detector.parseNumber] passes to [Number()] for a
    trimmed input: separators rewritten according to the branch taken. *)
Definition normalized (trimmed : jsstring) : jsstring :=
  let hasComma := includes COMMA trimmed in
  let hasDot := includes DOT trimmed in
  if hasComma && hasDot then
    if (lastIndexOf COMMA trimmed >? lastIndexOf DOT trimmed)%Z
    then replaceFirst COMMA DOT (removeAll DOT trimmed)
    else removeAll COMMA trimmed
  else if hasComma && test Detector.US_THOUSANDS trimmed then
    removeAll COMMA trimmed
  else if hasComma && test Detector.EU_DECIMAL trimmed then
    replaceFirst COMMA DOT trimmed
  else if hasDot && test Detector.EU_THOUSANDS trimmed then
    removeAll DOT trimmed
  else trimmed.

(** Every word of the pattern's language holds a decimal digit. *)
Fixpoint needs_digit (r : regex) : bool :=
  match r with
  | RNone => true
  | REps => false
  | RChr c => is_digit c
  | RRange lo hi => (N.leb 48 lo && N.leb hi 57)%N
  | RCat a b => needs_digit a || needs_digit b
  | RAlt a b => needs_digit a && needs_digit b
  | RStar _ => false
  end.

(** ** The thousands-grouping shape *)

(** One to three digits, then groups of a separator and three digits. *)
Definition grouped (sep : codeunit) (lead : jsstring) (groups : list jsstring)
  : jsstring :=
  lead ++ List.concat (List.map (cons sep) groups).

(** A group of exactly three digits. *)
Definition three_digits (g : jsstring) : Prop :=
  List.length g = 3 /\ forallb is_digit g = true.

(** ** Type detection *)

(** [count] is strictly more than 80% of [total]. *)
Definition more_than_80_percent (count total : nat) : bool :=
  Nat.ltb (80 * total) (100 * count).

(** How many of the sampled values, converted to text and trimmed, pass a
    classifier. *)
Definition count_matching `{Host} (p : jsstring -> bool) (values : list value)
  : nat :=
  List.length (filter p (List.map (fun v => trim (ToString v)) values)).

(** The type that the match counts give: the first of boolean, date and
    number that strictly more than 80% of the values match, else string;
    string for no value at all. *)
Definition classified `{Host} (values : list value) : Detector.DataType :=
  match values with
  | [] => Detector.TString
  | _ :: _ =>
      let total := List.length values in
      if more_than_80_percent (count_matching Detector.is_boolean_text values) total
      then Detector.TBoolean
      else if more_than_80_percent (count_matching Detector.is_date_text values) total
      then Detector.TDate
      else if more_than_80_percent (count_matching Detector.is_number_text values) total
      then Detector.TNumber
      else Detector.TString
  end.

(** A host for the examples.  Their cells are strings, which neither
    conversion is applied to. *)
Definition example_host : Host :=
  {| NumberToString := fun _ => js "0"; DateToString := fun _ => js "Invalid Date" |}.

(** ** Grouping and aggregation *)

(** The distinct elements of a list, in the order of their first
    occurrence. *)
Fixpoint first_seen (ks : list jsstring) : list jsstring :=
  match ks with
  | [] => []
  | k :: r => k :: filter (fun x => negb (str_eqb x k)) (first_seen r)
  end.

(** The rows that contribute to the aggregation, as (category, value)
    pairs in row order: the rows whose value cell resolves to a number. *)
Definition contributions `{Host} (categoryColumn valueColumn : jsstring)
  (data : list Detector.DataRow) : list (jsstring * number) :=
  flat_map
    (fun row =>
       match Mapper.value_of valueColumn row with
       | Some v => [(Mapper.category_of categoryColumn row, v)]
       | None => []
       end)
    data.

(** The values contributed to category [k], in row order. *)
Definition values_for (k : jsstring) (pairs : list (jsstring * number))
  : list number :=
  List.map snd (filter (fun p => str_eqb (fst p) k) pairs).

(** One contributing row enters the map: [has], [set] when the category
    is new, then [get(...).push]. *)
Definition add_pair (groups : Mapper.Groups) (p : jsstring * number)
  : Mapper.Groups :=
  Mapper.Map_push
    (if Mapper.Map_has groups (fst p) then groups
     else Mapper.Map_set_new groups (fst p))
    (fst p) (snd p).

(** What [push] does to an entry of the map. *)
Definition pushed (k : jsstring) (v : number) (e : jsstring * list number)
  : jsstring * list number :=
  if str_eqb k (fst e) then (fst e, snd e ++ [v]) else e.

(** The rows of the aggregation example:
    [{ Region: "North", Sales: "100" }], ... *)
Definition region_rows : list Detector.DataRow :=
  List.map
    (fun p => [(js "Region", VString (js (fst p)));
               (js "Sales", VString (js (snd p)))])
    [("North", "100"); ("South", "200"); ("North", "150");
     ("South", "250"); ("East", "300")]%string.

(** ** Mapping validation *)

(** The errors and the warnings that one dimension adds. *)
Definition dimension_errors (mapping : Validator.MappingConfig)
  (columns : list Detector.ColumnMeta) (dim : Validator.DimensionDefinition)
  : list Validator.ValidationError :=
  fst (Validator.check_dimension mapping columns ([], []) dim).

Definition dimension_warnings (mapping : Validator.MappingConfig)
  (columns : list Detector.ColumnMeta) (dim : Validator.DimensionDefinition)
  : list Validator.ValidationWarning :=
  snd (Validator.check_dimension mapping columns ([], []) dim).

Definition column_exists (columns : list Detector.ColumnMeta)
  (colName : jsstring) : bool :=
  match Validator.find_column columns colName with
  | Some _ => true
  | None => false
  end.

(** A dimension raises no error: when nothing is mapped to it, it is
    optional; when something is, every column named exists and there is
    one column at most unless the dimension allows several. *)
Definition dimension_ok (mapping : Validator.MappingConfig)
  (columns : list Detector.ColumnMeta) (dim : Validator.DimensionDefinition)
  : bool :=
  let mapped := lookup mapping (Validator.id dim) in
  if Validator.falsy mapped || Validator.empty_array mapped
  then negb (Validator.required dim)
  else
    match mapped with
    | Some m =>
        forallb (column_exists columns) (Validator.column_names m)
        && (Validator.multiple dim || negb (Validator.several m))
    | None => true
    end.

(** A required dimension is filled with one existing column of an
    accepted type (an optional dimension is not looked at). *)
Definition required_filled (mapping : Validator.MappingConfig)
  (columns : list Detector.ColumnMeta) (dim : Validator.DimensionDefinition)
  : bool :=
  negb (Validator.required dim) ||
  match lookup mapping (Validator.id dim) with
  | Some (Validator.One colName) =>
      match Validator.find_column columns colName with
      | Some col =>
          negb (str_eqb colName []) &&
          Validator.isTypeCompatible (Detector.confirmedType col)
            (Validator.acceptedTypes dim)
      | None => false
      end
  | _ => false
  end.

(** The same column with another confirmed type, the same dimension with
    other accepted types. *)
Definition with_confirmedType (f : Detector.ColumnMeta -> Detector.DataType)
  (c : Detector.ColumnMeta) : Detector.ColumnMeta :=
  {| Detector.name := Detector.name c;
     Detector.detectedType := Detector.detectedType c;
     Detector.confirmedType := f c;
     Detector.uniqueValues := Detector.uniqueValues c;
     Detector.nullCount := Detector.nullCount c;
     Detector.sampleValues := Detector.sampleValues c;
     Detector.min := Detector.min c;
     Detector.max := Detector.max c;
     Detector.mean := Detector.mean c |}.

Definition with_acceptedTypes
  (g : Validator.DimensionDefinition -> list Detector.DataType)
  (d : Validator.DimensionDefinition) : Validator.DimensionDefinition :=
  {| Validator.id := Validator.id d;
     Validator.name := Validator.name d;
     Validator.description := Validator.description d;
     Validator.required := Validator.required d;
     Validator.acceptedTypes := g d;
     Validator.multiple := Validator.multiple d;
     Validator.defaultAggregation := Validator.defaultAggregation d |}.

(** A column of the validator tests: [{ name, confirmedType }]. *)
Definition test_column (name : jsstring) (t : Detector.DataType)
  : Detector.ColumnMeta :=
  {| Detector.name := name;
     Detector.detectedType := t;
     Detector.confirmedType := t;
     Detector.uniqueValues := 0;
     Detector.nullCount := 0;
     Detector.sampleValues := [];
     Detector.min := None;
     Detector.max := None;
     Detector.mean := None |}.

Definition test_columns : list Detector.ColumnMeta :=
  [test_column (js "Category") Detector.TString;
   test_column (js "Value") Detector.TNumber].

(** ** Text parsing *)

(** The text of the parser example,
    ["Name,Value\nAlpha,100\nBeta,200\nGamma,300"]. *)
Definition example_csv : jsstring :=
  js "Name,Value" ++ [Parser.LF] ++ js "Alpha,100" ++ [Parser.LF]
  ++ js "Beta,200" ++ [Parser.LF] ++ js "Gamma,300".

(** ** Vocabulary of the further properties *)

(** Every code unit is white space. *)
Definition all_space (s : jsstring) : Prop :=
  Forall (fun c => is_space c = true) s.

(** An optional minus sign, and the number it yields. *)
Definition sign_text (neg : bool) : jsstring := if neg then [MINUS] else [].

Definition signed (neg : bool) (x : number) : number :=
  if neg then SFopp x else x.

(** The language of the thousands patterns: an optional minus sign, one
    to three digits, then one or more groups of [sep] and three digits. *)
Definition thousands_shape (sep : codeunit) (s : jsstring) : Prop :=
  exists neg lead groups,
    s = sign_text neg ++ grouped sep lead groups /\
    forallb is_digit lead = true /\
    1 <= List.length lead <= 3 /\
    groups <> [] /\
    Forall three_digits groups.

(** The number nearest to the decimal written [a.b]. *)
Definition decimal_value (a b : jsstring) : number :=
  dec_to_number false (digits_value (a ++ b)) (- Z.of_nat (List.length b)).

(** A cell that the sample skips, or a text that is one of the boolean
    words once trimmed and lower-cased. *)
Definition blank_or_boolean (v : value) : Prop :=
  is_blank v = true \/
  exists s, v = VString s /\ Detector.is_boolean_text (trim s) = true.

(** The metadata of a column that holds nothing. *)
Definition empty_column (name : jsstring) (rows : nat) : Detector.ColumnMeta :=
  {| Detector.name := name;
     Detector.detectedType := Detector.TString;
     Detector.confirmedType := Detector.TString;
     Detector.uniqueValues := 0;
     Detector.nullCount := rows;
     Detector.sampleValues := [];
     Detector.min := None;
     Detector.max := None;
     Detector.mean := None |}.

(** What an entry of [extractColumn] resolves to as a number: a number is
    itself, a text goes through [parseNumber], null stays null. *)
Definition resolved (v : value) : option number :=
  match v with
  | VNumber x => Some x
  | VString s => Detector.parseNumber s
  | _ => None
  end.

(** The list holds no NaN. *)
Definition NaN_free (values : list number) : Prop :=
  Forall (fun x => isNaN x = false) values.

(** The column types that [getCompatible] collects. *)
Definition column_types (columns : list Detector.ColumnMeta)
  : list Detector.DataType :=
  List.map Detector.confirmedType columns.

(** Some column is confirmed as a number. *)
Definition has_number_column (columns : list Detector.ColumnMeta) : bool :=
  existsb (Validator.DataType_eqb Detector.TNumber) (column_types columns).

(** The other axis: [x] for [y] and [y] for [x]; any other key is itself. *)
Definition other_axis (k : jsstring) : jsstring :=
  if str_eqb k (js "x") then js "y"
  else if str_eqb k (js "y") then js "x"
  else k.

(** The mapping with what was under [x] now under [y], and conversely. *)
Definition exchange_axes (mapping : Validator.MappingConfig)
  : Validator.MappingConfig :=
  List.map (fun kv => (other_axis (fst kv), snd kv)) mapping.

End Spec.

(* ================================================================== *)
(** * Properties *)
(* ================================================================== *)

Import JS Spec.

(** ** Pattern matching decides language membership *)

Lemma nullable_spec (r : regex) : nullable r = true <-> matches r [].
Proof.
  induction r as [| | c | lo hi | a IHa b IHb | a IHa b IHb | a IHa]; simpl.
  - split; [discriminate | intro M; inversion M].
  - split; [constructor | reflexivity].
  - split; [discriminate | intro M; inversion M].
  - split; [discriminate | intro M; inversion M].
  - rewrite andb_true_iff, IHa, IHb. split.
    + intros [Ma Mb]. change (@nil codeunit) with (@nil codeunit ++ []).
      now constructor.
    + intro M. inversion M as [| | | a' b' s t Ma Mb E1 E2 | | | |]; subst.
      apply app_eq_nil in E2 as [-> ->]. now split.
  - rewrite orb_true_iff, IHa, IHb. split.
    + intros [M | M]; [now apply MAltL | now apply MAltR].
    + intro M. inversion M; subst; auto.
  - split; [constructor | reflexivity].
Qed.

Lemma deriv_sound (r : regex) :
  forall c s, matches (deriv c r) s -> matches r (c :: s).
Proof.
  induction r as [| | d | lo hi | a IHa b IHb | a IHa b IHb | a IHa];
    simpl; intros c s M.
  - inversion M.
  - inversion M.
  - destruct (N.eqb c d) eqn:E; inversion M; subst.
    apply N.eqb_eq in E. subst. constructor.
  - destruct (in_range lo hi c) eqn:E; inversion M; subst.
    now constructor.
  - assert (C : forall u, matches (RCat (deriv c a) b) u ->
                          matches (RCat a b) (c :: u)).
    { intros u Mu.
      inversion Mu as [| | | a' b' s1 t Ma Mb E1 E2 | | | |]; subst.
      change (c :: s1 ++ t) with ((c :: s1) ++ t).
      constructor; auto. }
    destruct (nullable a) eqn:Nu; [| now apply C].
    inversion M; subst; [now apply C |].
    change (c :: s) with ([] ++ c :: s).
    constructor; [now apply nullable_spec | auto].
  - inversion M; subst; [apply MAltL | apply MAltR]; auto.
  - inversion M as [| | | a' b' s1 t Ma Mb E1 E2 | | | |]; subst.
    change (c :: s1 ++ t) with ((c :: s1) ++ t).
    constructor; auto.
Qed.

Lemma deriv_complete {r : regex} {u : jsstring} :
  matches r u -> forall c s, u = c :: s -> matches (deriv c r) s.
Proof.
  induction 1 as [| d | lo hi d R | a b s1 t Ma IHa Mb IHb
                  | a b s1 Ma IHa | a b s1 Mb IHb | a
                  | a s1 t Ma IHa Mb IHb]; intros c s E; simpl.
  - discriminate.
  - injection E as -> <-. rewrite N.eqb_refl. constructor.
  - injection E as -> <-. rewrite R. constructor.
  - destruct s1 as [| x s1'].
    + simpl in E. subst t.
      apply nullable_spec in Ma. rewrite Ma.
      apply MAltR. now apply IHb.
    + simpl in E. injection E as -> <-.
      assert (C : matches (RCat (deriv c a) b) (s1' ++ t))
        by (constructor; auto).
      destruct (nullable a); [now apply MAltL | exact C].
  - apply MAltL. now apply IHa.
  - apply MAltR. now apply IHb.
  - discriminate.
  - destruct s1 as [| x s1'].
    + simpl in E. now apply IHb.
    + simpl in E. injection E as -> <-.
      constructor; auto.
Qed.

Theorem test_spec (r : regex) (s : jsstring) :
  test r s = true <-> matches r s.
Proof.
  revert r. induction s as [| c s IH]; intro r; simpl.
  - apply nullable_spec.
  - rewrite IH. split.
    + apply deriv_sound.
    + intro M. now apply (deriv_complete (u := c :: s) M).
Qed.

(** ** The guard on every conversion *)

Lemma guard_cases (n : number) :
  Detector.guard n = None \/
  exists x, Detector.guard n = Some x /\ isNaN x = false.
Proof.
  unfold Detector.guard. destruct (isNaN n) eqn:E.
  - now left.
  - right. now exists n.
Qed.

(** C10. For every input string, both copies of [parseNumber] return
    either null or a number that is not NaN: each conversion branch passes
    its [Number()] result through the [isNaN] guard. *)
Theorem parseNumber_never_NaN (s : jsstring) :
  (Detector.parseNumber s = None \/
   exists x, Detector.parseNumber s = Some x /\ isNaN x = false) /\
  (Detector2.parseNumber s = None \/
   exists x, Detector2.parseNumber s = Some x /\ isNaN x = false).
Proof.
  split.
  - unfold Detector.parseNumber.
    repeat match goal with
           | |- context [if ?b then _ else _] => destruct b
           end; auto using guard_cases.
  - unfold Detector2.parseNumber.
    repeat match goal with
           | |- context [if ?b then _ else _] => destruct b
           end; auto using guard_cases.
Qed.

(** ** Code units *)

Lemma is_digit_iff (c : codeunit) :
  is_digit c = true <-> (48 <= c <= 57)%N.
Proof.
  unfold is_digit. rewrite andb_true_iff, !N.leb_le. tauto.
Qed.

Lemma space_not_digit (c : codeunit) : is_space c = true -> is_digit c = false.
Proof.
  unfold is_space. intro E. apply existsb_exists in E as [x [I E]].
  apply N.eqb_eq in E. subst x.
  repeat (destruct I as [<- | I]; [reflexivity |]). destruct I.
Qed.

Lemma digit_not_space (c : codeunit) : is_digit c = true -> is_space c = false.
Proof.
  intro D. destruct (is_space c) eqn:E; [| reflexivity].
  apply space_not_digit in E. congruence.
Qed.

Lemma str_eqb_eq (a b : jsstring) : str_eqb a b = true <-> a = b.
Proof.
  revert b. induction a as [| x a IH]; intros [| y b]; simpl;
    try (split; [discriminate | discriminate]); try tauto.
  rewrite andb_true_iff, N.eqb_eq, IH. split.
  - intros [-> ->]. reflexivity.
  - intro E. injection E. auto.
Qed.

Lemma str_eqb_refl (a : jsstring) : str_eqb a a = true.
Proof. now apply str_eqb_eq. Qed.

(** ** Trimming *)

Lemma trimStart_id (s : jsstring) :
  match s with [] => True | c :: _ => is_space c = false end ->
  trimStart s = s.
Proof.
  destruct s as [| c r]; simpl; [reflexivity |]. now intros ->.
Qed.

Lemma hd_rev_last (s : jsstring) (d : codeunit) : hd d (rev s) = last s d.
Proof.
  induction s as [| x s IH]; [reflexivity |].
  simpl rev. destruct s as [| y s]; [reflexivity |].
  change (last (x :: y :: s) d) with (last (y :: s) d). rewrite <- IH.
  simpl. destruct (rev s ++ [y]) eqn:E; [| reflexivity].
  apply app_eq_nil in E as [_ E]. discriminate.
Qed.

Lemma trim_id (s : jsstring) : no_outer_space s -> trim s = s.
Proof.
  destruct s as [| c r]; [reflexivity |]. intros [H1 H2].
  unfold trim. rewrite trimStart_id by exact H1.
  unfold trimEnd. rewrite trimStart_id; [apply rev_involutive |].
  pose proof (hd_rev_last (c :: r) c) as E.
  destruct (rev (c :: r)) as [| x l] eqn:R; [exact I |].
  simpl in E. now rewrite E.
Qed.

Lemma trimStart_head (s : jsstring) :
  match trimStart s with [] => True | c :: _ => is_space c = false end.
Proof.
  induction s as [| c r IH]; simpl; [exact I |].
  destruct (is_space c) eqn:E; [exact IH | exact E].
Qed.

Lemma trimStart_suffix (s : jsstring) : exists p, s = p ++ trimStart s.
Proof.
  induction s as [| c r [p IH]]; simpl.
  - now exists [].
  - destruct (is_space c).
    + exists (c :: p). simpl. now f_equal.
    + now exists [].
Qed.

(** A trimmed string has no white space at either end. *)
Lemma trim_no_outer_space (s : jsstring) : no_outer_space (trim s).
Proof.
  unfold trim, trimEnd. set (t := trimStart s).
  pose proof (trimStart_head (rev t)) as Hl.
  destruct (rev (trimStart (rev t))) as [| c r] eqn:E; [exact I |].
  change (is_space c = false /\ is_space (last (c :: r) c) = false). split.
  - destruct (trimStart_suffix (rev t)) as [p Hp].
    assert (Ht : t = rev (trimStart (rev t)) ++ rev p).
    { rewrite <- rev_app_distr, <- Hp. symmetry. apply rev_involutive. }
    rewrite E in Ht. pose proof (trimStart_head s) as Hs. fold t in Hs.
    rewrite Ht in Hs. exact Hs.
  - rewrite <- (hd_rev_last (c :: r) c), <- E, rev_involutive.
    destruct (trimStart (rev t)) as [| x l]; [discriminate | exact Hl].
Qed.

Lemma trim_idempotent (s : jsstring) : trim (trim s) = trim s.
Proof. apply trim_id, trim_no_outer_space. Qed.

(** ** Rounding never yields NaN *)

Lemma iter_pos_invariant {A : Type} (P : A -> Prop) (f : A -> A) :
  (forall x, P x -> P (f x)) ->
  forall n x, P x -> P (iter_pos f n x).
Proof.
  intros Hf. induction n as [n IH | n IH |]; simpl; intros x Px; auto.
Qed.

Lemma shr_1_nonneg (r : shr_record) :
  (0 <= shr_m r)%Z -> (0 <= shr_m (shr_1 r))%Z.
Proof.
  destruct r as [m b1 b2]. simpl.
  destruct m as [| p | p]; [| destruct p | ]; simpl; lia.
Qed.

Lemma shr_nonneg (r : shr_record) (e n : Z) :
  (0 <= shr_m r)%Z -> (0 <= shr_m (fst (shr r e n)))%Z.
Proof.
  intro Hr. destruct n as [| p | p]; simpl; auto.
  apply (iter_pos_invariant (fun x => (0 <= shr_m x)%Z)); auto.
  apply shr_1_nonneg.
Qed.

Lemma shr_fexp_nonneg (m e : Z) (l : location) :
  (0 <= m)%Z -> (0 <= shr_m (fst (shr_fexp prec emax m e l)))%Z.
Proof.
  intro Hm. unfold shr_fexp. apply shr_nonneg.
  destruct l as [| []]; simpl; exact Hm.
Qed.

Lemma round_nearest_even_nonneg (m : Z) (l : location) :
  (0 <= m)%Z -> (0 <= round_nearest_even m l)%Z.
Proof.
  intro Hm. destruct l as [| []]; simpl; try lia.
  destruct (Z.even m); lia.
Qed.

Lemma binary_round_aux_not_NaN (s : bool) (m e : Z) (l : location) :
  (0 <= m)%Z -> isNaN (binary_round_aux prec emax s m e l) = false.
Proof.
  intro Hm. unfold binary_round_aux.
  pose proof (shr_fexp_nonneg m e l Hm) as H1.
  destruct (shr_fexp prec emax m e l) as [r1 e1]. simpl in H1.
  pose proof (shr_fexp_nonneg _ e1 loc_Exact
                (round_nearest_even_nonneg _ (loc_of_shr_record r1) H1)) as H2.
  destruct (shr_fexp prec emax _ e1 loc_Exact) as [r2 e2]. simpl in H2.
  destruct (shr_m r2) as [| p | p]; [reflexivity | | lia].
  destruct (Z.leb e2 (emax - prec)); reflexivity.
Qed.

Lemma binary_round_not_NaN (s : bool) (m : positive) (e : Z) :
  isNaN (binary_round prec emax s m e) = false.
Proof.
  unfold binary_round. destruct (shl_align m e _) as [mz ez].
  apply binary_round_aux_not_NaN. lia.
Qed.

Lemma of_Z_not_NaN (z : Z) : isNaN (of_Z z) = false.
Proof.
  unfold of_Z, binary_normalize.
  destruct z; [reflexivity | |]; apply binary_round_not_NaN.
Qed.

Lemma dec_to_number_not_NaN (neg : bool) (m : N) (e : Z) :
  isNaN (dec_to_number neg m e) = false.
Proof.
  unfold dec_to_number. destruct m as [| p]; [reflexivity |].
  destruct (0 <=? e)%Z eqn:He; [apply binary_round_not_NaN |].
  apply Z.leb_gt in He. unfold SFdiv_core_binary.
  match goal with
  | |- context [IntDef.Z.div_eucl ?a ?b] => set (m' := a); set (d := b)
  end.
  assert (Hm' : (0 <= m')%Z).
  { subst m'.
    match goal with
    | |- (0 <= match ?x with _ => _ end)%Z => destruct x; try lia
    end.
    apply Z.shiftl_nonneg. lia. }
  assert (Hd : (0 < d)%Z) by (subst d; apply Z.pow_pos_nonneg; lia).
  pose proof (Z.div_pos m' d Hm' Hd) as Hq. unfold Z.div in Hq.
  change IntDef.Z.div_eucl with Z.div_eucl.
  destruct (Z.div_eucl m' d) as [q r]. simpl in Hq.
  now apply binary_round_aux_not_NaN.
Qed.

Lemma dec_to_number_integer (m : N) :
  dec_to_number false m 0 = of_Z (Z.of_N m).
Proof.
  unfold dec_to_number, of_Z, binary_normalize.
  destruct m as [| p]; simpl; [reflexivity |].
  now rewrite Pos.mul_1_r.
Qed.

(** ** What trimming keeps *)

Lemma In_trimStart (c : codeunit) (s : jsstring) :
  In c s -> is_space c = false -> In c (trimStart s).
Proof.
  intros I Hc. induction s as [| x r IH]; [destruct I |].
  simpl. destruct (is_space x) eqn:E; [| exact I].
  destruct I as [-> | I]; [congruence | now apply IH].
Qed.

Lemma trimStart_In (c : codeunit) (s : jsstring) :
  In c (trimStart s) -> In c s.
Proof.
  destruct (trimStart_suffix s) as [p E]. intro I.
  rewrite E. apply in_or_app. now right.
Qed.

Lemma In_trim (c : codeunit) (s : jsstring) :
  In c s -> is_space c = false -> In c (trim s).
Proof.
  intros I Hc. unfold trim, trimEnd.
  apply -> in_rev. apply In_trimStart; [| exact Hc].
  apply -> in_rev. now apply In_trimStart.
Qed.

Lemma trim_In (c : codeunit) (s : jsstring) : In c (trim s) -> In c s.
Proof.
  unfold trim, trimEnd. intro I.
  apply in_rev in I. apply trimStart_In in I. apply in_rev in I.
  now apply trimStart_In in I.
Qed.

Lemma has_digit_false (s : jsstring) :
  has_digit s = false <-> forall c, In c s -> is_digit c = false.
Proof.
  unfold has_digit. split.
  - intros E c I. destruct (is_digit c) eqn:D; [| reflexivity].
    assert (X : existsb is_digit s = true)
      by (apply existsb_exists; now exists c).
    congruence.
  - intro A. destruct (existsb is_digit s) eqn:E; [| reflexivity].
    apply existsb_exists in E as [c [I D]]. rewrite (A c I) in D. discriminate.
Qed.

Lemma has_digit_trim (s : jsstring) : has_digit (trim s) = has_digit s.
Proof.
  unfold has_digit.
  destruct (existsb is_digit s) eqn:E.
  - apply existsb_exists in E as [c [I D]]. apply existsb_exists.
    exists c. split; [| exact D].
    apply In_trim; [exact I | now apply digit_not_space].
  - apply has_digit_false. intros c I.
    apply trim_In in I. revert c I. now apply has_digit_false.
Qed.

(** ** [Number] on text without a digit, and on digit strings *)

Lemma span_digits_stop (c : codeunit) (r : jsstring) :
  is_digit c = false -> span_digits (c :: r) = ([], c :: r).
Proof. intro D. simpl. now rewrite D. Qed.

Lemma span_digits_no_digit (s : jsstring) :
  has_digit s = false -> span_digits s = ([], s).
Proof.
  destruct s as [| c r]; [reflexivity |]. intro E.
  apply span_digits_stop.
  apply (proj1 (has_digit_false _) E). now left.
Qed.

Lemma span_digits_all (ds : jsstring) :
  forallb is_digit ds = true -> span_digits ds = (ds, []).
Proof.
  induction ds as [| c r IH]; simpl; [reflexivity |].
  intro A. apply andb_true_iff in A as [D A].
  now rewrite D, (IH A).
Qed.

Lemma parse_unsigned_decimal_needs_digit (s : jsstring) :
  has_digit s = false -> parse_unsigned_decimal s = None.
Proof.
  intro E. unfold parse_unsigned_decimal.
  rewrite (span_digits_no_digit _ E).
  destruct s as [| c r]; [reflexivity |].
  destruct (N.eqb c 46); [| reflexivity].
  assert (Er : has_digit r = false).
  { apply has_digit_false. intros x I.
    apply (proj1 (has_digit_false _) E). now right. }
  now rewrite (span_digits_no_digit _ Er).
Qed.

Lemma parse_non_decimal_needs_digit (s : jsstring) :
  has_digit s = false -> parse_non_decimal s = None.
Proof.
  intro E. destruct s as [| z [| p [| q r]]]; try reflexivity.
  unfold parse_non_decimal.
  assert (Z0 : is_digit z = false)
    by (apply (proj1 (has_digit_false _) E); now left).
  destruct (N.eqb z 48) eqn:Ez; [| reflexivity].
  apply N.eqb_eq in Ez. subst z. discriminate.
Qed.

Lemma parse_decimal_no_digit (s : jsstring) (v : number) :
  has_digit s = false -> parse_decimal s = Some v ->
  exists neg, v = Infinity neg.
Proof.
  intros E. unfold parse_decimal.
  destruct (split_sign s) as [neg u] eqn:S.
  assert (Eu : has_digit u = false).
  { apply has_digit_false. intros x I.
    apply (proj1 (has_digit_false _) E).
    destruct s as [| c r]; simpl in S.
    - injection S as <- <-. destruct I.
    - destruct (N.eqb c 43); [injection S as <- <-; now right |].
      destruct (N.eqb c 45); injection S as <- <-; [now right | exact I]. }
  destruct (str_eqb u (js "Infinity")).
  - intro V. injection V as <-. now exists neg.
  - now rewrite (parse_unsigned_decimal_needs_digit _ Eu).
Qed.

(** Text without a digit that is not blank either converts to NaN or is a
    signed [Infinity]. *)
Lemma Number_no_digit (u : jsstring) :
  has_digit u = false -> trim u <> [] ->
  Number u = NaN \/ exists neg, Number u = Infinity neg.
Proof.
  intros E NB. unfold Number.
  assert (Et : has_digit (trim u) = false) by now rewrite has_digit_trim.
  destruct (trim u) as [| c r] eqn:T; [congruence |].
  rewrite (parse_non_decimal_needs_digit _ Et).
  destruct (parse_decimal (c :: r)) as [v |] eqn:P; [| now left].
  right. exact (parse_decimal_no_digit _ _ Et P).
Qed.

Lemma not_blank (c : codeunit) (u : jsstring) :
  In c u -> is_space c = false -> trim u <> [].
Proof.
  intros I Hc E. apply (In_trim _ _ I) in Hc. rewrite E in Hc. destruct Hc.
Qed.

Lemma digits_no_outer_space (ds : jsstring) :
  forallb is_digit ds = true -> no_outer_space ds.
Proof.
  intro A. destruct ds as [| c r]; [exact I |].
  pose proof (proj1 (forallb_forall _ _) A) as F.
  split; apply digit_not_space, F.
  - now left.
  - destruct (exists_last (l := c :: r)) as [l' [a E]]; [discriminate |].
    rewrite E at 1. rewrite last_last. rewrite E.
    apply in_or_app. right. now left.
Qed.

(** [differs c k]: the code unit [c], known by its bounds, is not [k]. *)
Ltac differs c k :=
  replace (N.eqb c k) with false by (symmetry; apply N.eqb_neq; lia).

(** A non-empty string of decimal digits converts to the integer it
    writes, rounded to binary64. *)
Lemma Number_digits (ds : jsstring) :
  ds <> [] -> forallb is_digit ds = true ->
  Number ds = of_Z (Z.of_N (digits_value ds)).
Proof.
  intros NE A. unfold Number.
  rewrite (trim_id _ (digits_no_outer_space _ A)).
  destruct ds as [| c r]; [congruence |].
  pose proof A as A'. simpl in A'. apply andb_true_iff in A' as [Dc Dr].
  apply is_digit_iff in Dc.
  assert (ND : parse_non_decimal (c :: r) = None).
  { destruct r as [| p [| q r]]; try reflexivity.
    unfold parse_non_decimal.
    simpl in Dr. apply andb_true_iff in Dr as [Dp _].
    apply is_digit_iff in Dp.
    destruct (N.eqb c 48); [| reflexivity]. simpl negb. cbv iota.
    differs p 120%N. differs p 88%N. differs p 111%N.
    differs p 79%N. differs p 98%N. differs p 66%N.
    reflexivity. }
  rewrite ND. unfold parse_decimal, split_sign.
  differs c 43%N. differs c 45%N.
  replace (str_eqb (c :: r) (js "Infinity")) with false.
  2:{ change (js "Infinity") with (73%N :: js "nfinity"). simpl.
      differs c 73%N. reflexivity. }
  unfold parse_unsigned_decimal. rewrite (span_digits_all _ A).
  simpl. apply dec_to_number_integer.
Qed.

(** ** The thousands-grouping shape *)

Lemma includes_In (c : codeunit) (s : jsstring) :
  includes c s = true <-> In c s.
Proof.
  unfold includes. rewrite existsb_exists. split.
  - intros [x [I E]]. apply N.eqb_eq in E. now subst.
  - intro I. exists c. split; [exact I | apply N.eqb_refl].
Qed.

Lemma matches_digit (c : codeunit) : is_digit c = true -> matches rdigit [c].
Proof. intro D. now constructor. Qed.

Lemma matches_rrep_digits (g : jsstring) :
  forallb is_digit g = true -> matches (rrep (List.length g) rdigit) g.
Proof.
  induction g as [| c g IH]; simpl; intro A; [constructor |].
  apply andb_true_iff in A as [D A].
  change (c :: g) with ([c] ++ g).
  constructor; [now apply matches_digit | now apply IH].
Qed.

Lemma matches_rupto_digits (n : nat) (g : jsstring) :
  List.length g <= n -> forallb is_digit g = true ->
  matches (rupto n rdigit) g.
Proof.
  revert g. induction n as [| n IH]; intros [| c g] L A; simpl in *.
  - constructor.
  - lia.
  - apply MAltL. constructor.
  - apply andb_true_iff in A as [D A].
    apply MAltR. change (c :: g) with ([c] ++ g).
    constructor; [now apply matches_digit | apply IH; [lia | exact A]].
Qed.

Lemma matches_groups (sep : codeunit) (groups : list jsstring) :
  Forall three_digits groups ->
  matches (RStar (Detector.sep_group sep)) (List.concat (List.map (cons sep) groups)).
Proof.
  induction 1 as [| g gs [L A] _ IH]; simpl; [constructor |].
  change (sep :: g ++ List.concat (List.map (cons sep) gs))
    with ((sep :: g) ++ List.concat (List.map (cons sep) gs)).
  constructor; [| exact IH].
  change (sep :: g) with ([sep] ++ g). constructor; [constructor |].
  rewrite <- L. now apply matches_rrep_digits.
Qed.

Lemma matches_thousands (sep : codeunit) (lead : jsstring)
  (groups : list jsstring) :
  forallb is_digit lead = true -> 1 <= List.length lead <= 3 ->
  groups <> [] -> Forall three_digits groups ->
  matches
    (RCat (ropt (RChr MINUS))
       (RCat (RCat rdigit (rupto 2 rdigit)) (rplus (Detector.sep_group sep))))
    (grouped sep lead groups).
Proof.
  intros A L NE F. unfold grouped.
  change (lead ++ _) with ([] ++ lead ++ List.concat (List.map (cons sep) groups)).
  constructor; [apply MAltL; constructor |].
  constructor.
  - destruct lead as [| c lead]; simpl in *; [lia |].
    apply andb_true_iff in A as [D A].
    change (c :: lead) with ([c] ++ lead).
    constructor; [now apply matches_digit |].
    apply (matches_rupto_digits 2 lead); [lia | exact A].
  - destruct groups as [| g gs]; [congruence |].
    inversion F as [| g' gs' [Lg Ag] Fgs]; subst. simpl.
    change (sep :: g ++ List.concat (List.map (cons sep) gs))
      with ((sep :: g) ++ List.concat (List.map (cons sep) gs)).
    constructor; [| now apply matches_groups].
    change (sep :: g) with ([sep] ++ g). constructor; [constructor |].
    rewrite <- Lg. now apply matches_rrep_digits.
Qed.

Lemma grouped_elements (sep : codeunit) (lead : jsstring)
  (groups : list jsstring) (c : codeunit) :
  forallb is_digit lead = true -> Forall three_digits groups ->
  In c (grouped sep lead groups) -> is_digit c = true \/ c = sep.
Proof.
  intros A F I. unfold grouped in I. apply in_app_or in I as [I | I].
  - left. exact (proj1 (forallb_forall _ _) A c I).
  - induction F as [| g gs [_ Ag] _ IH]; simpl in I; [destruct I |].
    destruct I as [<- | I]; [now right |].
    apply in_app_or in I as [I | I]; [| now apply IH].
    left. exact (proj1 (forallb_forall _ _) Ag c I).
Qed.

Lemma grouped_has_sep (sep : codeunit) (lead : jsstring)
  (groups : list jsstring) :
  groups <> [] -> In sep (grouped sep lead groups).
Proof.
  intro NE. destruct groups as [| g gs]; [congruence |].
  unfold grouped. apply in_or_app. right. simpl. now left.
Qed.

Lemma removeAll_digits (sep : codeunit) (ds : jsstring) :
  is_digit sep = false -> forallb is_digit ds = true -> removeAll sep ds = ds.
Proof.
  intros S A. unfold removeAll. induction ds as [| c r IH]; simpl; [reflexivity |].
  simpl in A. apply andb_true_iff in A as [D A].
  destruct (N.eqb c sep) eqn:E.
  - apply N.eqb_eq in E. subst. congruence.
  - simpl. now rewrite IH.
Qed.

Lemma removeAll_app (sep : codeunit) (a b : jsstring) :
  removeAll sep (a ++ b) = removeAll sep a ++ removeAll sep b.
Proof. unfold removeAll. apply filter_app. Qed.

Lemma removeAll_grouped (sep : codeunit) (lead : jsstring)
  (groups : list jsstring) :
  is_digit sep = false ->
  forallb is_digit lead = true -> Forall three_digits groups ->
  removeAll sep (grouped sep lead groups) = lead ++ List.concat groups.
Proof.
  intros S A F. unfold grouped. rewrite removeAll_app.
  rewrite (removeAll_digits _ _ S A). f_equal.
  induction F as [| g gs [_ Ag] _ IH]; simpl; [reflexivity |].
  unfold removeAll at 1. simpl. rewrite N.eqb_refl. simpl.
  fold (removeAll sep (g ++ List.concat (List.map (cons sep) gs))).
  rewrite removeAll_app, (removeAll_digits _ _ S Ag). now f_equal.
Qed.

Lemma digits_grouped (lead : jsstring) (groups : list jsstring) :
  forallb is_digit lead = true -> Forall three_digits groups ->
  forallb is_digit (lead ++ List.concat groups) = true.
Proof.
  intros A F. rewrite forallb_app, A. simpl.
  induction F as [| g gs [_ Ag] _ IH]; simpl; [reflexivity |].
  now rewrite forallb_app, Ag, IH.
Qed.

Lemma all_no_space (s : jsstring) :
  (forall c, In c s -> is_space c = false) -> no_outer_space s.
Proof.
  intro A. destruct s as [| c r]; [exact I |]. split.
  - apply A. now left.
  - apply A. destruct (exists_last (l := c :: r)) as [l' [a E]]; [discriminate |].
    rewrite E at 1. rewrite last_last. rewrite E.
    apply in_or_app. right. now left.
Qed.

Lemma guard_of_Z (z : Z) : Detector.guard (of_Z z) = Some (of_Z z).
Proof. unfold Detector.guard. now rewrite of_Z_not_NaN. Qed.

(** The common part of both groupings: the text is already trimmed, is not
    a lone sign, and its separator-free form is a digit string. *)
Lemma grouped_facts (sep : codeunit) (lead : jsstring) (groups : list jsstring) :
  is_digit sep = false -> is_space sep = false ->
  forallb is_digit lead = true -> 1 <= List.length lead <= 3 ->
  groups <> [] -> Forall three_digits groups ->
  let s := grouped sep lead groups in
  trim s = s /\
  str_eqb s [] || str_eqb s (js "-") = false /\
  includes sep s = true /\
  (forall c, c <> sep -> is_digit c = false -> includes c s = false) /\
  Detector.guard (Number (removeAll sep s)) =
    Some (of_Z (Z.of_N (digits_value (lead ++ List.concat groups)))).
Proof.
  intros S W A L NE F s.
  assert (El : forall c, In c s -> is_digit c = true \/ c = sep)
    by (intros c; now apply grouped_elements).
  split; [| split; [| split; [| split]]].
  - apply trim_id, all_no_space. intros c I.
    destruct (El c I) as [D | ->]; [now apply digit_not_space | exact W].
  - subst s. unfold grouped.
    destruct lead as [| c lead]; simpl in *; [lia |].
    apply andb_true_iff in A as [D _]. apply is_digit_iff in D.
    differs c 45%N. reflexivity.
  - apply includes_In. now apply grouped_has_sep.
  - intros c Nc Dc. destruct (includes c s) eqn:E; [| reflexivity].
    apply includes_In in E. destruct (El c E); congruence.
  - subst s. rewrite (removeAll_grouped _ _ _ S A F).
    rewrite Number_digits; [apply guard_of_Z | | now apply digits_grouped].
    destruct lead; simpl in *; [lia | discriminate].
Qed.

(** X26. By the first copy of [parseNumber] (detector.ts lines 114-164) a
    string of one to three digits followed by one or more groups of a
    comma and exactly three digits is read with the comma as thousands
    separator: it returns the integer that the digits write once the
    commas are deleted.  The same holds with the dot in place of the
    comma. *)
Theorem thousands_grouping (lead : jsstring) (groups : list jsstring) :
  forallb is_digit lead = true -> 1 <= List.length lead <= 3 ->
  groups <> [] -> Forall three_digits groups ->
  removeAll COMMA (grouped COMMA lead groups) = lead ++ List.concat groups /\
  Detector.parseNumber (grouped COMMA lead groups)
    = Some (of_Z (Z.of_N (digits_value (lead ++ List.concat groups)))) /\
  removeAll DOT (grouped DOT lead groups) = lead ++ List.concat groups /\
  Detector.parseNumber (grouped DOT lead groups)
    = Some (of_Z (Z.of_N (digits_value (lead ++ List.concat groups)))).
Proof.
  intros A L NE F.
  split; [now apply removeAll_grouped |].
  split; [| split; [now apply removeAll_grouped |]].
  - destruct (grouped_facts COMMA lead groups eq_refl eq_refl A L NE F)
      as (T & NS & IC & Oth & G).
    unfold Detector.parseNumber. cbv zeta. rewrite T, NS, IC.
    rewrite (Oth DOT) by (reflexivity || discriminate).
    cbv beta iota delta [andb].
    replace (test Detector.US_THOUSANDS (grouped COMMA lead groups)) with true.
    + exact G.
    + symmetry. apply test_spec. now apply matches_thousands.
  - destruct (grouped_facts DOT lead groups eq_refl eq_refl A L NE F)
      as (T & NS & IC & Oth & G).
    unfold Detector.parseNumber. cbv zeta. rewrite T, NS, IC.
    rewrite (Oth COMMA) by (reflexivity || discriminate).
    cbv beta iota delta [andb].
    replace (test Detector.EU_THOUSANDS (grouped DOT lead groups)) with true.
    + exact G.
    + symmetry. apply test_spec. now apply matches_thousands.
Qed.

Lemma thousands_grouping_witness :
  Detector.parseNumber (js "12,345,678") = Some (of_Z 12345678) /\
  Detector.parseNumber (js "12.345.678") = Some (of_Z 12345678).
Proof.
  destruct (thousands_grouping (js "12") [js "345"; js "678"]) as (_ & U & _ & E).
  - reflexivity.
  - simpl. lia.
  - discriminate.
  - repeat constructor.
  - split; [exact U | exact E].
Defined.

(** ** Patterns that cannot match without a digit *)

Lemma needs_digit_sound (r : regex) (s : jsstring) :
  matches r s -> needs_digit r = true -> has_digit s = true.
Proof.
  unfold has_digit.
  induction 1 as [| d | lo hi d R | a b s1 t Ma IHa Mb IHb
                  | a b s1 Ma IHa | a b s1 Mb IHb | a
                  | a s1 t Ma IHa Mb IHb]; simpl; intro Nd;
    try discriminate.
  - now rewrite Nd.
  - unfold in_range in R. apply andb_true_iff in R as [R1 R2].
    apply andb_true_iff in Nd as [N1 N2].
    apply N.leb_le in R1, R2, N1, N2.
    replace (is_digit d) with true; [reflexivity |].
    symmetry. apply is_digit_iff. lia.
  - rewrite existsb_app. apply orb_true_iff in Nd as [Nd | Nd];
      [rewrite (IHa Nd) | rewrite (IHb Nd)]; auto using orb_true_r.
  - apply andb_true_iff in Nd as [Nd _]. auto.
  - apply andb_true_iff in Nd as [_ Nd]. auto.
Qed.

Lemma test_needs_digit (r : regex) (s : jsstring) :
  needs_digit r = true -> has_digit s = false -> test r s = false.
Proof.
  intros Nd E. destruct (test r s) eqn:T; [| reflexivity].
  apply test_spec in T. rewrite (needs_digit_sound r s T Nd) in E. discriminate.
Qed.

(** ** Separator normalisation keeps a digit-free text digit-free *)

Lemma removeAll_In (x c : codeunit) (s : jsstring) :
  In c (removeAll x s) <-> In c s /\ c <> x.
Proof.
  unfold removeAll. rewrite filter_In, negb_true_iff, N.eqb_neq. reflexivity.
Qed.

Lemma replaceFirst_In (c d x : codeunit) (s : jsstring) :
  In x (replaceFirst c d s) -> In x s \/ x = d.
Proof.
  induction s as [| y r IH]; simpl; [tauto |].
  destruct (N.eqb y c); simpl; intros [E | I]; auto.
  destruct (IH I); auto.
Qed.

Lemma replaceFirst_puts (c d : codeunit) (s : jsstring) :
  In c s -> In d (replaceFirst c d s).
Proof.
  induction s as [| y r IH]; simpl; [tauto |].
  destruct (N.eqb y c) eqn:E; simpl.
  - now left.
  - intros [-> | I]; [rewrite N.eqb_refl in E; discriminate | right; auto].
Qed.

Lemma has_digit_removeAll (x : codeunit) (s : jsstring) :
  has_digit s = false -> has_digit (removeAll x s) = false.
Proof.
  rewrite !has_digit_false. intros A c I.
  apply removeAll_In in I as [I _]. auto.
Qed.

Lemma has_digit_replaceFirst (c d : codeunit) (s : jsstring) :
  is_digit d = false -> has_digit s = false ->
  has_digit (replaceFirst c d s) = false.
Proof.
  rewrite !has_digit_false. intros D A x I.
  destruct (replaceFirst_In _ _ _ _ I) as [I' | ->]; auto.
Qed.

Lemma guard_no_digit (u : jsstring) :
  has_digit u = false -> trim u <> [] ->
  Detector.guard (Number u) = None \/
  exists neg, Detector.guard (Number u) = Some (Infinity neg).
Proof.
  intros E NB. destruct (Number_no_digit u E NB) as [-> | [neg ->]].
  - now left.
  - right. now exists neg.
Qed.

(** ** The text [parseNumber] hands to [Number()] *)

Lemma guard_None (n : number) : Detector.guard n = None <-> isNaN n = true.
Proof.
  unfold Detector.guard. destruct (isNaN n); split; congruence.
Qed.

Lemma parseNumber_normalized (s : jsstring) :
  Detector.parseNumber s =
  if str_eqb (trim s) [] || str_eqb (trim s) (js "-") then None
  else Detector.guard (Number (normalized (trim s))).
Proof.
  unfold Detector.parseNumber, normalized. cbv zeta.
  repeat match goal with
         | |- context [if ?b then _ else _] => destruct b
         end; reflexivity.
Qed.

Lemma Number_NaN (t : jsstring) :
  isNaN (Number t) = negb (is_numeric_literal t).
Proof.
  unfold Number, is_numeric_literal.
  destruct (trim t) as [| c r]; [reflexivity |].
  destruct (parse_non_decimal (c :: r)); [apply of_Z_not_NaN |].
  unfold parse_decimal. destruct (split_sign (c :: r)) as [neg u].
  destruct (str_eqb u (js "Infinity")); [reflexivity |].
  destruct (parse_unsigned_decimal u) as [[m e] |]; [| reflexivity].
  apply dec_to_number_not_NaN.
Qed.

Lemma normalized_no_digit (t : jsstring) :
  has_digit t = false -> t <> [] -> trim t = t ->
  has_digit (normalized t) = false /\ trim (normalized t) <> [].
Proof.
  intros E NE T. unfold normalized. cbv zeta.
  destruct (includes COMMA t) eqn:IC, (includes DOT t) eqn:ID;
    cbv beta iota delta [andb].
  - apply includes_In in IC, ID.
    destruct (lastIndexOf COMMA t >? lastIndexOf DOT t)%Z; split.
    + apply has_digit_replaceFirst; [reflexivity |].
      now apply has_digit_removeAll.
    + apply (not_blank DOT); [| reflexivity].
      apply replaceFirst_puts. apply removeAll_In. split; [exact IC | discriminate].
    + now apply has_digit_removeAll.
    + apply (not_blank DOT); [| reflexivity].
      apply removeAll_In. split; [exact ID | discriminate].
  - rewrite !test_needs_digit by (reflexivity || exact E).
    split; [exact E | now rewrite T].
  - rewrite !test_needs_digit by (reflexivity || exact E).
    split; [exact E | now rewrite T].
  - split; [exact E | now rewrite T].
Qed.

(** C1, as the code has it. [parseNumber] is a total function.  It returns
    null exactly when the input trims to the empty string, trims to a lone
    minus sign, or the text handed to [Number()] after the separators are
    rewritten is not a numeric literal.  An input without any decimal
    digit is among these unless it is a signed [Infinity]; inputs that do
    hold digits can be among them as well. *)
Theorem parseNumber_null_cases (s : jsstring) :
  (Detector.parseNumber s = None <->
   trim s = [] \/ trim s = js "-" \/
   is_numeric_literal (normalized (trim s)) = false) /\
  (has_digit s = false ->
   Detector.parseNumber s = None \/
   exists neg, Detector.parseNumber s = Some (Infinity neg)).
Proof.
  rewrite parseNumber_normalized. split.
  - destruct (str_eqb (trim s) []) eqn:E1.
    { apply str_eqb_eq in E1. simpl. tauto. }
    destruct (str_eqb (trim s) (js "-")) eqn:E2.
    { apply str_eqb_eq in E2. simpl. tauto. }
    simpl. rewrite guard_None, Number_NaN, negb_true_iff.
    split; [tauto |]. intros [E | [E | E]]; [| | exact E].
    + rewrite E in E1. discriminate.
    + rewrite E, str_eqb_refl in E2. discriminate.
  - intro D. destruct (str_eqb (trim s) [] || str_eqb (trim s) (js "-")) eqn:E;
      [now left |].
    apply orb_false_iff in E as [E1 _].
    rewrite <- has_digit_trim in D.
    destruct (normalized_no_digit (trim s) D) as [Dn NB].
    + intro Z. rewrite Z in E1. discriminate.
    + apply trim_idempotent.
    + now apply guard_no_digit.
Qed.

Lemma parseNumber_null_cases_witness :
  Detector.parseNumber (js "N/A") = None \/
  exists neg, Detector.parseNumber (js "N/A") = Some (Infinity neg).
Proof.
  apply (proj2 (parseNumber_null_cases (js "N/A"))). reflexivity.
Defined.

(** C1, as worded, fails: the token below is made of digits and commas,
    does not trim to the empty string or to a lone minus sign, and still
    yields null. *)
Lemma parseNumber_null_with_digits :
  Detector.parseNumber (js "1,2,3") = None /\
  trim (js "1,2,3") <> [] /\
  trim (js "1,2,3") <> js "-" /\
  has_digit (js "1,2,3") = true.
Proof.
  repeat split; try reflexivity; vm_compute; discriminate.
Qed.

(** ** The last occurrence of a separator *)

Lemma lastIndexOf_from_absent (c : codeunit) (a : jsstring) (i acc : Z) :
  ~ In c a -> lastIndexOf_from c a i acc = acc.
Proof.
  revert i acc. induction a as [| x r IH]; simpl; intros i acc NI; [reflexivity |].
  destruct (N.eqb x c) eqn:E.
  - apply N.eqb_eq in E. tauto.
  - apply IH. tauto.
Qed.

Lemma lastIndexOf_from_app (c : codeunit) (a b : jsstring) (i acc : Z) :
  lastIndexOf_from c (a ++ b) i acc =
  lastIndexOf_from c b (i + Z.of_nat (List.length a))%Z (lastIndexOf_from c a i acc).
Proof.
  revert i acc. induction a as [| x r IH]; intros i acc.
  - simpl. now rewrite Z.add_0_r.
  - simpl app. simpl lastIndexOf_from. rewrite IH. f_equal.
    simpl List.length. lia.
Qed.

(** [lastIndexOf] returns the index of an occurrence that no later
    occurrence follows. *)
Lemma lastIndexOf_from_present (c : codeunit) (a : jsstring) :
  In c a -> forall i acc,
  exists k, lastIndexOf_from c a i acc = (i + Z.of_nat k)%Z /\
            nth_error a k = Some c /\
            forall j, k < j -> nth_error a j <> Some c.
Proof.
  induction a as [| x r IH]; [intros [] |]. intros I i acc.
  destruct (in_dec N.eq_dec c r) as [Ir | Nr].
  - destruct (IH Ir (i + 1)%Z (if N.eqb x c then i else acc)) as (k & E & Hk & Hl).
    exists (S k). simpl. repeat split.
    + rewrite E. lia.
    + exact Hk.
    + intros [| j] Lj; [lia |]. simpl. apply Hl. lia.
  - destruct I as [-> | I]; [| tauto].
    exists 0. simpl. rewrite N.eqb_refl. repeat split.
    + rewrite lastIndexOf_from_absent by exact Nr. lia.
    + intros [| j] Lj; [lia |]. simpl. intro Hj.
      apply nth_error_In in Hj. tauto.
Qed.

Lemma lastIndexOf_from_shift (c : codeunit) (a : jsstring) (i acc : Z) :
  In c a -> lastIndexOf_from c a i acc = (i + lastIndexOf c a)%Z.
Proof.
  intro I. unfold lastIndexOf.
  destruct (lastIndexOf_from_present c a I i acc) as (k & E & Hk & Hl).
  destruct (lastIndexOf_from_present c a I 0%Z (-1)%Z) as (k' & E' & Hk' & Hl').
  rewrite E, E'. simpl.
  destruct (Nat.lt_trichotomy k k') as [L | [-> | L]]; [| reflexivity |].
  - now destruct (Hl k' L).
  - now destruct (Hl' k L).
Qed.

Lemma trimStart_decompose (s : jsstring) :
  exists p, s = p ++ trimStart s /\ forall c, In c p -> is_space c = true.
Proof.
  induction s as [| x r (p & E & A)]; simpl.
  - exists []. split; [reflexivity | intros c []].
  - destruct (is_space x) eqn:Sx.
    + exists (x :: p). split; [simpl; now f_equal |].
      intros c [<- | I]; auto.
    + exists []. split; [reflexivity | intros c []].
Qed.

Lemma trim_decompose (s : jsstring) :
  exists p q, s = p ++ trim s ++ q /\
              (forall c, In c p -> is_space c = true) /\
              (forall c, In c q -> is_space c = true).
Proof.
  destruct (trimStart_decompose s) as (p & Ep & Ap).
  destruct (trimStart_decompose (rev (trimStart s))) as (q & Eq & Aq).
  exists p, (rev q). repeat split; [| exact Ap |].
  - unfold trim, trimEnd. rewrite <- rev_app_distr, <- Eq, rev_involutive.
    exact Ep.
  - intros c I. apply Aq. now apply in_rev.
Qed.

(** Trimming shifts the last occurrence of a character that is not white
    space by the number of leading white-space code units. *)
Lemma lastIndexOf_trim (s : jsstring) :
  exists off, forall c, In c s -> is_space c = false ->
    lastIndexOf c s = (off + lastIndexOf c (trim s))%Z.
Proof.
  destruct (trim_decompose s) as (p & q & E & Ap & Aq).
  exists (Z.of_nat (List.length p)). intros c I Hc.
  assert (Np : ~ In c p) by (intro X; rewrite (Ap c X) in Hc; discriminate).
  assert (Nq : ~ In c q) by (intro X; rewrite (Aq c X) in Hc; discriminate).
  pose proof (In_trim c s I Hc) as It.
  unfold lastIndexOf at 1. rewrite E at 1.
  rewrite !lastIndexOf_from_app.
  rewrite (lastIndexOf_from_absent c q) by exact Nq.
  rewrite (lastIndexOf_from_absent c p) by exact Np.
  now rewrite lastIndexOf_from_shift.
Qed.

Lemma lastIndexOf_distinct (c d : codeunit) (s : jsstring) :
  c <> d -> In c s -> In d s -> lastIndexOf c s <> lastIndexOf d s.
Proof.
  intros N Ic Id. unfold lastIndexOf.
  destruct (lastIndexOf_from_present c s Ic 0%Z (-1)%Z) as (k & E & Hk & _).
  destruct (lastIndexOf_from_present d s Id 0%Z (-1)%Z) as (k' & E' & Hk' & _).
  rewrite E, E'. intro X. assert (k = k') by lia. subst k'. congruence.
Qed.

(** C2. In a string that holds both a comma and a dot, the separator whose
    last occurrence comes later is the decimal separator: when it is the
    comma, every dot is deleted and the comma is written as the decimal
    point; when it is the dot, every comma is deleted; the result is then
    converted.  The two cases are exhaustive.  In particular
    ["1.234.567,89"] and ["1,234,567.89"] both give [1234567.89]. *)
Theorem last_separator_is_decimal (s : jsstring) :
  In COMMA s -> In DOT s ->
  lastIndexOf COMMA s <> lastIndexOf DOT s /\
  ((lastIndexOf DOT s < lastIndexOf COMMA s)%Z ->
   Detector.parseNumber s =
   Detector.guard (Number (replaceFirst COMMA DOT (removeAll DOT (trim s))))) /\
  ((lastIndexOf COMMA s < lastIndexOf DOT s)%Z ->
   Detector.parseNumber s =
   Detector.guard (Number (removeAll COMMA (trim s)))) /\
  Detector.parseNumber (js "1.234.567,89") = Some (literal 1234567.89) /\
  Detector.parseNumber (js "1,234,567.89") = Some (literal 1234567.89).
Proof.
  intros Ic Id.
  split; [apply lastIndexOf_distinct; [discriminate | exact Ic | exact Id] |].
  destruct (lastIndexOf_trim s) as [off Off].
  rewrite (Off COMMA Ic eq_refl), (Off DOT Id eq_refl).
  pose proof (In_trim _ _ Ic eq_refl) as Tc.
  pose proof (In_trim _ _ Id eq_refl) as Td.
  assert (Pre : Detector.parseNumber s =
    if (lastIndexOf COMMA (trim s) >? lastIndexOf DOT (trim s))%Z
    then Detector.guard (Number (replaceFirst COMMA DOT (removeAll DOT (trim s))))
    else Detector.guard (Number (removeAll COMMA (trim s)))).
  { unfold Detector.parseNumber. cbv zeta.
    replace (str_eqb (trim s) []) with false
      by (destruct (trim s); [destruct Tc | reflexivity]).
    replace (str_eqb (trim s) (js "-")) with false.
    2:{ symmetry. destruct (str_eqb (trim s) (js "-")) eqn:X; [| reflexivity].
        apply str_eqb_eq in X. rewrite X in Tc.
        destruct Tc as [Y | []]. discriminate. }
    apply includes_In in Tc, Td. rewrite Tc, Td. reflexivity. }
  split; [| split; [| split]].
  - intro L. rewrite Pre.
    replace (_ >? _)%Z with true by (symmetry; apply Z.gtb_lt; lia).
    reflexivity.
  - intro L. rewrite Pre.
    replace (_ >? _)%Z with false; [reflexivity |].
    symmetry. rewrite Z.gtb_ltb. apply Z.ltb_ge. lia.
  - vm_compute. reflexivity.
  - vm_compute. reflexivity.
Qed.

Lemma last_separator_is_decimal_witness :
  Detector.parseNumber (js "1.5,25") =
  Detector.guard (Number (js "15.25")).
Proof.
  destruct (last_separator_is_decimal (js "1.5,25")) as (_ & E & _).
  - simpl. tauto.
  - simpl. tauto.
  - apply E. reflexivity.
Defined.

(** ** The 80% gate *)

Lemma clears_table :
  forallb
    (fun total =>
       forallb
         (fun count =>
            Bool.eqb (Detector.clears count total) (more_than_80_percent count total))
         (seq 0 (S total)))
    (seq 0 (S Detector.SAMPLE_SIZE)) = true.
Proof. vm_compute. reflexivity. Qed.

(** On a sample of at most [SAMPLE_SIZE] values the floating-point test
    [count / total > 0.8] holds exactly when [count] is more than 80% of
    [total]. *)
Lemma clears_spec (count total : nat) :
  count <= total -> total <= Detector.SAMPLE_SIZE ->
  Detector.clears count total = more_than_80_percent count total.
Proof.
  intros Hc Ht.
  pose proof (proj1 (forallb_forall _ _) clears_table total) as T.
  cbv beta in T.
  assert (It : In total (seq 0 (S Detector.SAMPLE_SIZE))) by (apply in_seq; lia).
  pose proof (proj1 (forallb_forall _ _) (T It) count) as C.
  cbv beta in C.
  assert (Ic : In count (seq 0 (S total))) by (apply in_seq; lia).
  apply eqb_prop. exact (C Ic).
Qed.

Lemma filter_length_le {A : Type} (p : A -> bool) (l : list A) :
  List.length (filter p l) <= List.length l.
Proof.
  induction l as [| x l IH]; simpl; [lia |].
  destruct (p x); simpl; lia.
Qed.

(** C4, as the code has it. An empty sample is typed string.  Otherwise
    the classifiers are tried in the order boolean, date, number, string;
    a classifier is cleared exactly when strictly more than 80% of the
    sampled values match it, and the next one is tried exactly when the
    match ratio is at most 80%.  This holds for every sample of at most
    [SAMPLE_SIZE] values, hence for the type of every column that
    [detectColumnTypes] describes. *)
Theorem detectSingleColumnType_threshold (host : Host) :
  (forall values,
     List.length values <= Detector.SAMPLE_SIZE ->
     Detector.detectSingleColumnType values = classified values) /\
  (forall data name,
     Detector.detectedType (Detector.columnMeta data name) =
     classified
       (filter (fun v => negb (is_blank v))
          (List.map (fun row => get row name) (firstn Detector.SAMPLE_SIZE data)))).
Proof.
  assert (Core : forall values,
            List.length values <= Detector.SAMPLE_SIZE ->
            Detector.detectSingleColumnType values = classified values).
  { intros values L. unfold Detector.detectSingleColumnType, classified.
    destruct values as [| v vs]; [reflexivity |].
    set (vals := v :: vs) in *. cbv zeta. unfold count_matching.
    set (texts := List.map (fun v0 => trim (ToString v0)) vals).
    assert (Ln : List.length texts = List.length vals)
      by (unfold texts; apply length_map).
    rewrite Ln.
    rewrite !clears_spec by
      (try exact L; rewrite <- Ln; apply filter_length_le).
    reflexivity. }
  split; [exact Core |].
  intros data name. unfold Detector.columnMeta. simpl Detector.detectedType.
  apply Core.
  etransitivity; [apply filter_length_le |].
  rewrite length_map. apply firstn_le_length.
Qed.

Lemma detectSingleColumnType_threshold_witness :
  Detector.detectSingleColumnType (H := example_host)
    [VString (js "true"); VString (js "No"); VString (js "1")]
  = Detector.TBoolean.
Proof.
  rewrite (proj1 (detectSingleColumnType_threshold example_host))
    by (unfold Detector.SAMPLE_SIZE; simpl; lia).
  reflexivity.
Defined.

(** C4, as worded, fails: four of the five values below are booleans, a
    match ratio of exactly 80%, and the boolean classifier is not cleared:
    the column falls through and ends up typed string. *)
Lemma detectSingleColumnType_at_80_percent :
  let values :=
    List.map (fun s => VString (js s)) ["true"; "false"; "yes"; "no"; "abc"]%string in
  100 * count_matching (H := example_host) Detector.is_boolean_text values
    = 80 * List.length values /\
  Detector.detectSingleColumnType (H := example_host) values = Detector.TString.
Proof. split; vm_compute; reflexivity. Qed.

(** ** Grouping *)

Lemma Map_has_In (groups : Mapper.Groups) (k : jsstring) :
  Mapper.Map_has groups k = true <-> In k (List.map fst groups).
Proof.
  unfold Mapper.Map_has. rewrite existsb_exists, in_map_iff. split.
  - intros [e [I E]]. apply str_eqb_eq in E. exists e. auto.
  - intros [e [E I]]. exists e. split; [exact I |]. apply str_eqb_eq. auto.
Qed.

Lemma Map_has_app (a b : Mapper.Groups) (k : jsstring) :
  Mapper.Map_has (a ++ b) k = Mapper.Map_has a k || Mapper.Map_has b k.
Proof. unfold Mapper.Map_has. apply existsb_app. Qed.

Lemma map_pushed_absent (k : jsstring) (v : number) (groups : Mapper.Groups) :
  ~ In k (List.map fst groups) -> List.map (pushed k v) groups = groups.
Proof.
  induction groups as [| [k' vs] r IH]; simpl; intro NI; [reflexivity |].
  unfold pushed at 1. simpl.
  destruct (str_eqb k k') eqn:E.
  - apply str_eqb_eq in E. subst. tauto.
  - rewrite IH by tauto. reflexivity.
Qed.

Lemma Map_push_present (k : jsstring) (v : number) (groups : Mapper.Groups) :
  NoDup (List.map fst groups) ->
  Mapper.Map_push groups k v = List.map (pushed k v) groups.
Proof.
  induction groups as [| [k' vs] r IH]; simpl; intro ND; [reflexivity |].
  inversion ND as [| x l NI ND']; subst.
  unfold pushed at 1. simpl.
  destruct (str_eqb k k') eqn:E.
  - apply str_eqb_eq in E. subst k'. now rewrite map_pushed_absent.
  - now rewrite IH.
Qed.

Lemma Map_push_new (k : jsstring) (v : number) (groups : Mapper.Groups) :
  ~ In k (List.map fst groups) ->
  Mapper.Map_push (Mapper.Map_set_new groups k) k v = groups ++ [(k, [v])].
Proof.
  unfold Mapper.Map_set_new.
  induction groups as [| [k' vs] r IH]; simpl; intro NI.
  - now rewrite str_eqb_refl.
  - destruct (str_eqb k k') eqn:E.
    + apply str_eqb_eq in E. subst. tauto.
    + rewrite IH by tauto. reflexivity.
Qed.

Lemma map_fst_pushed (k : jsstring) (v : number) (groups : Mapper.Groups) :
  List.map fst (List.map (pushed k v) groups) = List.map fst groups.
Proof.
  rewrite map_map. apply map_ext. intros [k' vs]. unfold pushed. simpl.
  now destruct (str_eqb k k').
Qed.

Lemma values_for_cons (k k' : jsstring) (v : number)
  (pairs : list (jsstring * number)) :
  values_for k ((k', v) :: pairs) =
  if str_eqb k' k then v :: values_for k pairs else values_for k pairs.
Proof.
  unfold values_for. simpl. now destruct (str_eqb k' k).
Qed.

Lemma str_eqb_sym (a b : jsstring) : str_eqb a b = str_eqb b a.
Proof.
  destruct (str_eqb a b) eqn:E, (str_eqb b a) eqn:F; try reflexivity.
  - apply str_eqb_eq in E. subst. rewrite str_eqb_refl in F. discriminate.
  - apply str_eqb_eq in F. subst. rewrite str_eqb_refl in E. discriminate.
Qed.

Lemma str_eqb_neq (a b : jsstring) : str_eqb a b = false <-> a <> b.
Proof.
  rewrite <- str_eqb_eq. destruct (str_eqb a b); split; congruence.
Qed.

Lemma filter_all {A : Type} (f : A -> bool) (l : list A) :
  (forall x, f x = true) -> filter f l = l.
Proof.
  intro T. induction l as [| x l IH]; simpl; [reflexivity |].
  now rewrite T, IH.
Qed.

Lemma filter_twice {A : Type} (f g : A -> bool) (l : list A) :
  filter f (filter g l) = filter (fun x => g x && f x) l.
Proof.
  induction l as [| x l IH]; simpl; [reflexivity |].
  destruct (g x); simpl; [destruct (f x) |]; now rewrite IH.
Qed.

Lemma Map_has_pushed (k : jsstring) (v : number) (groups : Mapper.Groups)
  (x : jsstring) :
  Mapper.Map_has (List.map (pushed k v) groups) x = Mapper.Map_has groups x.
Proof.
  destruct (Mapper.Map_has groups x) eqn:E.
  - apply Map_has_In. rewrite map_fst_pushed. now apply Map_has_In.
  - destruct (Mapper.Map_has (List.map (pushed k v) groups) x) eqn:F;
      [| reflexivity].
    apply Map_has_In in F. rewrite map_fst_pushed in F.
    apply Map_has_In in F. congruence.
Qed.

Lemma add_pair_cases (groups : Mapper.Groups) (k : jsstring) (v : number) :
  NoDup (List.map fst groups) ->
  add_pair groups (k, v) =
  if Mapper.Map_has groups k then List.map (pushed k v) groups
  else groups ++ [(k, [v])].
Proof.
  intro ND. unfold add_pair. simpl.
  destruct (Mapper.Map_has groups k) eqn:E.
  - now apply Map_push_present.
  - apply Map_push_new. rewrite <- Map_has_In. congruence.
Qed.

Lemma fold_group_step (host : Host) (cc vc : jsstring)
  (data : list Detector.DataRow) (acc : Mapper.Groups) :
  fold_left (Mapper.group_step cc vc) data acc =
  fold_left add_pair (contributions cc vc data) acc.
Proof.
  revert acc. induction data as [| row data IH]; intro acc; [reflexivity |].
  unfold contributions. simpl. rewrite fold_left_app.
  fold (contributions cc vc data). rewrite <- IH. f_equal.
  unfold Mapper.group_step.
  destruct (Mapper.value_of vc row) as [v |]; reflexivity.
Qed.

(** The map after the loop: every entry already there has gained the
    values of its category, and the categories not yet there follow in
    the order in which they are first seen. *)
Lemma fold_add_pair (pairs : list (jsstring * number)) :
  forall acc, NoDup (List.map fst acc) ->
  fold_left add_pair pairs acc =
  List.map (fun e => (fst e, snd e ++ values_for (fst e) pairs)) acc ++
  List.map (fun k => (k, values_for k pairs))
    (filter (fun k => negb (Mapper.Map_has acc k))
       (first_seen (List.map fst pairs))).
Proof.
  induction pairs as [| [k v] P IH]; intros acc ND.
  - simpl. rewrite app_nil_r. rewrite <- (map_id acc) at 1.
    apply map_ext. intros [k vs]. simpl. now rewrite app_nil_r.
  - simpl fold_left. rewrite add_pair_cases by exact ND.
    simpl List.map at 3. simpl first_seen.
    destruct (Mapper.Map_has acc k) eqn:Hk.
    + rewrite IH by (rewrite map_fst_pushed; exact ND).
      simpl negb. cbv iota. f_equal.
      * rewrite map_map. apply map_ext. intros [k' vs].
        unfold pushed. simpl. rewrite values_for_cons.
        destruct (str_eqb k k'); simpl; [| reflexivity].
        now rewrite <- app_assoc.
      * rewrite filter_twice.
        rewrite (filter_ext (fun x => negb (str_eqb x k) && negb (Mapper.Map_has acc x))
                   (fun x => negb (Mapper.Map_has acc x))).
        2:{ intro x. destruct (str_eqb x k) eqn:E; [| reflexivity].
            apply str_eqb_eq in E. subst x. now rewrite Hk. }
        rewrite (filter_ext (fun x => negb (Mapper.Map_has (List.map (pushed k v) acc) x))
                   (fun x => negb (Mapper.Map_has acc x)))
          by (intro x; now rewrite Map_has_pushed).
        apply map_ext_in. intros x I. apply filter_In in I as [_ I].
        rewrite values_for_cons.
        destruct (str_eqb k x) eqn:E; [| reflexivity].
        apply str_eqb_eq in E. subst x. rewrite Hk in I. discriminate.
    + assert (NI : ~ In k (List.map fst acc))
        by (rewrite <- Map_has_In; congruence).
      rewrite IH.
      2:{ rewrite map_app. simpl. apply NoDup_app; [exact ND | repeat constructor; intros [] |].
          intros x Ix [<- | []]. contradiction. }
      simpl negb. cbv iota.
      rewrite map_app. simpl List.map. rewrite <- app_assoc. f_equal.
      * apply map_ext_in. intros [k' vs] I. simpl. rewrite values_for_cons.
        destruct (str_eqb k k') eqn:E; [| reflexivity].
        apply str_eqb_eq in E. subst k'. destruct NI.
        apply in_map_iff. now exists (k, vs).
      * simpl. rewrite values_for_cons, str_eqb_refl. f_equal.
        rewrite filter_twice.
        rewrite (filter_ext (fun x => negb (Mapper.Map_has (acc ++ [(k, [v])]) x))
                   (fun x => negb (str_eqb x k) && negb (Mapper.Map_has acc x))).
        2:{ intro x. rewrite Map_has_app. unfold Mapper.Map_has at 2. simpl.
            destruct (Mapper.Map_has acc x), (str_eqb x k); reflexivity. }
        apply map_ext_in. intros x I. apply filter_In in I as [_ I].
        rewrite values_for_cons.
        destruct (str_eqb k x) eqn:E; [| reflexivity].
        rewrite str_eqb_sym in E. rewrite E in I. discriminate.
Qed.

Lemma first_seen_In (ks : list jsstring) (k : jsstring) :
  In k (first_seen ks) <-> In k ks.
Proof.
  induction ks as [| x r IH]; simpl; [tauto |].
  rewrite filter_In, IH, negb_true_iff, str_eqb_neq.
  destruct (list_eq_dec N.eq_dec x k); [| split; [tauto | intros [| ]; auto]].
  tauto.
Qed.

Lemma first_seen_NoDup (ks : list jsstring) : NoDup (first_seen ks).
Proof.
  induction ks as [| x r IH]; simpl; constructor.
  - rewrite filter_In, negb_true_iff, str_eqb_neq. tauto.
  - now apply NoDup_filter.
Qed.

Lemma values_for_nonempty (k : jsstring) (pairs : list (jsstring * number)) :
  In k (List.map fst pairs) -> values_for k pairs <> [].
Proof.
  induction pairs as [| [k' v] P IH]; simpl; [tauto |].
  rewrite values_for_cons. intros [-> | I].
  - rewrite str_eqb_refl. discriminate.
  - destruct (str_eqb k' k); [discriminate | auto].
Qed.

Lemma contributions_In (host : Host) (cc vc : jsstring)
  (data : list Detector.DataRow) (k : jsstring) (v : number) :
  In (k, v) (contributions cc vc data) <->
  exists row, In row data /\ Mapper.value_of vc row = Some v /\
              Mapper.category_of cc row = k.
Proof.
  unfold contributions. rewrite in_flat_map. split.
  - intros [row [I X]]. exists row. split; [exact I |].
    destruct (Mapper.value_of vc row) as [w |]; [| destruct X].
    destruct X as [X | []]. injection X as <- <-. auto.
  - intros [row (I & V & C)]. exists row. split; [exact I |].
    rewrite V, C. now left.
Qed.

(** C5. [groupAndAggregate] returns one group per distinct category of
    the contributing rows, in the order in which the categories are first
    seen, the category being the cell's string form and the empty string
    when the cell is missing.  A row contributes exactly when its value
    cell is a number or resolves through [parseNumber]; the other rows
    add nothing to any group, so a group's value aggregates its
    contributing values alone (its count is their number) and every group
    has at least one.  Aggregating no value at all gives 0. *)
Theorem groupAndAggregate_groups (host : Host) (data : list Detector.DataRow)
  (categoryColumn valueColumn : jsstring) (aggregation : Mapper.AggregationType) :
  let pairs := contributions categoryColumn valueColumn data in
  let categories := first_seen (List.map fst pairs) in
  Mapper.groupAndAggregate data categoryColumn valueColumn aggregation =
    List.map
      (fun k => {| Mapper.category := k;
                   Mapper.value := Mapper.aggregate (values_for k pairs) aggregation |})
      categories /\
  NoDup categories /\
  (forall k, In k categories <->
     exists row v, In row data /\
                   Mapper.value_of valueColumn row = Some v /\
                   Mapper.category_of categoryColumn row = k) /\
  (forall k, In k categories -> values_for k pairs <> []) /\
  (forall k, In k categories ->
     Mapper.aggregate (values_for k pairs) Mapper.AggCount =
     of_nat (List.length (values_for k pairs))) /\
  (forall row,
     Mapper.category_of categoryColumn row =
     if is_nullish (get row categoryColumn) then []
     else ToString (get row categoryColumn)) /\
  (forall row,
     Mapper.value_of valueColumn row =
     match get row valueColumn with
     | VNumber x => Some x
     | cell => Detector.parseNumber (ToString (or_empty cell))
     end) /\
  (forall method, Mapper.aggregate [] method = S754_zero false).
Proof.
  intros pairs categories.
  assert (In_cat : forall k, In k categories <-> In k (List.map fst pairs))
    by (intro k; apply first_seen_In).
  repeat split.
  - unfold Mapper.groupAndAggregate. rewrite fold_group_step.
    fold pairs. rewrite fold_add_pair by constructor.
    simpl List.map at 2. simpl app.
    rewrite filter_all by reflexivity.
    rewrite map_map. reflexivity.
  - apply first_seen_NoDup.
  - intro I. apply In_cat, in_map_iff in I as [[k' v] [E I]].
    simpl in E. subst k'. apply contributions_In in I as [row R].
    now exists row, v.
  - intros [row [v R]]. apply In_cat, in_map_iff. exists (k, v).
    split; [reflexivity |]. apply contributions_In. now exists row.
  - intros k I. apply values_for_nonempty. now apply In_cat.
  - intros k I. apply In_cat, (values_for_nonempty k pairs) in I.
    now destruct (values_for k pairs).
  - intro row. unfold Mapper.category_of, or_empty.
    now destruct (is_nullish (get row categoryColumn)).
Qed.

(** The five rows of the example. *)
Lemma region_rows_contributions (host : Host) :
  List.map fst (contributions (js "Region") (js "Sales") region_rows) =
  List.map js ["North"; "South"; "North"; "South"; "East"]%string.
Proof. vm_compute. reflexivity. Qed.

(** C6. On the five Region/Sales rows, summing by Region gives
    North = 250, South = 450, East = 300 in that order, and the mean of
    the North group is 125. *)
Theorem groupAndAggregate_regions (host : Host) :
  Mapper.groupAndAggregate region_rows (js "Region") (js "Sales") Mapper.AggSum =
    [ {| Mapper.category := js "North"; Mapper.value := literal 250 |};
      {| Mapper.category := js "South"; Mapper.value := literal 450 |};
      {| Mapper.category := js "East"; Mapper.value := literal 300 |} ] /\
  find (fun d => str_eqb (Mapper.category d) (js "North"))
    (Mapper.groupAndAggregate region_rows (js "Region") (js "Sales") Mapper.AggMean) =
    Some {| Mapper.category := js "North"; Mapper.value := literal 125 |}.
Proof. split; vm_compute; reflexivity. Qed.

(** ** Mapping validation *)

Lemma check_column_acc (dim : Validator.DimensionDefinition)
  (columns : list Detector.ColumnMeta) (acc : Validator.Lists)
  (colName : jsstring) :
  Validator.check_column dim columns acc colName =
  (fst acc ++ fst (Validator.check_column dim columns ([], []) colName),
   snd acc ++ snd (Validator.check_column dim columns ([], []) colName)).
Proof.
  destruct acc as [e w]. unfold Validator.check_column.
  destruct (Validator.find_column columns colName) as [col |]; simpl.
  - destruct (negb _); simpl; now rewrite !app_nil_r.
  - now rewrite app_nil_r.
Qed.

Lemma fold_check_column (dim : Validator.DimensionDefinition)
  (columns : list Detector.ColumnMeta) (names : list jsstring) :
  forall acc,
  fold_left (Validator.check_column dim columns) names acc =
  (fst acc ++
     flat_map (fun c => fst (Validator.check_column dim columns ([], []) c)) names,
   snd acc ++
     flat_map (fun c => snd (Validator.check_column dim columns ([], []) c)) names).
Proof.
  induction names as [| c names IH]; intro acc; simpl.
  - destruct acc. now rewrite !app_nil_r.
  - rewrite IH, check_column_acc. simpl. now rewrite <- !app_assoc.
Qed.

Lemma check_dimension_acc (mapping : Validator.MappingConfig)
  (columns : list Detector.ColumnMeta) (acc : Validator.Lists)
  (dim : Validator.DimensionDefinition) :
  Validator.check_dimension mapping columns acc dim =
  (fst acc ++ dimension_errors mapping columns dim,
   snd acc ++ dimension_warnings mapping columns dim).
Proof.
  unfold dimension_errors, dimension_warnings, Validator.check_dimension.
  destruct acc as [e w].
  destruct (Validator.required dim && _).
  { simpl. now rewrite app_nil_r. }
  destruct (lookup mapping (Validator.id dim)) as [m |].
  2:{ simpl. now rewrite !app_nil_r. }
  destruct (Validator.falsy (Some m)).
  { simpl. now rewrite !app_nil_r. }
  rewrite !fold_check_column. cbn [fst snd app].
  destruct (negb (Validator.multiple dim) && Validator.several m);
    cbn [fst snd]; now rewrite ?app_assoc.
Qed.

Lemma fold_check_dimension (mapping : Validator.MappingConfig)
  (columns : list Detector.ColumnMeta) (dims : list Validator.DimensionDefinition) :
  forall acc,
  fold_left (Validator.check_dimension mapping columns) dims acc =
  (fst acc ++ flat_map (dimension_errors mapping columns) dims,
   snd acc ++ flat_map (dimension_warnings mapping columns) dims).
Proof.
  induction dims as [| d dims IH]; intro acc; simpl.
  - destruct acc. now rewrite !app_nil_r.
  - rewrite IH, check_dimension_acc. simpl. now rewrite <- !app_assoc.
Qed.

Lemma validateMapping_errors (dims : list Validator.DimensionDefinition)
  (mapping : Validator.MappingConfig) (columns : list Detector.ColumnMeta) :
  Validator.errors (Validator.validateMapping dims mapping columns) =
  flat_map (dimension_errors mapping columns) dims.
Proof.
  unfold Validator.validateMapping. now rewrite fold_check_dimension.
Qed.

Lemma validateMapping_warnings (dims : list Validator.DimensionDefinition)
  (mapping : Validator.MappingConfig) (columns : list Detector.ColumnMeta) :
  Validator.warnings (Validator.validateMapping dims mapping columns) =
  flat_map (dimension_warnings mapping columns) dims.
Proof.
  unfold Validator.validateMapping. now rewrite fold_check_dimension.
Qed.

Lemma validateMapping_isValid (dims : list Validator.DimensionDefinition)
  (mapping : Validator.MappingConfig) (columns : list Detector.ColumnMeta) :
  Validator.isValid (Validator.validateMapping dims mapping columns) =
  match Validator.errors (Validator.validateMapping dims mapping columns) with
  | [] => true
  | _ :: _ => false
  end.
Proof.
  unfold Validator.validateMapping.
  destruct (fold_left (Validator.check_dimension mapping columns) dims ([], []))
    as [e w].
  simpl. now destruct e.
Qed.

Lemma dimension_errors_unfold (mapping : Validator.MappingConfig)
  (columns : list Detector.ColumnMeta) (dim : Validator.DimensionDefinition) :
  dimension_errors mapping columns dim =
  let mapped := lookup mapping (Validator.id dim) in
  if Validator.required dim && (Validator.falsy mapped || Validator.empty_array mapped)
  then [{| Validator.dimensionId := Validator.id dim;
           Validator.message :=
             Validator.quoted (Validator.name dim) ++ js " is required." |}]
  else
    match mapped with
    | None => []
    | Some m =>
        if Validator.falsy mapped then []
        else
          flat_map
            (fun c => fst (Validator.check_column dim columns ([], []) c))
            (Validator.column_names m)
          ++ (if negb (Validator.multiple dim) && Validator.several m
              then [{| Validator.dimensionId := Validator.id dim;
                       Validator.message :=
                         Validator.quoted (Validator.name dim)
                         ++ js " accepts only one column." |}]
              else [])
    end.
Proof.
  unfold dimension_errors, Validator.check_dimension. cbv zeta.
  destruct (Validator.required dim && _); [reflexivity |].
  destruct (lookup mapping (Validator.id dim)) as [m |]; [| reflexivity].
  destruct (Validator.falsy (Some m)); [reflexivity |].
  rewrite fold_check_column. cbn [fst snd app].
  destruct (negb (Validator.multiple dim) && Validator.several m);
    cbn [fst]; [reflexivity | now rewrite app_nil_r].
Qed.

Lemma dimension_warnings_unfold (mapping : Validator.MappingConfig)
  (columns : list Detector.ColumnMeta) (dim : Validator.DimensionDefinition) :
  dimension_warnings mapping columns dim =
  let mapped := lookup mapping (Validator.id dim) in
  if Validator.required dim && (Validator.falsy mapped || Validator.empty_array mapped)
  then []
  else
    match mapped with
    | None => []
    | Some m =>
        if Validator.falsy mapped then []
        else
          flat_map
            (fun c => snd (Validator.check_column dim columns ([], []) c))
            (Validator.column_names m)
    end.
Proof.
  unfold dimension_warnings, Validator.check_dimension. cbv zeta.
  destruct (Validator.required dim && _); [reflexivity |].
  destruct (lookup mapping (Validator.id dim)) as [m |]; [| reflexivity].
  destruct (Validator.falsy (Some m)); [reflexivity |].
  rewrite fold_check_column. cbn [fst snd app].
  destruct (negb (Validator.multiple dim) && Validator.several m); reflexivity.
Qed.

Lemma column_errors_nil (dim : Validator.DimensionDefinition)
  (columns : list Detector.ColumnMeta) (c : jsstring) :
  fst (Validator.check_column dim columns ([], []) c) = [] <->
  column_exists columns c = true.
Proof.
  unfold Validator.check_column, column_exists.
  destruct (Validator.find_column columns c) as [col |].
  - destruct (negb _); simpl; tauto.
  - simpl. split; discriminate.
Qed.

Lemma flat_map_nil {A B : Type} (f : A -> list B) (p : A -> bool) (l : list A) :
  (forall x, f x = [] <-> p x = true) ->
  flat_map f l = [] <-> forallb p l = true.
Proof.
  intro E. induction l as [| x l IH]; simpl; [tauto |].
  rewrite andb_true_iff, <- IH, <- E. split.
  - intro X. now apply app_eq_nil in X.
  - intros [-> ->]. reflexivity.
Qed.

Lemma dimension_errors_nil (mapping : Validator.MappingConfig)
  (columns : list Detector.ColumnMeta) (dim : Validator.DimensionDefinition) :
  dimension_errors mapping columns dim = [] <->
  dimension_ok mapping columns dim = true.
Proof.
  rewrite dimension_errors_unfold. unfold dimension_ok. cbv zeta.
  destruct (lookup mapping (Validator.id dim)) as [m |];
    [| destruct (Validator.required dim); simpl; split; congruence].
  destruct (Validator.falsy (Some m)) eqn:F.
  { destruct (Validator.required dim); simpl; split; congruence. }
  destruct (Validator.empty_array (Some m)) eqn:Em.
  { assert (m = Validator.Many []) as ->.
    { destruct m as [s | [| x l]]; simpl in Em; congruence. }
    destruct (Validator.required dim); simpl; [split; congruence |].
    rewrite andb_false_r. simpl. tauto. }
  rewrite andb_false_r. cbv iota. simpl orb. cbv iota.
  rewrite andb_true_iff.
  rewrite <- (flat_map_nil _ (column_exists columns)) by (intro; apply column_errors_nil).
  destruct (Validator.multiple dim), (Validator.several m);
    cbn [negb andb orb]; rewrite ?app_nil_r;
    try (split; [intro X; split; [exact X | reflexivity] | tauto]).
  split; [intro X; apply app_eq_nil in X as [_ X]; discriminate
         | intros [_ X]; discriminate].
Qed.

Lemma find_column_retyped (f : Detector.ColumnMeta -> Detector.DataType)
  (columns : list Detector.ColumnMeta) (c : jsstring) :
  Validator.find_column (List.map (with_confirmedType f) columns) c =
  option_map (with_confirmedType f) (Validator.find_column columns c).
Proof.
  unfold Validator.find_column.
  induction columns as [| x r IH]; simpl; [reflexivity |].
  destruct (str_eqb (Detector.name x) c); [reflexivity | exact IH].
Qed.

Lemma dimension_errors_retyped (f : Detector.ColumnMeta -> Detector.DataType)
  (g : Validator.DimensionDefinition -> list Detector.DataType)
  (mapping : Validator.MappingConfig) (columns : list Detector.ColumnMeta)
  (dim : Validator.DimensionDefinition) :
  dimension_errors mapping (List.map (with_confirmedType f) columns)
    (with_acceptedTypes g dim) =
  dimension_errors mapping columns dim.
Proof.
  rewrite !dimension_errors_unfold. cbv zeta. simpl.
  destruct (Validator.required dim && _); [reflexivity |].
  destruct (lookup mapping (Validator.id dim)) as [m |]; [| reflexivity].
  destruct (Validator.falsy (Some m)); [reflexivity |].
  f_equal. apply flat_map_ext. intro c.
  unfold Validator.check_column. rewrite find_column_retyped.
  destruct (Validator.find_column columns c) as [col |]; simpl; [| reflexivity].
  now destruct (negb _), (negb _).
Qed.

(** C7, as the code has it.  The result is valid exactly when its error
    list is empty.  The errors do not depend on any confirmed or accepted
    type, and a mapped column that is found with a type the dimension does
    not accept adds a warning for that dimension.  The result is valid
    exactly when every dimension is either unmapped and optional, or
    mapped to existing columns only and to no more than one unless it
    allows several; leaving a required dimension out gives an invalid
    result with an error that carries its id. *)
Theorem validateMapping_validity (dims : list Validator.DimensionDefinition)
  (mapping : Validator.MappingConfig) (columns : list Detector.ColumnMeta) :
  let result := Validator.validateMapping dims mapping columns in
  (Validator.isValid result = true <-> Validator.errors result = []) /\
  (forall f g,
     Validator.errors
       (Validator.validateMapping (List.map (with_acceptedTypes g) dims) mapping
          (List.map (with_confirmedType f) columns))
     = Validator.errors result) /\
  (forall dim m colName col,
     In dim dims ->
     lookup mapping (Validator.id dim) = Some m ->
     Validator.falsy (Some m) = false ->
     In colName (Validator.column_names m) ->
     Validator.find_column columns colName = Some col ->
     Validator.isTypeCompatible (Detector.confirmedType col)
       (Validator.acceptedTypes dim) = false ->
     exists w, In w (Validator.warnings result) /\
               Validator.dimensionId w = Validator.id dim) /\
  Validator.isValid result = forallb (dimension_ok mapping columns) dims /\
  (forall dim,
     In dim dims -> Validator.required dim = true ->
     lookup mapping (Validator.id dim) = None ->
     Validator.isValid result = false /\
     exists e, In e (Validator.errors result) /\
               Validator.dimensionId e = Validator.id dim).
Proof.
  intro result. subst result.
  assert (Req : forall dim, In dim dims -> Validator.required dim = true ->
            lookup mapping (Validator.id dim) = None ->
            exists e, In e (Validator.errors (Validator.validateMapping dims mapping columns))
                      /\ Validator.dimensionId e = Validator.id dim).
  { intros dim I R L. rewrite validateMapping_errors.
    eexists. split.
    - apply in_flat_map. exists dim. split; [exact I |].
      rewrite dimension_errors_unfold. cbv zeta. rewrite R, L. simpl. now left.
    - reflexivity. }
  split; [| split; [| split; [| split]]].
  - rewrite validateMapping_isValid.
    destruct (Validator.errors _); split; congruence.
  - intros f g. rewrite !validateMapping_errors.
    rewrite flat_map_concat_map, map_map, <- flat_map_concat_map.
    apply flat_map_ext. intro dim. apply dimension_errors_retyped.
  - intros dim m colName col I L F Ic Fc T.
    rewrite validateMapping_warnings. eexists. split.
    + apply in_flat_map. exists dim. split; [exact I |].
      rewrite dimension_warnings_unfold. cbv zeta. rewrite L, F.
      replace (Validator.empty_array (Some m)) with false
        by (destruct m as [s | [| x l]]; [reflexivity | destruct Ic | reflexivity]).
      rewrite andb_false_r.
      apply in_flat_map. exists colName. split; [exact Ic |].
      unfold Validator.check_column. rewrite Fc, T. simpl. left. reflexivity.
    + reflexivity.
  - rewrite validateMapping_isValid, validateMapping_errors.
    destruct (forallb (dimension_ok mapping columns) dims) eqn:E.
    + apply (flat_map_nil _ _ dims (dimension_errors_nil mapping columns)) in E.
      now rewrite E.
    + destruct (flat_map (dimension_errors mapping columns) dims) eqn:X;
        [| reflexivity].
      apply (flat_map_nil _ _ dims (dimension_errors_nil mapping columns)) in X.
      congruence.
  - intros dim I R L. split; [| now apply Req].
    destruct (Req dim I R L) as [e [Ie _]].
    rewrite validateMapping_isValid.
    destruct (Validator.errors _); [destruct Ie | reflexivity].
Qed.

Lemma validateMapping_validity_witness :
  Validator.isValid
    (Validator.validateMapping ColumnChart.dimensions
       [(js "x", Validator.One (js "Category"))] test_columns) = false /\
  exists e,
    In e (Validator.errors
            (Validator.validateMapping ColumnChart.dimensions
               [(js "x", Validator.One (js "Category"))] test_columns)) /\
    Validator.dimensionId e = js "y".
Proof.
  destruct (validateMapping_validity ColumnChart.dimensions
              [(js "x", Validator.One (js "Category"))] test_columns)
    as (_ & _ & _ & _ & Req).
  apply (Req (nth 1 ColumnChart.dimensions (nth 0 ColumnChart.dimensions
                 (nth 0 ColumnChart.dimensions
                    {| Validator.id := []; Validator.name := [];
                       Validator.description := []; Validator.required := false;
                       Validator.acceptedTypes := []; Validator.multiple := false;
                       Validator.defaultAggregation := None |})))).
  - simpl. right. left. reflexivity.
  - reflexivity.
  - reflexivity.
Defined.

(** C7, as worded, fails in its third part: in the mapping below both
    required dimensions of the column chart are filled with an existing
    column of an accepted type, and the result is not valid, because the
    optional dimension names a column that does not exist. *)
Lemma validateMapping_optional_missing_column :
  let mapping :=
    [(js "x", Validator.One (js "Category"));
     (js "y", Validator.One (js "Value"));
     (js "color", Validator.One (js "Segment"))] in
  forallb (required_filled mapping test_columns) ColumnChart.dimensions = true /\
  Validator.isValid
    (Validator.validateMapping ColumnChart.dimensions mapping test_columns) = false.
Proof. split; vm_compute; reflexivity. Qed.

(** The two validator tests: a complete mapping of the column chart is
    valid with no error. *)
Lemma validateMapping_complete_mapping :
  let result :=
    Validator.validateMapping ColumnChart.dimensions
      [(js "x", Validator.One (js "Category"));
       (js "y", Validator.One (js "Value"))] test_columns in
  Validator.isValid result = true /\ Validator.errors result = [].
Proof. split; vm_compute; reflexivity. Qed.

(** ** Column metadata *)

Lemma parsed_numbers_In (host : Host) (allValues : list value) (x : number) :
  In x (Detector.parsed_numbers allValues) <->
  exists v, In v allValues /\
            Detector.parseNumber (ToString (or_empty v)) = Some x.
Proof.
  induction allValues as [| v r IH]; simpl.
  - split; [tauto | intros [v [[] _]]].
  - destruct (Detector.parseNumber (ToString (or_empty v))) as [n |] eqn:E.
    + simpl. rewrite IH. split.
      * intros [<- | [w [I P]]]; [exists v | exists w]; auto.
      * intros [w [[<- | I] P]]; [left; congruence | right; now exists w].
    + rewrite IH. split.
      * intros [w [I P]]. exists w. auto.
      * intros [w [[<- | I] P]]; [congruence | now exists w].
Qed.

Lemma parsed_numbers_length (host : Host) (allValues : list value) :
  List.length (Detector.parsed_numbers allValues) =
  List.length
    (filter (fun v => Detector.is_number_text (ToString (or_empty v))) allValues).
Proof.
  induction allValues as [| v r IH]; simpl; [reflexivity |].
  unfold Detector.is_number_text at 1.
  destruct (Detector.parseNumber (ToString (or_empty v))); simpl; now rewrite IH.
Qed.

(** C9. Every column metadata record has one of the four types as its
    confirmed type (the detected one); the type is detected on the
    non-blank cells of the first [SAMPLE_SIZE] rows, while the null count,
    the distinct-value count and the numeric statistics range over all
    rows.  [min], [max] and [mean] are present exactly when the detected
    type is number and at least one cell of the column parses; the cells
    that do not parse are left out of them. *)
Theorem detectColumnTypes_metadata (host : Host) (data : list Detector.DataRow)
  (headers : list jsstring) :
  List.map Detector.name (Detector.detectColumnTypes data headers) = headers /\
  Forall
    (fun m =>
       let allValues := List.map (fun row => get row (Detector.name m)) data in
       let sampled :=
         List.map (fun row => get row (Detector.name m))
           (firstn Detector.SAMPLE_SIZE data) in
       let nums := Detector.parsed_numbers allValues in
       let present :=
         match Detector.detectedType m, nums with
         | Detector.TNumber, _ :: _ => true
         | _, _ => false
         end in
       In (Detector.confirmedType m)
         [Detector.TString; Detector.TNumber; Detector.TDate; Detector.TBoolean] /\
       Detector.confirmedType m = Detector.detectedType m /\
       Detector.detectedType m =
         Detector.detectSingleColumnType
           (filter (fun v => negb (is_blank v)) sampled) /\
       Detector.nullCount m = List.length (filter is_blank allValues) /\
       Detector.uniqueValues m =
         List.length (Set_of [] (filter (fun v => negb (is_blank v)) allValues)) /\
       Detector.min m = (if present then Some (Math_min nums) else None) /\
       Detector.max m = (if present then Some (Math_max nums) else None) /\
       Detector.mean m =
         (if present then Some (div (sum nums) (of_nat (List.length nums)))
          else None) /\
       (forall x, In x nums <->
          exists v, In v allValues /\
                    Detector.parseNumber (ToString (or_empty v)) = Some x) /\
       List.length nums =
         List.length
           (filter (fun v => Detector.is_number_text (ToString (or_empty v)))
              allValues))
    (Detector.detectColumnTypes data headers).
Proof.
  unfold Detector.detectColumnTypes. split.
  - rewrite map_map. simpl. apply map_id.
  - apply Forall_forall. intros m I.
    apply in_map_iff in I as [name [<- _]].
    cbv zeta. simpl Detector.name.
    repeat split.
    + simpl Detector.confirmedType.
      destruct (Detector.detectSingleColumnType _); simpl; tauto.
    + unfold Detector.columnMeta. simpl.
      destruct (Detector.detectSingleColumnType _); try reflexivity.
      now destruct (Detector.parsed_numbers _).
    + unfold Detector.columnMeta. simpl.
      destruct (Detector.detectSingleColumnType _); try reflexivity.
      now destruct (Detector.parsed_numbers _).
    + unfold Detector.columnMeta. simpl.
      destruct (Detector.detectSingleColumnType _); try reflexivity.
      now destruct (Detector.parsed_numbers _).
    + apply parsed_numbers_In.
    + apply parsed_numbers_In.
    + apply parsed_numbers_length.
Qed.

(** The statistics see rows that the sample does not: with a blank cell
    in row 101 alone, the null count is 1. *)
Lemma nullCount_beyond_sample (host : Host) :
  let data :=
    repeat [(js "n", VString (js "7"))] 100 ++ [[(js "n", VString [])]] in
  List.map Detector.nullCount (Detector.detectColumnTypes data [js "n"]) = [1] /\
  List.map Detector.detectedType (Detector.detectColumnTypes data [js "n"])
    = [Detector.TNumber].
Proof. split; vm_compute; reflexivity. Qed.

(** ** Text parsing *)

Lemma as_DataRow_strings (r : object jsstring) :
  Forall (fun kv => exists s, snd kv = VString s) (Parser.as_DataRow r).
Proof.
  unfold Parser.as_DataRow. apply Forall_forall. intros kv I.
  apply in_map_iff in I as [[k s] [<- _]]. now exists s.
Qed.

(** Whatever the library returns, the rows of [parseText] hold strings
    only. *)
Lemma parseText_raw_strings (host : Host)
  (Papa_parse : jsstring -> Parser.PapaResult) (text : jsstring) :
  Forall (Forall (fun kv => exists s, snd kv = VString s))
    (Parser.data (Parser.parseText Papa_parse text)).
Proof.
  unfold Parser.parseText.
  assert (A : forall rows,
             Forall (Forall (fun kv : jsstring * value => exists s, snd kv = VString s))
               (List.map Parser.as_DataRow rows)).
  { intro rows. apply Forall_forall. intros r I.
    apply in_map_iff in I as [r0 [<- _]]. apply as_DataRow_strings. }
  destruct (trim text); [constructor |].
  destruct (Parser.papa_errors _), (Parser.papa_data _); simpl;
    try constructor; try apply as_DataRow_strings; apply (A (_ :: _)) || apply A.
Qed.

(** C8. Text that trims to nothing gives zero rows and the error
    ["Empty input"], whatever the library would do.  The rows that
    [parseText] returns always hold raw strings.  On
    ["Name,Value\nAlpha,100\nBeta,200\nGamma,300"] the row count is 3, the
    headers are [Name] and [Value], and the first row is
    [{ Name: "Alpha", Value: "100" }]. *)
Theorem parseText_contract (host : Host) :
  (forall Papa_parse text,
     trim text = [] ->
     let r := Parser.parseText Papa_parse text in
     Parser.data r = [] /\ Parser.rowCount r = 0 /\
     Parser.errors r = [js "Empty input"]) /\
  (forall Papa_parse text,
     let r := Parser.parseText Papa_parse text in
     Parser.rowCount r = List.length (Parser.data r) /\
     Forall (Forall (fun kv => exists s, snd kv = VString s)) (Parser.data r)) /\
  (let r := Parser.parseText Parser.Papa_parse example_csv in
   Parser.rowCount r = 3 /\
   Parser.rawHeaders r = [js "Name"; js "Value"] /\
   nth_error (Parser.data r) 0 =
     Some [(js "Name", VString (js "Alpha")); (js "Value", VString (js "100"))] /\
   Parser.errors r = []).
Proof.
  split; [| split].
  - intros Papa_parse text E. unfold Parser.parseText. rewrite E.
    repeat split.
  - intros Papa_parse text. split; [| apply parseText_raw_strings].
    unfold Parser.parseText. destruct (trim text); [reflexivity |].
    destruct (Parser.papa_errors _), (Parser.papa_data _); reflexivity.
  - repeat split; vm_compute; reflexivity.
Qed.

Lemma parseText_contract_witness :
  Parser.rowCount (Parser.parseText (H := example_host) Parser.Papa_parse (js "  ")) = 0 /\
  Parser.errors (Parser.parseText (H := example_host) Parser.Papa_parse (js "  "))
    = [js "Empty input"].
Proof.
  destruct (proj1 (parseText_contract example_host) Parser.Papa_parse (js "  "))
    as (_ & R & E).
  - reflexivity.
  - split; [exact R | exact E].
Defined.

(** ** The two copies of [parseNumber] *)

(** The copies part ways: the second reads a lone three-digit group as a
    decimal fraction, which the engine tests rule out ([parseNumber("1,000")]
    is to be 1000), and gives up on a comma that a dot follows at the wrong
    distance.  The statements above are about the first copy. *)
Lemma parseNumber_copies_differ :
  Detector.parseNumber (js "1,000") = Some (literal 1000) /\
  Detector2.parseNumber (js "1,000") = Some (literal 1) /\
  Detector.parseNumber (js "1.000") = Some (literal 1000) /\
  Detector2.parseNumber (js "1.000") = Some (literal 1) /\
  Detector.parseNumber (js "1,5.5") = Some (literal 15.5) /\
  Detector2.parseNumber (js "1,5.5") = None.
Proof. repeat split; vm_compute; reflexivity. Qed.

(** C3. The second copy of [parseNumber] (detector.ts lines 280-307, the
    one that decides by patterns alone) does not treat a lone three-digit
    group as thousands.  ["1,000"] is one digit and one comma group, yet
    this copy tries the European pattern before the US one, takes [,000]
    for the decimals and returns 1, where the first copy returns 1000 as
    the engine tests require; ["1.000"] passes as a plain decimal and
    gives 1 as well, and ["12,345"] and ["12.345"] give 12.345 instead of
    12345.  From two groups on both copies delete the separators. *)
Theorem thousands_grouping_second_copy :
  grouped COMMA (js "1") [js "000"] = js "1,000" /\
  grouped DOT (js "1") [js "000"] = js "1.000" /\
  of_Z (Z.of_N (digits_value (js "1" ++ List.concat [js "000"]))) = literal 1000 /\
  Detector2.parseNumber (js "1,000") = Some (literal 1) /\
  Detector.parseNumber (js "1,000") = Some (literal 1000) /\
  Detector2.parseNumber (js "1.000") = Some (literal 1) /\
  Detector.parseNumber (js "1.000") = Some (literal 1000) /\
  Detector2.parseNumber (js "12,345") = Some (literal 12.345) /\
  Detector.parseNumber (js "12,345") = Some (literal 12345) /\
  Detector2.parseNumber (js "12.345") = Some (literal 12.345) /\
  Detector.parseNumber (js "12.345") = Some (literal 12345) /\
  Detector2.parseNumber (js "1,234,567") = Some (literal 1234567) /\
  Detector2.parseNumber (js "1.234.567") = Some (literal 1234567) /\
  literal 1 <> literal 1000.
Proof. repeat split; try (vm_compute; reflexivity). vm_compute. discriminate. Qed.

(* ================================================================== *)
(** * Further properties of the engine *)
(* ================================================================== *)

(** ** [parseNumber] and white space *)

Lemma trimStart_app_spaces (p s : jsstring) :
  all_space p -> trimStart (p ++ s) = trimStart s.
Proof.
  induction p as [| c p IH]; simpl; intro A; [reflexivity |].
  inversion A as [| x l Hc Hp]; subst. rewrite Hc. now apply IH.
Qed.

Lemma trimStart_spaces (q : jsstring) : all_space q -> trimStart q = [].
Proof.
  intro A. rewrite <- (app_nil_r q). now rewrite trimStart_app_spaces.
Qed.

Lemma trimStart_app (s q : jsstring) :
  trimStart (s ++ q) =
  match trimStart s with
  | [] => trimStart q
  | _ :: _ => trimStart s ++ q
  end.
Proof.
  induction s as [| c s IH]; simpl; [reflexivity |].
  destruct (is_space c); [exact IH | reflexivity].
Qed.

Lemma all_space_rev (q : jsstring) : all_space q -> all_space (rev q).
Proof. unfold all_space. apply Forall_rev. Qed.

Lemma trimEnd_app_spaces (s q : jsstring) :
  all_space q -> trimEnd (s ++ q) = trimEnd s.
Proof.
  intro A. unfold trimEnd. rewrite rev_app_distr.
  now rewrite trimStart_app_spaces by now apply all_space_rev.
Qed.

Lemma trim_padding (p s q : jsstring) :
  all_space p -> all_space q -> trim (p ++ s ++ q) = trim s.
Proof.
  intros Ap Aq. unfold trim. rewrite trimStart_app_spaces by exact Ap.
  rewrite trimStart_app. destruct (trimStart s) as [| c r] eqn:E.
  - now rewrite trimStart_spaces.
  - now apply trimEnd_app_spaces.
Qed.

Lemma parseNumber_trim_eq (a b : jsstring) :
  trim a = trim b -> Detector.parseNumber a = Detector.parseNumber b.
Proof. intro E. unfold Detector.parseNumber. now rewrite E. Qed.

(** X1. White space before and after a token, of any of the kinds that
    [trim] strips, never changes what [parseNumber] returns. *)
Theorem parseNumber_padding (p s q : jsstring) :
  all_space p -> all_space q ->
  Detector.parseNumber (p ++ s ++ q) = Detector.parseNumber s.
Proof.
  intros Ap Aq. apply parseNumber_trim_eq. now apply trim_padding.
Qed.

Lemma parseNumber_padding_witness :
  Detector.parseNumber (js "  " ++ js "1.234,5" ++ [9%N; 160%N])
  = Detector.parseNumber (js "1.234,5").
Proof.
  apply parseNumber_padding; repeat constructor.
Defined.

(** ** [parseNumber] on plain integers *)

Lemma binary_round_aux_opp (m e : Z) (l : location) :
  binary_round_aux prec emax true m e l =
  SFopp (binary_round_aux prec emax false m e l).
Proof.
  unfold binary_round_aux.
  destruct (shr_fexp prec emax m e l) as [r1 e1].
  destruct (shr_fexp prec emax _ e1 loc_Exact) as [r2 e2].
  destruct (shr_m r2); [reflexivity | | reflexivity].
  now destruct (Z.leb e2 (emax - prec)).
Qed.

Lemma dec_to_number_opp (m : N) (e : Z) :
  dec_to_number true m e = SFopp (dec_to_number false m e).
Proof.
  unfold dec_to_number. destruct m as [| p]; [reflexivity |].
  destruct (0 <=? e)%Z.
  - unfold binary_round. destruct (shl_align _ 0 _) as [mz ez].
    apply binary_round_aux_opp.
  - destruct (SFdiv_core_binary prec emax (Z.pos p) 0 (10 ^ (- e)) 0) as [[q e'] l].
    apply binary_round_aux_opp.
Qed.

Lemma sign_text_cases (neg : bool) :
  sign_text neg = [] /\ neg = false \/ sign_text neg = [MINUS] /\ neg = true.
Proof. destruct neg; simpl; auto. Qed.

(** [Number] on an optional minus sign and decimal digits. *)
Lemma Number_signed_digits (neg : bool) (ds : jsstring) :
  ds <> [] -> forallb is_digit ds = true ->
  Number (sign_text neg ++ ds) = signed neg (of_Z (Z.of_N (digits_value ds))).
Proof.
  intros NE A. destruct neg; simpl sign_text; simpl signed;
    [| now apply Number_digits].
  unfold Number.
  assert (T : trim (MINUS :: ds) = MINUS :: ds).
  { apply trim_id, all_no_space. intros c [<- | I]; [reflexivity |].
    apply digit_not_space. exact (proj1 (forallb_forall _ _) A c I). }
  simpl app. rewrite T.
  destruct ds as [| c r]; [congruence |].
  replace (parse_non_decimal (MINUS :: c :: r)) with (@None N).
  2:{ destruct r; reflexivity. }
  unfold parse_decimal. simpl split_sign.
  pose proof A as A'. simpl in A'. apply andb_true_iff in A' as [Dc _].
  apply is_digit_iff in Dc.
  replace (str_eqb (c :: r) (js "Infinity")) with false.
  2:{ change (js "Infinity") with (73%N :: js "nfinity"). simpl.
      differs c 73%N. reflexivity. }
  unfold parse_unsigned_decimal. rewrite (span_digits_all _ A).
  cbv beta iota. simpl parse_exponent. cbv beta iota.
  rewrite dec_to_number_opp. f_equal. apply dec_to_number_integer.
Qed.

Lemma signed_not_NaN (neg : bool) (z : Z) : isNaN (signed neg (of_Z z)) = false.
Proof.
  pose proof (of_Z_not_NaN z) as E.
  destruct neg; simpl; [| exact E]. now destruct (of_Z z).
Qed.

(** X2. A string of decimal digits, with or without a leading minus
    sign, is read as the integer it writes, negated under the sign (so
    ["-0"] is negative zero), rounded to the nearest number. *)
Theorem parseNumber_integer (neg : bool) (ds : jsstring) :
  ds <> [] -> forallb is_digit ds = true ->
  Detector.parseNumber (sign_text neg ++ ds) =
  Some (signed neg (of_Z (Z.of_N (digits_value ds)))).
Proof.
  intros NE A. set (s := sign_text neg ++ ds).
  assert (El : forall c, In c s -> c = MINUS \/ is_digit c = true).
  { intros c I. apply in_app_or in I as [I | I].
    - left. destruct neg; simpl in I; [destruct I as [<- | []]; reflexivity | destruct I].
    - right. exact (proj1 (forallb_forall _ _) A c I). }
  assert (T : trim s = s).
  { apply trim_id, all_no_space. intros c I.
    destruct (El c I) as [-> | D]; [reflexivity | now apply digit_not_space]. }
  assert (NoSep : forall c, c <> MINUS -> is_digit c = false -> includes c s = false).
  { intros c N D. destruct (includes c s) eqn:E; [| reflexivity].
    apply includes_In in E. destruct (El c E); congruence. }
  unfold Detector.parseNumber. cbv zeta. rewrite T.
  rewrite (NoSep COMMA), (NoSep DOT) by (reflexivity || discriminate).
  cbv beta iota delta [andb].
  replace (str_eqb s [] || str_eqb s (js "-")) with false.
  - subst s. rewrite Number_signed_digits by assumption.
    unfold Detector.guard. now rewrite signed_not_NaN.
  - subst s. destruct ds as [| c r]; [congruence |].
    destruct neg; simpl; [reflexivity |].
    simpl in A. apply andb_true_iff in A as [D _]. apply is_digit_iff in D.
    differs c 45%N. reflexivity.
Qed.

Lemma parseNumber_integer_witness :
  Detector.parseNumber (js "-42") = Some (literal (-42)) /\
  Detector.parseNumber (js "007") = Some (literal 7).
Proof.
  split.
  - apply (parseNumber_integer true (js "42")); [discriminate | reflexivity].
  - apply (parseNumber_integer false (js "007")); [discriminate | reflexivity].
Defined.

(** ** The two copies of [parseNumber] without separators *)

Lemma removeAll_absent (c : codeunit) (s : jsstring) :
  includes c s = false -> removeAll c s = s.
Proof.
  unfold includes, removeAll. induction s as [| x r IH]; simpl; [reflexivity |].
  intro E. apply orb_false_iff in E as [E1 E2].
  rewrite N.eqb_sym, E1. simpl. now rewrite IH.
Qed.

Lemma replaceFirst_absent (c d : codeunit) (s : jsstring) :
  includes c s = false -> replaceFirst c d s = s.
Proof.
  unfold includes. induction s as [| x r IH]; simpl; [reflexivity |].
  intro E. apply orb_false_iff in E as [E1 E2].
  rewrite N.eqb_sym, E1. now rewrite IH.
Qed.

(** X5. On every string that holds neither a comma nor a dot the two
    copies of [parseNumber] in detector.ts return the same result, the
    guarded [Number()] of the trimmed text. *)
Theorem parseNumber_copies_agree (s : jsstring) :
  includes COMMA s = false -> includes DOT s = false ->
  Detector2.parseNumber s = Detector.parseNumber s /\
  Detector.parseNumber s =
    if str_eqb (trim s) [] || str_eqb (trim s) (js "-") then None
    else Detector.guard (Number (trim s)).
Proof.
  intros Ec Ed.
  assert (Tc : includes COMMA (trim s) = false).
  { destruct (includes COMMA (trim s)) eqn:E; [| reflexivity].
    apply includes_In, trim_In, includes_In in E. congruence. }
  assert (Td : includes DOT (trim s) = false).
  { destruct (includes DOT (trim s)) eqn:E; [| reflexivity].
    apply includes_In, trim_In, includes_In in E. congruence. }
  assert (V1 : Detector.parseNumber s =
    if str_eqb (trim s) [] || str_eqb (trim s) (js "-") then None
    else Detector.guard (Number (trim s))).
  { unfold Detector.parseNumber. cbv zeta. now rewrite Tc, Td. }
  split; [| exact V1]. rewrite V1.
  unfold Detector2.parseNumber. cbv zeta.
  rewrite (removeAll_absent _ _ Td), (removeAll_absent _ _ Tc),
    (replaceFirst_absent _ _ _ Tc).
  destruct (str_eqb (trim s) [] || str_eqb (trim s) (js "-")); [reflexivity |].
  destruct (test Detector2.PLAIN_NUMBER_PATTERN (trim s)); [reflexivity |].
  destruct (test Detector2.EU_NUMBER_PATTERN (trim s)); [reflexivity |].
  destruct (test Detector2.US_NUMBER_PATTERN (trim s)); reflexivity.
Qed.

Lemma parseNumber_copies_agree_witness :
  Detector2.parseNumber (js " 1e3 ") = Detector.parseNumber (js " 1e3 ").
Proof.
  apply (parseNumber_copies_agree (js " 1e3 ")); reflexivity.
Defined.

(** ** The language of the thousands patterns *)

Lemma matches_cat_inv (a b : regex) (s : jsstring) :
  matches (RCat a b) s ->
  exists s1 s2, s = s1 ++ s2 /\ matches a s1 /\ matches b s2.
Proof.
  intro M. inversion M as [| | | a' b' s1 s2 Ma Mb E1 E2 | | | |]; subst.
  now exists s1, s2.
Qed.

Lemma matches_chr_inv (c : codeunit) (s : jsstring) :
  matches (RChr c) s -> s = [c].
Proof. intro M. now inversion M. Qed.

Lemma matches_digit_inv (s : jsstring) :
  matches rdigit s -> exists c, s = [c] /\ is_digit c = true.
Proof.
  intro M. inversion M as [| | lo hi c R | | | | |]; subst. now exists c.
Qed.

Lemma matches_rrep_inv (n : nat) (s : jsstring) :
  matches (rrep n rdigit) s ->
  List.length s = n /\ forallb is_digit s = true.
Proof.
  revert s. induction n as [| n IH]; simpl; intros s M.
  - inversion M. now split.
  - apply matches_cat_inv in M as (s1 & s2 & -> & M1 & M2).
    apply matches_digit_inv in M1 as (c & -> & D).
    destruct (IH _ M2) as [L A]. simpl. rewrite D, A, L. now split.
Qed.

Lemma matches_rupto_inv (n : nat) (s : jsstring) :
  matches (rupto n rdigit) s ->
  List.length s <= n /\ forallb is_digit s = true.
Proof.
  revert s. induction n as [| n IH]; simpl; intros s M.
  - inversion M. simpl. now split.
  - inversion M as [| | | | a b s' Ma | a b s' Mb | |]; subst.
    + inversion Ma. simpl. split; [lia | reflexivity].
    + apply matches_cat_inv in Mb as (s1 & s2 & -> & M1 & M2).
      apply matches_digit_inv in M1 as (c & -> & D).
      destruct (IH _ M2) as [L A]. simpl. rewrite D, A. split; [lia | reflexivity].
Qed.

Lemma matches_group_inv (sep : codeunit) (s : jsstring) :
  matches (Detector.sep_group sep) s ->
  exists g, s = sep :: g /\ three_digits g.
Proof.
  intro M. apply matches_cat_inv in M as (s1 & s2 & -> & M1 & M2).
  apply matches_chr_inv in M1 as ->.
  exists s2. split; [reflexivity |]. now apply (matches_rrep_inv 3).
Qed.

Lemma matches_groups_inv (sep : codeunit) (r : regex) (s : jsstring) :
  matches r s -> r = RStar (Detector.sep_group sep) ->
  exists groups,
    s = List.concat (List.map (cons sep) groups) /\ Forall three_digits groups.
Proof.
  induction 1 as [| | | | | | a | a s1 t Ma _ Mb IHb]; intro E; try discriminate.
  - exists []. now split.
  - injection E as ->.
    destruct (matches_group_inv _ _ Ma) as (g & -> & G).
    destruct (IHb eq_refl) as (gs & -> & F).
    exists (g :: gs). split; [reflexivity | now constructor].
Qed.

Lemma matches_sign_inv (s : jsstring) :
  matches (ropt (RChr MINUS)) s -> exists neg, s = sign_text neg.
Proof.
  intro M. inversion M as [| | | | a b s' Ma | a b s' Mb | |]; subst.
  - inversion Ma. now exists false.
  - apply matches_chr_inv in Mb as ->. now exists true.
Qed.

Lemma matches_sign (neg : bool) : matches (ropt (RChr MINUS)) (sign_text neg).
Proof.
  destruct neg; simpl; [apply MAltR | apply MAltL]; constructor.
Qed.

Lemma thousands_language (sep : codeunit) (s : jsstring) :
  test
    (RCat (ropt (RChr MINUS))
       (RCat (RCat rdigit (rupto 2 rdigit)) (rplus (Detector.sep_group sep)))) s
  = true <-> thousands_shape sep s.
Proof.
  rewrite test_spec. split.
  - intro M.
    apply matches_cat_inv in M as (sg & rest & -> & Ms & M).
    apply matches_cat_inv in M as (lead & tail & -> & Ml & Mt).
    apply matches_sign_inv in Ms as [neg ->].
    apply matches_cat_inv in Ml as (d & ds & -> & Md & Mds).
    apply matches_digit_inv in Md as (c & -> & Dc).
    apply (matches_rupto_inv 2) in Mds as [L A].
    apply matches_cat_inv in Mt as (g1 & gs & -> & Mg & Mgs).
    apply matches_group_inv in Mg as (g & -> & G).
    destruct (matches_groups_inv sep _ _ Mgs eq_refl) as (groups & -> & F).
    exists neg, ([c] ++ ds), (g :: groups). repeat split.
    + simpl. now rewrite Dc, A.
    + simpl. lia.
    + simpl. lia.
    + discriminate.
    + now constructor.
  - intros (neg & lead & groups & -> & A & L & NE & F).
    constructor; [apply matches_sign |].
    pose proof (matches_thousands sep lead groups A L NE F) as M.
    apply matches_cat_inv in M as (s1 & s2 & E & M1 & M2).
    apply matches_sign_inv in M1 as [n ->].
    destruct n.
    + exfalso. unfold grouped in E.
      destruct lead as [| c lead]; simpl in *; [lia |].
      injection E as -> _. discriminate.
    + simpl in E. now rewrite E.
Qed.

(** X3. The two thousands patterns of [parseNumber] accept exactly the
    texts made of an optional minus sign, one to three digits, and one or
    more groups of the separator (comma, respectively dot) followed by
    exactly three digits. *)
Theorem thousands_patterns (s : jsstring) :
  (test Detector.US_THOUSANDS s = true <-> thousands_shape COMMA s) /\
  (test Detector.EU_THOUSANDS s = true <-> thousands_shape DOT s).
Proof. split; apply thousands_language. Qed.

(** ** A single separator as decimal point *)

Lemma split_unique (c : codeunit) (a a' r r' : jsstring) :
  ~ In c a -> ~ In c a' -> a ++ c :: r = a' ++ c :: r' -> a = a' /\ r = r'.
Proof.
  revert a'. induction a as [| x a IH]; intros [| y a'] Na Na' E; simpl in *.
  - injection E as ->. now split.
  - injection E as -> _. tauto.
  - injection E as -> _. tauto.
  - injection E as -> E. destruct (IH a') as [-> ->]; auto.
Qed.

Lemma digits_without (c : codeunit) (ds : jsstring) :
  is_digit c = false -> forallb is_digit ds = true -> ~ In c ds.
Proof.
  intros D A I. rewrite (proj1 (forallb_forall _ _) A c I) in D. discriminate.
Qed.

Lemma not_thousands (sep : codeunit) (a b : jsstring) :
  is_digit sep = false -> sep <> MINUS ->
  a <> [] -> forallb is_digit a = true -> forallb is_digit b = true ->
  thousands_shape sep (a ++ sep :: b) ->
  List.length a <= 3 /\ List.length b = 3.
Proof.
  intros S SM NE A B (neg & lead & groups & E & Al & Ll & NG & F).
  destruct neg; simpl in E.
  { destruct a as [| c a]; [congruence |]. injection E as -> _.
    pose proof (proj1 (forallb_forall _ _) A MINUS (or_introl eq_refl)) as D.
    vm_compute in D. discriminate. }
  destruct groups as [| g gs]; [congruence |].
  unfold grouped in E. simpl in E.
  apply split_unique in E as [-> E]; try now apply digits_without.
  inversion F as [| g' gs' [Lg Ag] Fgs]; subst.
  destruct gs as [| g2 gs].
  - simpl. rewrite app_nil_r. lia.
  - exfalso. apply (digits_without sep _ S B).
    apply in_or_app. right. simpl. now left.
Qed.

Lemma span_digits_app (a : jsstring) (c : codeunit) (r : jsstring) :
  forallb is_digit a = true -> is_digit c = false ->
  span_digits (a ++ c :: r) = (a, c :: r).
Proof.
  intros A D. induction a as [| x a IH]; simpl.
  - now rewrite D.
  - simpl in A. apply andb_true_iff in A as [Dx A]. now rewrite Dx, IH.
Qed.

Lemma matches_rplus_digits (ds : jsstring) :
  ds <> [] -> forallb is_digit ds = true -> matches (rplus rdigit) ds.
Proof.
  intros NE A. destruct ds as [| c r]; [congruence |].
  simpl in A. apply andb_true_iff in A as [D A].
  change (c :: r) with ([c] ++ r). constructor; [now apply matches_digit |].
  clear NE D. induction r as [| x r IH]; [constructor |].
  simpl in A. apply andb_true_iff in A as [D A].
  change (x :: r) with ([x] ++ r). constructor; [now apply matches_digit | auto].
Qed.

(** [Number] on digits, a dot, digits. *)
Lemma Number_decimal (a b : jsstring) :
  a <> [] -> b <> [] ->
  forallb is_digit a = true -> forallb is_digit b = true ->
  Number (a ++ DOT :: b) = decimal_value a b.
Proof.
  intros NA NB A B. unfold Number.
  assert (T : trim (a ++ DOT :: b) = a ++ DOT :: b).
  { apply trim_id, all_no_space. intros c I.
    apply in_app_or in I as [I | [<- | I]];
      [exact (digit_not_space _ (proj1 (forallb_forall _ _) A c I))
      | reflexivity
      | exact (digit_not_space _ (proj1 (forallb_forall _ _) B c I))]. }
  rewrite T. destruct a as [| c a]; [congruence |].
  pose proof A as A'. simpl in A'. apply andb_true_iff in A' as [Dc Da].
  apply is_digit_iff in Dc.
  assert (ND : parse_non_decimal ((c :: a) ++ DOT :: b) = None).
  { simpl app. destruct a as [| p a]; simpl app.
    - destruct b as [| q b]; [congruence |]. unfold parse_non_decimal.
      now destruct (N.eqb c 48).
    - simpl in Da. apply andb_true_iff in Da as [Dp _].
      apply is_digit_iff in Dp. unfold parse_non_decimal.
      destruct (a ++ DOT :: b) eqn:X; [destruct a; discriminate |].
      destruct (N.eqb c 48); [| reflexivity]. simpl negb. cbv iota.
      differs p 120%N. differs p 88%N. differs p 111%N.
      differs p 79%N. differs p 98%N. differs p 66%N. reflexivity. }
  simpl app in *. cbv beta iota. rewrite ND.
  unfold parse_decimal, split_sign.
  differs c 43%N. differs c 45%N.
  replace (str_eqb (c :: a ++ DOT :: b) (js "Infinity")) with false.
  2:{ change (js "Infinity") with (73%N :: js "nfinity"). simpl.
      differs c 73%N. reflexivity. }
  unfold parse_unsigned_decimal.
  change (c :: a ++ DOT :: b) with ((c :: a) ++ DOT :: b).
  rewrite (span_digits_app (c :: a) DOT b A eq_refl).
  change (N.eqb DOT 46) with true. cbv iota.
  rewrite (span_digits_all _ B).
  destruct ((c :: a) ++ b) eqn:X; [discriminate |]. rewrite <- X.
  simpl parse_exponent. cbv iota beta. reflexivity.
Qed.

Lemma replaceFirst_first (c d : codeunit) (a r : jsstring) :
  ~ In c a -> replaceFirst c d (a ++ c :: r) = a ++ d :: r.
Proof.
  induction a as [| x a IH]; simpl; intro NI.
  - now rewrite N.eqb_refl.
  - destruct (N.eqb x c) eqn:E; [apply N.eqb_eq in E; tauto |].
    rewrite IH by tauto. reflexivity.
Qed.

(** X4. Digits, one comma or one dot, digits: unless the text has the
    thousands shape (at most three digits before the separator and
    exactly three after it), the separator is the decimal point,
    whichever of the two it is, and the result is the decimal the text
    writes. *)
Theorem single_separator_decimal (a b : jsstring) :
  a <> [] -> b <> [] ->
  forallb is_digit a = true -> forallb is_digit b = true ->
  ~ (List.length a <= 3 /\ List.length b = 3) ->
  Detector.parseNumber (a ++ COMMA :: b) = Some (decimal_value a b) /\
  Detector.parseNumber (a ++ DOT :: b) = Some (decimal_value a b).
Proof.
  intros NA NB A B NT.
  assert (G : Detector.guard (Number (a ++ DOT :: b)) = Some (decimal_value a b)).
  { rewrite Number_decimal by assumption.
    unfold Detector.guard, decimal_value. now rewrite dec_to_number_not_NaN. }
  assert (Facts : forall sep, is_digit sep = false -> is_space sep = false ->
            sep <> MINUS ->
            let s := a ++ sep :: b in
            trim s = s /\
            str_eqb s [] || str_eqb s (js "-") = false /\
            includes sep s = true /\
            (forall c, c <> sep -> is_digit c = false -> includes c s = false) /\
            test (RCat (ropt (RChr MINUS))
                    (RCat (RCat rdigit (rupto 2 rdigit))
                       (rplus (Detector.sep_group sep)))) s = false).
  { intros sep S W SM s.
    assert (El : forall c, In c s -> is_digit c = true \/ c = sep).
    { intros c I. apply in_app_or in I as [I | [<- | I]];
        [left; exact (proj1 (forallb_forall _ _) A c I)
        | now right
        | left; exact (proj1 (forallb_forall _ _) B c I)]. }
    split; [| split; [| split; [| split]]].
    - apply trim_id, all_no_space. intros c I.
      destruct (El c I) as [D | ->]; [now apply digit_not_space | exact W].
    - subst s. destruct a as [| c a]; [congruence |]. simpl.
      simpl in A. apply andb_true_iff in A as [D _]. apply is_digit_iff in D.
      differs c 45%N. reflexivity.
    - apply includes_In. subst s. apply in_or_app. right. now left.
    - intros c Nc Dc. destruct (includes c s) eqn:E; [| reflexivity].
      apply includes_In in E. destruct (El c E); congruence.
    - destruct (test _ s) eqn:E; [| reflexivity].
      apply thousands_language in E.
      destruct NT. now apply (not_thousands sep). }
  split.
  - destruct (Facts COMMA eq_refl eq_refl) as (T & NS & IC & Oth & NoT);
      [discriminate |].
    unfold Detector.parseNumber. cbv zeta. rewrite T, NS, IC.
    rewrite (Oth DOT) by (reflexivity || discriminate).
    cbv beta iota delta [andb].
    change (test Detector.US_THOUSANDS (a ++ COMMA :: b)) with
      (test (RCat (ropt (RChr MINUS))
               (RCat (RCat rdigit (rupto 2 rdigit))
                  (rplus (Detector.sep_group COMMA)))) (a ++ COMMA :: b)).
    rewrite NoT.
    replace (test Detector.EU_DECIMAL (a ++ COMMA :: b)) with true.
    + rewrite replaceFirst_first by now apply digits_without. exact G.
    + symmetry. apply test_spec. unfold Detector.EU_DECIMAL.
      change (a ++ COMMA :: b) with ([] ++ a ++ [COMMA] ++ b).
      constructor; [apply MAltL; constructor |].
      constructor; [now apply matches_rplus_digits |].
      constructor; [constructor | now apply matches_rplus_digits].
  - destruct (Facts DOT eq_refl eq_refl) as (T & NS & IC & Oth & NoT);
      [discriminate |].
    unfold Detector.parseNumber. cbv zeta. rewrite T, NS, IC.
    rewrite (Oth COMMA) by (reflexivity || discriminate).
    cbv beta iota delta [andb].
    change (test Detector.EU_THOUSANDS (a ++ DOT :: b)) with
      (test (RCat (ropt (RChr MINUS))
               (RCat (RCat rdigit (rupto 2 rdigit))
                  (rplus (Detector.sep_group DOT)))) (a ++ DOT :: b)).
    rewrite NoT. exact G.
Qed.

Lemma single_separator_decimal_witness :
  Detector.parseNumber (js "1234,5") = Some (literal 1234.5) /\
  Detector.parseNumber (js "3.14") = Some (literal 3.14).
Proof.
  split.
  - apply (proj1 (single_separator_decimal (js "1234") (js "5")
             ltac:(discriminate) ltac:(discriminate) eq_refl eq_refl
             ltac:(simpl; lia))).
  - apply (proj2 (single_separator_decimal (js "3") (js "14")
             ltac:(discriminate) ltac:(discriminate) eq_refl eq_refl
             ltac:(simpl; lia))).
Defined.

(** ** Type detection *)

Lemma filter_length_perm {A : Type} (p : A -> bool) (l l' : list A) :
  Permutation l l' ->
  List.length (filter p l) = List.length (filter p l').
Proof.
  induction 1 as [| x l l' P IH | x y l | l l' l'' P1 IH1 P2 IH2]; simpl.
  - reflexivity.
  - destruct (p x); simpl; now rewrite IH.
  - destruct (p x), (p y); reflexivity.
  - now rewrite IH1.
Qed.

(** X6. The type detected for a sample does not depend on the order of
    its values. *)
Theorem detectSingleColumnType_order (host : Host) (values values' : list value) :
  Permutation values values' ->
  Detector.detectSingleColumnType values = Detector.detectSingleColumnType values'.
Proof.
  intro P. unfold Detector.detectSingleColumnType.
  destruct values as [| v vs], values' as [| w ws];
    [reflexivity
    | apply Permutation_nil in P; discriminate
    | apply Permutation_sym, Permutation_nil in P; discriminate |].
  cbv beta iota zeta.
  pose proof (Permutation_map (fun x => trim (ToString x)) P) as Pm.
  rewrite (Permutation_length Pm).
  now rewrite !(filter_length_perm _ _ _ Pm).
Qed.

Lemma detectSingleColumnType_order_witness :
  Detector.detectSingleColumnType (H := example_host)
    [VString (js "7"); VString (js "x"); VString (js "8")] =
  Detector.detectSingleColumnType (H := example_host)
    [VString (js "x"); VString (js "8"); VString (js "7")].
Proof.
  apply detectSingleColumnType_order.
  apply perm_trans with [VString (js "x"); VString (js "7"); VString (js "8")];
    [apply perm_swap | apply perm_skip, perm_swap].
Defined.

Lemma more_than_80_percent_all (n : nat) :
  0 < n -> more_than_80_percent n n = true.
Proof. intro P. unfold more_than_80_percent. apply Nat.ltb_lt. lia. Qed.

Lemma filter_all_length {A : Type} (p : A -> bool) (l : list A) :
  Forall (fun x => p x = true) l -> List.length (filter p l) = List.length l.
Proof.
  induction 1 as [| x l Hx _ IH]; simpl; [reflexivity |].
  rewrite Hx. simpl. now rewrite IH.
Qed.

(** X7. A column whose sampled cells are all blank or boolean words, with
    at least one that is not blank, is typed boolean and carries no
    numeric statistics, even when every word is [0] or [1] and would
    parse as a number. *)
Theorem boolean_words_column (host : Host) (data : list Detector.DataRow)
  (name : jsstring) :
  Forall (fun row => blank_or_boolean (get row name))
    (firstn Detector.SAMPLE_SIZE data) ->
  Exists (fun row => is_blank (get row name) = false)
    (firstn Detector.SAMPLE_SIZE data) ->
  let m := Detector.columnMeta data name in
  Detector.detectedType m = Detector.TBoolean /\
  Detector.min m = None /\ Detector.max m = None /\ Detector.mean m = None.
Proof.
  intros F E.
  assert (T : Detector.detectSingleColumnType
                (filter (fun v => negb (is_blank v))
                   (List.map (fun row => get row name)
                      (firstn Detector.SAMPLE_SIZE data))) = Detector.TBoolean).
  { set (sample := firstn Detector.SAMPLE_SIZE data) in *.
    assert (Ls : List.length sample <= Detector.SAMPLE_SIZE)
      by apply firstn_le_length.
    set (values := filter (fun v => negb (is_blank v))
                     (List.map (fun row => get row name) sample)).
    assert (Lv : List.length values <= Detector.SAMPLE_SIZE).
    { etransitivity; [apply filter_length_le |]. now rewrite length_map. }
    assert (NE : values <> []).
    { apply Exists_exists in E as [row [I B]]. intro X.
      assert (In (get row name) values).
      { apply filter_In. split; [| now rewrite B].
        now apply (in_map (fun r => get r name)). }
      rewrite X in *. contradiction. }
    assert (All : Forall (fun t => Detector.is_boolean_text t = true)
                    (List.map (fun v => trim (ToString v)) values)).
    { apply Forall_forall. intros t I. apply in_map_iff in I as [v [<- I]].
      apply filter_In in I as [I NB]. apply in_map_iff in I as [row [<- I]].
      destruct (proj1 (Forall_forall _ _) F row I) as [B | [s [Es Bs]]].
      - rewrite B in NB. discriminate.
      - rewrite Es. exact Bs. }
    unfold Detector.detectSingleColumnType.
    destruct values as [| v vs] eqn:V; [congruence |]. rewrite <- V in *.
    cbv zeta. rewrite (filter_all_length _ _ All), length_map.
    rewrite clears_spec; [| reflexivity | exact Lv].
    rewrite more_than_80_percent_all; [reflexivity |].
    rewrite V. simpl. lia. }
  unfold Detector.columnMeta. cbn [Detector.detectedType Detector.min
    Detector.max Detector.mean]. rewrite T. repeat split.
Qed.

Lemma boolean_words_column_witness :
  let data := [[(js "flag", VString (js "1"))]; [(js "flag", VString (js "0"))]] in
  Detector.detectedType (Detector.columnMeta (H := example_host) data (js "flag"))
  = Detector.TBoolean.
Proof.
  apply boolean_words_column.
  - apply Forall_cons; [right; eexists; split; reflexivity |].
    apply Forall_cons; [right; eexists; split; reflexivity | apply Forall_nil].
  - apply Exists_cons_hd. reflexivity.
Defined.

Lemma Set_of_length (seen xs : list value) :
  List.length seen <= List.length (Set_of seen xs) <=
  List.length seen + List.length xs.
Proof.
  revert seen. induction xs as [| x r IH]; intro seen; simpl; [lia |].
  destruct (existsb (sameValueZero x) seen).
  - specialize (IH seen). lia.
  - specialize (IH (seen ++ [x])). rewrite length_app in IH. simpl in IH. lia.
Qed.

Lemma Set_of_nonempty (xs : list value) :
  xs <> [] -> 0 < List.length (Set_of [] xs).
Proof.
  destruct xs as [| x r]; [congruence |]. intros _. simpl.
  pose proof (Set_of_length [x] r) as L. simpl in L. lia.
Qed.

Lemma firstn_subset {A : Type} (n : nat) (l : list A) (x : A) :
  In x (firstn n l) -> In x l.
Proof.
  revert l. induction n as [| n IH]; intros [| y l]; simpl; try tauto.
  intros [-> | I]; auto.
Qed.

Lemma filter_partition_length {A : Type} (p : A -> bool) (l : list A) :
  List.length (filter p l) + List.length (filter (fun x => negb (p x)) l)
  = List.length l.
Proof.
  induction l as [| x l IH]; simpl; [reflexivity |].
  destruct (p x); simpl; lia.
Qed.

(** X8. In every column metadata record the null count and the
    distinct-value count together do not exceed the number of rows, no
    value is distinct exactly when every cell is blank, and at most five
    sample values are kept, none of them blank. *)
Theorem columnMeta_counts (host : Host) (data : list Detector.DataRow)
  (name : jsstring) :
  let m := Detector.columnMeta data name in
  Detector.nullCount m + Detector.uniqueValues m <= List.length data /\
  (Detector.uniqueValues m = 0 <-> Detector.nullCount m = List.length data) /\
  List.length (Detector.sampleValues m) <= 5 /\
  Forall (fun v => is_blank v = false) (Detector.sampleValues m).
Proof.
  cbv zeta. unfold Detector.columnMeta.
  cbn [Detector.nullCount Detector.uniqueValues Detector.sampleValues].
  set (allValues := List.map (fun row => get row name) data).
  set (kept := filter (fun v => negb (is_blank v)) allValues).
  pose proof (filter_partition_length is_blank allValues) as Part.
  fold kept in Part.
  assert (La : List.length allValues = List.length data)
    by (unfold allValues; apply length_map).
  pose proof (Set_of_length [] kept) as Ls. simpl in Ls.
  split; [lia |]. split; [| split].
  - split; intro E.
    + destruct kept as [| k ks] eqn:K; [simpl in Part; lia |].
      pose proof (Set_of_nonempty (k :: ks)) as P.
      assert (0 < List.length (Set_of [] (k :: ks))) by (apply P; discriminate).
      lia.
    + assert (List.length kept = 0) by lia.
      destruct kept; [reflexivity | discriminate].
  - apply firstn_le_length.
  - apply Forall_forall. intros v I. apply firstn_subset in I.
    apply filter_In in I as [_ I]. now apply negb_true_iff.
Qed.

(** X9. A header whose cell is missing, null or empty in every row gives a
    string column with every row counted as null, no distinct value, no
    sample value and no statistics. *)
Theorem blank_column (host : Host) (data : list Detector.DataRow)
  (name : jsstring) :
  Forall (fun row => is_blank (get row name) = true) data ->
  Detector.columnMeta data name = empty_column name (List.length data).
Proof.
  intro F. unfold Detector.columnMeta, empty_column.
  assert (K : forall rows, Forall (fun row => is_blank (get row name) = true) rows ->
            filter (fun v => negb (is_blank v))
              (List.map (fun row => get row name) rows) = []).
  { induction 1 as [| r rs Hr _ IH]; simpl; [reflexivity |]. now rewrite Hr. }
  assert (B : forall rows, Forall (fun row => is_blank (get row name) = true) rows ->
            List.length (filter is_blank (List.map (fun row => get row name) rows))
            = List.length rows).
  { induction 1 as [| r rs Hr _ IH]; simpl; [reflexivity |].
    rewrite Hr. simpl. now rewrite IH. }
  assert (Fs : Forall (fun row => is_blank (get row name) = true)
                 (firstn Detector.SAMPLE_SIZE data)).
  { apply Forall_forall. intros row I. apply firstn_subset in I.
    exact (proj1 (Forall_forall _ _) F row I). }
  rewrite (K _ Fs), (K _ F), (B _ F). reflexivity.
Qed.

Lemma blank_column_witness :
  Detector.columnMeta (H := example_host)
    [[(js "a", VString (js "1"))]; [(js "a", VString (js "2")); (js "b", VNull)]]
    (js "b")
  = empty_column (js "b") 2.
Proof.
  apply blank_column. repeat constructor.
Defined.

(** ** The column extractors *)

Lemma parseNumber_empty : Detector.parseNumber [] = None.
Proof. reflexivity. Qed.

(** X10. The numeric extraction of a dimension is the plain extraction
    with every entry resolved: numbers kept, texts parsed by
    [parseNumber], nulls kept.  Both return one entry per row when the
    dimension is mapped to a single named column, and no entry (not one
    null per row) when it is unmapped, mapped to the empty name or to a
    list. *)
Theorem extractNumericColumn_resolves (host : Host)
  (data : list Detector.DataRow) (mapping : Validator.MappingConfig)
  (dimensionId : jsstring) :
  Extract.extractNumericColumn data mapping dimensionId =
    List.map resolved (Extract.extractColumn data mapping dimensionId) /\
  List.length (Extract.extractColumn data mapping dimensionId) =
    match lookup mapping dimensionId with
    | Some (Validator.One (_ :: _)) => List.length data
    | _ => 0
    end.
Proof.
  unfold Extract.extractNumericColumn, Extract.extractColumn. cbv zeta.
  destruct (lookup mapping dimensionId) as [[[| c cs] | l] |];
    try (split; reflexivity).
  cbn [Validator.falsy]. split; [| apply length_map].
  rewrite map_map. apply map_ext. intro row.
  destruct (is_blank (get row (c :: cs))) eqn:B; [reflexivity |].
  destruct (get row (c :: cs)); try reflexivity.
Qed.

(** X11. [groupAndAggregate] resolves the value cell of a row exactly as
    [extractNumericColumn] does for a dimension mapped to that column:
    a row contributes to a group if and only if its entry in the numeric
    extraction is not null. *)
Theorem value_of_is_extractNumericColumn (host : Host)
  (data : list Detector.DataRow) (mapping : Validator.MappingConfig)
  (dimensionId valueColumn : jsstring) :
  valueColumn <> [] ->
  lookup mapping dimensionId = Some (Validator.One valueColumn) ->
  Extract.extractNumericColumn data mapping dimensionId =
  List.map (Mapper.value_of valueColumn) data.
Proof.
  intros NE L. unfold Extract.extractNumericColumn. cbv zeta. rewrite L.
  destruct valueColumn as [| c cs]; [congruence |]. cbn [Validator.falsy].
  apply map_ext. intro row. unfold Mapper.value_of.
  destruct (get row (c :: cs)) as [| | [| x xs] | x | b | d]; reflexivity.
Qed.

Lemma value_of_is_extractNumericColumn_witness :
  Extract.extractNumericColumn (H := example_host) region_rows
    [(js "y", Validator.One (js "Sales"))] (js "y") =
  List.map (Mapper.value_of (H := example_host) (js "Sales")) region_rows.
Proof.
  apply value_of_is_extractNumericColumn; [discriminate | reflexivity].
Defined.

(** ** Aggregation *)

Lemma lt_infinity (x : number) :
  isNaN x = false -> lt x (Infinity false) = false -> x = Infinity false.
Proof.
  destruct x as [s | [|] | | s m e]; simpl; try discriminate; try reflexivity;
    unfold lt, SFltb; simpl; discriminate.
Qed.

Lemma gt_infinity (x : number) :
  isNaN x = false -> gt x (Infinity true) = false -> x = Infinity true.
Proof.
  destruct x as [s | [|] | | s m e]; simpl; try discriminate; try reflexivity;
    unfold gt, SFltb; simpl; try discriminate; destruct s; discriminate.
Qed.

Lemma Math_min_from_In (lowest : number) (xs : list number) :
  NaN_free xs -> In (Math_min_from lowest xs) (lowest :: xs).
Proof.
  intro F. revert lowest. induction F as [| x r Hx _ IH]; intro lowest; simpl.
  - now left.
  - rewrite Hx.
    destruct (is_neg_zero x && is_pos_zero lowest);
      [destruct (IH x); auto |].
    destruct (lt x lowest); [destruct (IH x) | destruct (IH lowest)]; auto.
Qed.

Lemma Math_max_from_In (highest : number) (xs : list number) :
  NaN_free xs -> In (Math_max_from highest xs) (highest :: xs).
Proof.
  intro F. revert highest. induction F as [| x r Hx _ IH]; intro highest; simpl.
  - now left.
  - rewrite Hx.
    destruct (is_pos_zero x && is_neg_zero highest);
      [destruct (IH x); auto |].
    destruct (gt x highest); [destruct (IH x) | destruct (IH highest)]; auto.
Qed.

Lemma Math_min_from_NaN (lowest : number) (xs : list number) :
  In NaN xs -> Math_min_from lowest xs = NaN.
Proof.
  revert lowest. induction xs as [| x r IH]; intros lowest I; [destruct I |].
  simpl. destruct (isNaN x) eqn:E; [reflexivity |].
  destruct I as [-> | I]; [discriminate |].
  destruct (is_neg_zero x && is_pos_zero lowest); [now apply IH |].
  destruct (lt x lowest); now apply IH.
Qed.

Lemma Math_max_from_NaN (highest : number) (xs : list number) :
  In NaN xs -> Math_max_from highest xs = NaN.
Proof.
  revert highest. induction xs as [| x r IH]; intros highest I; [destruct I |].
  simpl. destruct (isNaN x) eqn:E; [reflexivity |].
  destruct I as [-> | I]; [discriminate |].
  destruct (is_pos_zero x && is_neg_zero highest); [now apply IH |].
  destruct (gt x highest); now apply IH.
Qed.

(** X12. The minimum and the maximum of a non-empty list of values
    without NaN are values of the list; with a NaN among the values both
    are NaN. *)
Theorem aggregate_extrema (values : list number) :
  values <> [] ->
  (NaN_free values ->
   In (Mapper.aggregate values Mapper.AggMin) values /\
   In (Mapper.aggregate values Mapper.AggMax) values) /\
  (In NaN values ->
   Mapper.aggregate values Mapper.AggMin = NaN /\
   Mapper.aggregate values Mapper.AggMax = NaN).
Proof.
  intro NE. destruct values as [| x r]; [congruence |]. split.
  - intro F. inversion F as [| y l Hx Fr]; subst.
    unfold Mapper.aggregate, Math_min, Math_max.
    cbn [Math_min_from Math_max_from]. rewrite Hx.
    change (is_pos_zero (Infinity false)) with false.
    change (is_neg_zero (Infinity true)) with false.
    rewrite !andb_false_r. split.
    + destruct (lt x (Infinity false)) eqn:L.
      * apply Math_min_from_In. exact Fr.
      * rewrite <- (lt_infinity x Hx L). apply Math_min_from_In. exact Fr.
    + destruct (gt x (Infinity true)) eqn:G.
      * apply Math_max_from_In. exact Fr.
      * rewrite <- (gt_infinity x Hx G). apply Math_max_from_In. exact Fr.
  - intro I. unfold Mapper.aggregate, Math_min, Math_max.
    split; [now apply Math_min_from_NaN | now apply Math_max_from_NaN].
Qed.

Lemma aggregate_extrema_witness :
  In (Mapper.aggregate [literal 3; literal (-1); literal 2] Mapper.AggMin)
    [literal 3; literal (-1); literal 2].
Proof.
  apply (aggregate_extrema [literal 3; literal (-1); literal 2]);
    [discriminate | repeat constructor].
Defined.

Lemma sort_insert_perm (x : number) (l : list number) :
  Permutation (Mapper.sort_insert x l) (x :: l).
Proof.
  induction l as [| y r IH]; simpl; [apply Permutation_refl |].
  destruct (gt (sub x y) (S754_zero false)); [| apply Permutation_refl].
  apply perm_trans with (y :: x :: r); [now apply perm_skip | apply perm_swap].
Qed.

Lemma sort_perm (values : list number) :
  Permutation (Mapper.sort values) values.
Proof.
  unfold Mapper.sort. induction values as [| x r IH]; simpl; [constructor |].
  apply perm_trans with (x :: fold_right Mapper.sort_insert [] r);
    [apply sort_insert_perm | now apply perm_skip].
Qed.

(** X13. The sorted copy that the median is read from is a rearrangement
    of the values, so the median of an odd number of values is one of
    them, and the median of a single value is that value. *)
Theorem median_of_odd (values : list number) :
  Permutation (Mapper.sort values) values /\
  (Nat.odd (List.length values) = true ->
   In (Mapper.aggregate values Mapper.AggMedian) values) /\
  (forall x, Mapper.aggregate [x] Mapper.AggMedian = x).
Proof.
  split; [apply sort_perm |]. split; [| reflexivity].
  intro O. destruct values as [| x r]; [discriminate |].
  unfold Mapper.aggregate, Mapper.median. cbv zeta.
  pose proof (sort_perm (x :: r)) as P.
  rewrite (Permutation_length P).
  replace (Nat.eqb (Nat.modulo (List.length (x :: r)) 2) 0) with false.
  - apply (Permutation_in _ P). apply nth_In.
    rewrite (Permutation_length P).
    apply Nat.div_lt; simpl; lia.
  - symmetry. apply Nat.eqb_neq. rewrite <- Nat.bit0_mod, Nat.bit0_odd, O.
    discriminate.
Qed.

Lemma median_of_odd_witness :
  In (Mapper.aggregate [literal 5; literal 1; literal 3] Mapper.AggMedian)
    [literal 5; literal 1; literal 3].
Proof.
  apply (proj1 (proj2 (median_of_odd [literal 5; literal 1; literal 3]))).
  reflexivity.
Defined.

(** ** More on mapping validation *)

Lemma check_column_ids (dim : Validator.DimensionDefinition)
  (columns : list Detector.ColumnMeta) (c : jsstring) (e : Validator.ValidationError) :
  In e (fst (Validator.check_column dim columns ([], []) c)) \/
  In e (snd (Validator.check_column dim columns ([], []) c)) ->
  Validator.dimensionId e = Validator.id dim.
Proof.
  unfold Validator.check_column.
  destruct (Validator.find_column columns c) as [col |].
  - destruct (negb _); simpl; intros [[] | I]; [| destruct I].
    destruct I as [<- | []]. reflexivity.
  - simpl. intros [[<- | []] | []]. reflexivity.
Qed.

Lemma dimension_ids (mapping : Validator.MappingConfig)
  (columns : list Detector.ColumnMeta) (dim : Validator.DimensionDefinition)
  (e : Validator.ValidationError) :
  In e (dimension_errors mapping columns dim) \/
  In e (dimension_warnings mapping columns dim) ->
  Validator.dimensionId e = Validator.id dim.
Proof.
  rewrite dimension_errors_unfold, dimension_warnings_unfold. cbv zeta.
  destruct (Validator.required dim && _).
  { intros [[<- | []] | []]. reflexivity. }
  destruct (lookup mapping (Validator.id dim)) as [m |]; [| intros [[] | []]].
  destruct (Validator.falsy (Some m)); [intros [[] | []] |].
  intros [I | I].
  - apply in_app_or in I as [I | I].
    + apply in_flat_map in I as [c [_ I]].
      apply (check_column_ids dim columns c). now left.
    + destruct (negb (Validator.multiple dim) && Validator.several m);
        [destruct I as [<- | []]; reflexivity | destruct I].
  - apply in_flat_map in I as [c [_ I]].
    apply (check_column_ids dim columns c). now right.
Qed.

(** X14. Every error and every warning of a validation result is keyed by
    the id of one of the dimensions that were checked. *)
Theorem validateMapping_keys (dims : list Validator.DimensionDefinition)
  (mapping : Validator.MappingConfig) (columns : list Detector.ColumnMeta)
  (e : Validator.ValidationError) :
  In e (Validator.errors (Validator.validateMapping dims mapping columns)) \/
  In e (Validator.warnings (Validator.validateMapping dims mapping columns)) ->
  exists dim, In dim dims /\ Validator.dimensionId e = Validator.id dim.
Proof.
  rewrite validateMapping_errors, validateMapping_warnings.
  intros [I | I]; apply in_flat_map in I as [dim [Id I]]; exists dim;
    (split; [exact Id |]); apply (dimension_ids mapping columns); auto.
Qed.

Lemma validateMapping_keys_witness :
  exists dim, In dim ColumnChart.dimensions /\ js "y" = Validator.id dim.
Proof.
  apply (validateMapping_keys ColumnChart.dimensions [] test_columns
           {| Validator.dimensionId := js "y";
              Validator.message :=
                Validator.quoted (js "Values (Y Axis)") ++ js " is required." |}).
  left. vm_compute. right. left. reflexivity.
Defined.

Lemma fold_left_ext_in {A B : Type} (f g : A -> B -> A) (l : list B) :
  (forall x, In x l -> forall a, f a x = g a x) ->
  forall a, fold_left f l a = fold_left g l a.
Proof.
  induction l as [| x l IH]; intros E a; simpl; [reflexivity |].
  rewrite E by now left. apply IH. intros y I. apply E. now right.
Qed.

(** X15. The validation result depends on the mapping only through the
    entries under the ids of the checked dimensions: two mappings that
    agree there give the same result, so an entry under any other key is
    never reported. *)
Theorem validateMapping_other_keys (dims : list Validator.DimensionDefinition)
  (mapping mapping' : Validator.MappingConfig)
  (columns : list Detector.ColumnMeta) :
  (forall dim, In dim dims ->
     lookup mapping (Validator.id dim) = lookup mapping' (Validator.id dim)) ->
  Validator.validateMapping dims mapping columns =
  Validator.validateMapping dims mapping' columns.
Proof.
  intro Agree. unfold Validator.validateMapping.
  rewrite (fold_left_ext_in (Validator.check_dimension mapping columns)
             (Validator.check_dimension mapping' columns)); [reflexivity |].
  intros dim I acc. unfold Validator.check_dimension.
  now rewrite (Agree dim I).
Qed.

Lemma validateMapping_other_keys_witness :
  Validator.validateMapping ColumnChart.dimensions
    [(js "x", Validator.One (js "Category")); (js "size", Validator.One (js "Nope"))]
    test_columns =
  Validator.validateMapping ColumnChart.dimensions
    [(js "x", Validator.One (js "Category"))] test_columns.
Proof.
  apply validateMapping_other_keys.
  intros dim [<- | [<- | [<- | []]]]; reflexivity.
Defined.

Lemma valid_dimension_ok (dims : list Validator.DimensionDefinition)
  (mapping : Validator.MappingConfig) (columns : list Detector.ColumnMeta) :
  Validator.isValid (Validator.validateMapping dims mapping columns) = true ->
  forall dim, In dim dims -> dimension_ok mapping columns dim = true.
Proof.
  rewrite validateMapping_isValid, validateMapping_errors. intros V dim I.
  destruct (flat_map (dimension_errors mapping columns) dims) eqn:E;
    [| discriminate].
  apply (flat_map_nil _ _ dims (dimension_errors_nil mapping columns)) in E.
  exact (proj1 (forallb_forall _ _) E dim I).
Qed.

Lemma join_single (sep c : jsstring) : Validator.join sep [c] = c.
Proof. reflexivity. Qed.

Lemma required_resolved (mapping : Validator.MappingConfig)
  (columns : list Detector.ColumnMeta) (dim : Validator.DimensionDefinition) :
  dimension_ok mapping columns dim = true -> Validator.required dim = true ->
  exists m,
    lookup mapping (Validator.id dim) = Some m /\
    Validator.falsy (Some m) = false /\
    Validator.column_names m <> [] /\
    (forall c, In c (Validator.column_names m) -> column_exists columns c = true) /\
    (Validator.multiple dim = false -> Validator.column_names m = [Charts.key m]).
Proof.
  unfold dimension_ok. cbv zeta. intros Ok R. rewrite R in Ok.
  destruct (lookup mapping (Validator.id dim)) as [m |]; [| discriminate].
  destruct (Validator.falsy (Some m)) eqn:F; [discriminate |].
  destruct (Validator.empty_array (Some m)) eqn:Em; [discriminate |].
  cbn [orb] in Ok. apply andb_true_iff in Ok as [Ex Mu].
  exists m. split; [reflexivity |]. split; [exact F |].
  split; [| split].
  - destruct m as [c | [| c l]]; simpl in *; congruence.
  - exact (proj1 (forallb_forall _ _) Ex).
  - intro M. rewrite M in Mu. simpl in Mu. apply negb_true_iff in Mu.
    destruct m as [c | [| c [| c2 l]]]; simpl in *; congruence.
Qed.

(** X16. In a valid result every required dimension is mapped, to
    columns that all exist in the metadata, and to exactly one column
    (given as a name or as a one-element list) when the dimension does
    not allow several. *)
Theorem valid_mapping_resolves (dims : list Validator.DimensionDefinition)
  (mapping : Validator.MappingConfig) (columns : list Detector.ColumnMeta) :
  Validator.isValid (Validator.validateMapping dims mapping columns) = true ->
  forall dim, In dim dims -> Validator.required dim = true ->
  exists m,
    lookup mapping (Validator.id dim) = Some m /\
    Validator.falsy (Some m) = false /\
    Validator.column_names m <> [] /\
    (forall c, In c (Validator.column_names m) -> column_exists columns c = true) /\
    (Validator.multiple dim = false -> Validator.column_names m = [Charts.key m]).
Proof.
  intros V dim I R. apply required_resolved; [| exact R].
  now apply (valid_dimension_ok dims).
Qed.

Lemma valid_mapping_resolves_witness :
  exists m,
    lookup [(js "x", Validator.One (js "Category"));
            (js "y", Validator.Many [js "Value"])] (js "y") = Some m /\
    Validator.column_names m = [Charts.key m].
Proof.
  destruct (valid_mapping_resolves ColumnChart.dimensions
              [(js "x", Validator.One (js "Category"));
               (js "y", Validator.Many [js "Value"])] test_columns eq_refl
              (nth 1 ColumnChart.dimensions (nth 0 ColumnChart.dimensions
                 {| Validator.id := []; Validator.name := [];
                    Validator.description := []; Validator.required := false;
                    Validator.acceptedTypes := []; Validator.multiple := false;
                    Validator.defaultAggregation := None |})))
    as (m & L & _ & _ & _ & K).
  - simpl. right. left. reflexivity.
  - reflexivity.
  - exists m. split; [exact L | now apply K].
Defined.

(** ** The chart registry *)

Lemma Map_set_lookup (charts : Registry.Charts) (k : jsstring)
  (v : Registry.ChartTemplate) :
  lookup (Registry.Map_set charts k v) k = Some v.
Proof.
  induction charts as [| [k' v'] r IH]; simpl.
  - now rewrite str_eqb_refl.
  - destruct (str_eqb k k') eqn:E; simpl; rewrite E; [reflexivity | exact IH].
Qed.

Lemma Map_set_lookup_other (charts : Registry.Charts) (k k0 : jsstring)
  (v : Registry.ChartTemplate) :
  k0 <> k -> lookup (Registry.Map_set charts k v) k0 = lookup charts k0.
Proof.
  intro N. induction charts as [| [k' v'] r IH]; simpl.
  - replace (str_eqb k0 k) with false; [reflexivity |].
    symmetry. now apply str_eqb_neq.
  - destruct (str_eqb k k') eqn:E; simpl.
    + apply str_eqb_eq in E. subst k'.
      replace (str_eqb k0 k) with false; [reflexivity |].
      symmetry. now apply str_eqb_neq.
    + now rewrite IH.
Qed.

Lemma Map_set_keys (charts : Registry.Charts) (k : jsstring)
  (v : Registry.ChartTemplate) :
  List.map fst (Registry.Map_set charts k v) =
  if existsb (fun e => str_eqb k (fst e)) charts then List.map fst charts
  else List.map fst charts ++ [k].
Proof.
  induction charts as [| [k' v'] r IH]; simpl; [reflexivity |].
  destruct (str_eqb k k') eqn:E; simpl; [reflexivity |].
  rewrite IH. now destruct (existsb _ r).
Qed.

(** X17. After [register(chart)], [get] under the chart's id returns that
    chart and every other id returns what it returned before; a chart
    registered under an id already present takes the place of the old one,
    so the registry never holds two charts under one id and grows by at
    most one. *)
Theorem register_get (charts : Registry.Charts) (chart : Registry.ChartTemplate) :
  Registry.get (Registry.register chart charts) (Registry.id chart) = Some chart /\
  (forall k, k <> Registry.id chart ->
     Registry.get (Registry.register chart charts) k = Registry.get charts k) /\
  (NoDup (List.map fst charts) ->
   NoDup (List.map fst (Registry.register chart charts))) /\
  List.length (Registry.getAll (Registry.register chart charts)) =
    match Registry.get charts (Registry.id chart) with
    | Some _ => List.length (Registry.getAll charts)
    | None => S (List.length (Registry.getAll charts))
    end.
Proof.
  unfold Registry.get, Registry.register, Registry.getAll.
  split; [apply Map_set_lookup |].
  split; [intros k N; now apply Map_set_lookup_other |].
  assert (Has : existsb (fun e => str_eqb (Registry.id chart) (fst e)) charts =
                match lookup charts (Registry.id chart) with
                | Some _ => true
                | None => false
                end).
  { induction charts as [| [k' v'] r IH]; simpl; [reflexivity |].
    destruct (str_eqb (Registry.id chart) k'); [reflexivity | exact IH]. }
  split.
  - intro ND. rewrite Map_set_keys.
    destruct (existsb _ charts) eqn:E; [exact ND |].
    apply NoDup_app; [exact ND | repeat constructor; intros [] |].
    intros x Ix [<- | []].
    assert (X : existsb (fun e => str_eqb (Registry.id chart) (fst e)) charts = true).
    { apply existsb_exists. apply in_map_iff in Ix as [e [Ee Ie]].
      exists e. split; [exact Ie |]. apply str_eqb_eq. auto. }
    congruence.
  - rewrite !length_map, <- (length_map fst), Map_set_keys, Has.
    destruct (lookup charts (Registry.id chart)); rewrite ?length_app, length_map;
      simpl; lia.
Qed.

Lemma register_get_witness :
  NoDup (List.map fst (Registry.register Registry.columnChart Registry.chartRegistry)).
Proof.
  apply (register_get Registry.chartRegistry Registry.columnChart).
  repeat constructor. intros [].
Defined.

Lemma DataType_eqb_eq (a b : Detector.DataType) :
  Validator.DataType_eqb a b = true <-> a = b.
Proof. destruct a, b; simpl; split; congruence. Qed.

Lemma has_type_In (t : Detector.DataType) (types : list Detector.DataType) :
  existsb (Validator.DataType_eqb t) types = true <-> In t types.
Proof.
  rewrite existsb_exists. split.
  - intros [x [I E]]. apply DataType_eqb_eq in E. now subst.
  - intro I. exists t. split; [exact I | now apply DataType_eqb_eq].
Qed.

Lemma satisfiable_mono (types types' : list Detector.DataType)
  (dim : Validator.DimensionDefinition) :
  incl types types' ->
  Registry.satisfiable types dim = true -> Registry.satisfiable types' dim = true.
Proof.
  unfold Registry.satisfiable. intros Inc S.
  apply existsb_exists in S as [t [I E]]. apply existsb_exists.
  exists t. split; [exact I |]. apply has_type_In. apply Inc. now apply has_type_In.
Qed.

(** X18. [getCompatible] returns registered charts only, and a chart that
    is compatible with some columns stays compatible when the columns
    offer at least the same confirmed types, in particular when columns
    are added. *)
Theorem getCompatible_monotone (charts : Registry.Charts)
  (columns columns' : list Detector.ColumnMeta) (chart : Registry.ChartTemplate) :
  incl (column_types columns) (column_types columns') ->
  In chart (Registry.getCompatible charts columns) ->
  In chart (Registry.getAll charts) /\
  In chart (Registry.getCompatible charts columns').
Proof.
  unfold Registry.getCompatible. cbv zeta. intros Inc I.
  apply filter_In in I as [I C]. split; [exact I |].
  apply filter_In. split; [exact I |].
  apply forallb_forall. intros dim Id.
  apply (satisfiable_mono (column_types columns)); [exact Inc |].
  exact (proj1 (forallb_forall _ _) C dim Id).
Qed.

Lemma getCompatible_monotone_witness :
  In Registry.columnChart
    (Registry.getCompatible Registry.chartRegistry
       (test_columns ++ [test_column (js "When") Detector.TDate])).
Proof.
  apply (getCompatible_monotone Registry.chartRegistry test_columns).
  - intros t I. unfold column_types in *. rewrite map_app.
    apply in_or_app. now left.
  - simpl. left. reflexivity.
Defined.

(** X19. The registry as the application builds it offers the column
    chart exactly when some column is confirmed as a number, and nothing
    otherwise: a number column also satisfies the category axis, which
    accepts string, number and date. *)
Theorem chartRegistry_compatible (columns : list Detector.ColumnMeta) :
  Registry.getCompatible Registry.chartRegistry columns =
  if has_number_column columns then [Registry.columnChart] else [].
Proof.
  unfold Registry.getCompatible, has_number_column, column_types. cbv zeta.
  set (types := List.map Detector.confirmedType columns).
  change (Registry.getAll Registry.chartRegistry) with [Registry.columnChart].
  cbn [filter Registry.dimensions Registry.columnChart ColumnChart.dimensions
       Validator.required forallb Registry.satisfiable Validator.acceptedTypes
       existsb].
  destruct (existsb (Validator.DataType_eqb Detector.TNumber) types).
  - rewrite orb_true_r. reflexivity.
  - rewrite !orb_false_r, andb_false_r. reflexivity.
Qed.

Lemma find_column_In (columns : list Detector.ColumnMeta) (c : jsstring)
  (col : Detector.ColumnMeta) :
  Validator.find_column columns c = Some col -> In col columns.
Proof.
  unfold Validator.find_column. intro F. now apply find_some in F.
Qed.

(** X20. A chart for which some mapping validates without any error or
    warning is among the charts that [getCompatible] offers for the same
    columns. *)
Theorem clean_validation_compatible (charts : Registry.Charts)
  (chart : Registry.ChartTemplate) (mapping : Validator.MappingConfig)
  (columns : list Detector.ColumnMeta) :
  In chart (Registry.getAll charts) ->
  Validator.isValid
    (Validator.validateMapping (Registry.dimensions chart) mapping columns) = true ->
  Validator.warnings
    (Validator.validateMapping (Registry.dimensions chart) mapping columns) = [] ->
  In chart (Registry.getCompatible charts columns).
Proof.
  intros I V W. unfold Registry.getCompatible. cbv zeta.
  apply filter_In. split; [exact I |].
  apply forallb_forall. intros dim Id. apply filter_In in Id as [Id R].
  pose proof (valid_dimension_ok _ _ _ V dim Id) as Ok.
  destruct (required_resolved _ _ _ Ok R) as (m & L & F & NE & Ex & _).
  destruct (Validator.column_names m) as [| c cs] eqn:Names; [congruence |].
  assert (Ec : column_exists columns c = true) by (apply Ex; now left).
  unfold column_exists in Ec.
  destruct (Validator.find_column columns c) as [col |] eqn:Fc; [| discriminate].
  rewrite validateMapping_warnings in W.
  assert (Wd : dimension_warnings mapping columns dim = []).
  { destruct (dimension_warnings mapping columns dim) as [| w ws] eqn:X;
      [reflexivity |].
    assert (In w (flat_map (dimension_warnings mapping columns)
                    (Registry.dimensions chart))).
    { apply in_flat_map. exists dim. split; [exact Id |]. rewrite X. now left. }
    rewrite W in *. contradiction. }
  rewrite dimension_warnings_unfold in Wd. cbv zeta in Wd.
  rewrite L, F, R in Wd.
  replace (Validator.empty_array (Some m)) with false in Wd
    by (destruct m as [x | [| x l]]; simpl in *; congruence).
  cbn [orb andb] in Wd. rewrite Names in Wd. cbn [flat_map] in Wd.
  apply app_eq_nil in Wd as [Wc _].
  unfold Validator.check_column in Wc. rewrite Fc in Wc.
  destruct (Validator.isTypeCompatible (Detector.confirmedType col)
              (Validator.acceptedTypes dim)) eqn:T; [| discriminate].
  unfold Registry.satisfiable. apply existsb_exists.
  exists (Detector.confirmedType col). split.
  - now apply has_type_In.
  - apply has_type_In. apply in_map. now apply (find_column_In columns c).
Qed.

Lemma clean_validation_compatible_witness :
  In Registry.columnChart
    (Registry.getCompatible Registry.chartRegistry test_columns).
Proof.
  apply (clean_validation_compatible Registry.chartRegistry Registry.columnChart
           [(js "x", Validator.One (js "Category"));
            (js "y", Validator.One (js "Value"))]).
  - simpl. left. reflexivity.
  - reflexivity.
  - reflexivity.
Defined.

(** ** More on text parsing *)

(** X21. Whatever the library returns, the result of [parseText] is
    coherent: it has one column record per header, named after it; when
    the library reports errors and no row, the result is empty with one
    message per reported error; otherwise every row the library returned
    is kept and every reported error is passed on as a message. *)
Theorem parseText_coherent (host : Host)
  (Papa_parse : jsstring -> Parser.PapaResult) (text : jsstring) :
  let r := Parser.parseText Papa_parse text in
  let result := Papa_parse (trim text) in
  List.map Detector.name (Parser.columns r) = Parser.rawHeaders r /\
  (trim text <> [] ->
   Parser.errors r = List.map Parser.error_text (Parser.papa_errors result) /\
   (Parser.papa_data result = [] -> Parser.papa_errors result <> [] ->
    Parser.rawHeaders r = [] /\ Parser.rowCount r = 0) /\
   List.length (Parser.data r) = List.length (Parser.papa_data result)).
Proof.
  cbv zeta. unfold Parser.parseText.
  destruct (trim text) as [| c t] eqn:T; [split; [reflexivity | congruence] |].
  set (result := Papa_parse (c :: t)).
  destruct (Parser.papa_errors result) as [| e es] eqn:E,
           (Parser.papa_data result) as [| d ds] eqn:D;
    cbn [Parser.columns Parser.rawHeaders Parser.errors Parser.rowCount Parser.data];
    (split; [unfold Detector.detectColumnTypes; rewrite ?map_map; simpl;
             try apply map_id; reflexivity |]);
    intros _; (split; [reflexivity |]); (split; [| now rewrite ?length_map]);
    intros; try congruence; now split.
Qed.

Lemma parseText_coherent_witness :
  Parser.errors (Parser.parseText (H := example_host) Parser.Papa_parse example_csv) = [].
Proof.
  destruct (parseText_coherent example_host Parser.Papa_parse example_csv)
    as (_ & C).
  destruct C as (E & _); [discriminate |]. rewrite E. reflexivity.
Defined.

(** ** The [mapData] of the chart templates *)

Lemma other_axis_involutive (k : jsstring) : other_axis (other_axis k) = k.
Proof.
  destruct (str_eqb k (js "x")) eqn:X;
    [apply str_eqb_eq in X; subst; reflexivity |].
  destruct (str_eqb k (js "y")) eqn:Y;
    [apply str_eqb_eq in Y; subst; reflexivity |].
  unfold other_axis. rewrite X, Y. cbv iota. rewrite X, Y. reflexivity.
Qed.

Lemma other_axis_swap (k k' : jsstring) :
  str_eqb k (other_axis k') = str_eqb (other_axis k) k'.
Proof.
  apply eq_true_iff_eq. rewrite !str_eqb_eq. split; intro E.
  - subst k. apply other_axis_involutive.
  - subst k'. symmetry. apply other_axis_involutive.
Qed.

Lemma lookup_exchange (mapping : Validator.MappingConfig) (k : jsstring) :
  lookup (exchange_axes mapping) k = lookup mapping (other_axis k).
Proof.
  unfold exchange_axes.
  induction mapping as [| [k' v] r IH]; [reflexivity |].
  cbn [List.map lookup fst snd]. rewrite other_axis_swap, IH. reflexivity.
Qed.

(** X22. The bar chart maps data as the column chart does once the two
    axes are exchanged in the mapping: its categories come from [y] and
    its values from [x]. *)
Theorem barChart_exchanges_axes (host : Host) (data : list Detector.DataRow)
  (mapping : Validator.MappingConfig) :
  Charts.barChart_mapData data mapping =
  Charts.columnChart_mapData data (exchange_axes mapping).
Proof.
  unfold Charts.barChart_mapData, Charts.columnChart_mapData. cbv zeta.
  rewrite !lookup_exchange.
  change (other_axis (js "x")) with (js "y").
  change (other_axis (js "y")) with (js "x").
  change (other_axis (js "color")) with (js "color").
  destruct (lookup mapping (js "y")) as [y |],
           (lookup mapping (js "x")) as [x |]; reflexivity.
Qed.

Lemma In_filter_map {A B : Type} (p : B -> bool) (f : A -> B) (l : list A)
  (d : B) :
  In d (filter p (List.map f l)) ->
  exists a, In a l /\ d = f a /\ p (f a) = true.
Proof.
  intro I. apply filter_In in I as [I P].
  apply in_map_iff in I as [a [E I]]. subst d. now exists a.
Qed.

Lemma guard_value (n x : number) :
  Detector.guard n = Some x -> isNaN x = false.
Proof.
  unfold Detector.guard. destruct (isNaN n) eqn:E; [discriminate |].
  intro S. inversion S. now subst.
Qed.

Lemma parseNumber_value (s : jsstring) (x : number) :
  Detector.parseNumber s = Some x -> isNaN x = false.
Proof.
  unfold Detector.parseNumber.
  repeat match goal with
         | |- context [if ?b then _ else _] => destruct b
         end; try discriminate; apply guard_value.
Qed.

Lemma number_of_value (host : Host) (col : Validator.Mapped)
  (row : Detector.DataRow) :
  exists v, Charts.number_of col row = VNumber v /\
            (isNaN v = true -> get row (Charts.key col) = VNumber v).
Proof.
  unfold Charts.number_of, Mapper.value_of.
  destruct (get row (Charts.key col)) as [| | s | x | b | d];
    try (exists x; split; [reflexivity | reflexivity]);
    match goal with
    | |- context [Detector.parseNumber ?t] =>
        destruct (Detector.parseNumber t) as [n |] eqn:P;
          [exists n; split; [reflexivity |];
           intro N; apply parseNumber_value in P; congruence
          | exists (S754_zero false); split; [reflexivity | discriminate]]
    end.
Qed.

Lemma field_not_empty_first (k : jsstring) (s : jsstring) (r : object value) :
  Charts.field_not_empty k ((k, VString s) :: r) = true -> s <> [].
Proof.
  unfold Charts.field_not_empty, get. cbn [lookup]. rewrite str_eqb_refl.
  destruct s; [discriminate | discriminate].
Qed.

Lemma field_not_empty_second (k1 k2 : jsstring) (a : value) (s : jsstring)
  (r : object value) :
  str_eqb k2 k1 = false ->
  Charts.field_not_empty k2 ((k1, a) :: (k2, VString s) :: r) = true -> s <> [].
Proof.
  unfold Charts.field_not_empty, get. cbn [lookup]. intros ->.
  rewrite str_eqb_refl. destruct s; [discriminate | discriminate].
Qed.

(** X23. The line chart emits at most one point per row, in objects with
    the fields [x], [y] and [series]: [x] is the non-empty string form of
    the row's cell (rows whose [x] is empty are dropped), [y] is always a
    number, never null, and is NaN only when the cell itself is the
    number NaN, and [series] is ["__default__"] when no color column is
    mapped.  Nothing is emitted while [x] or [y] is unmapped. *)
Theorem lineChart_points (host : Host) (data : list Detector.DataRow)
  (mapping : Validator.MappingConfig) :
  List.length (Charts.lineChart_mapData data mapping) <= List.length data /\
  (Validator.falsy (lookup mapping (js "x")) = true \/
   Validator.falsy (lookup mapping (js "y")) = true ->
   Charts.lineChart_mapData data mapping = []) /\
  forall d, In d (Charts.lineChart_mapData data mapping) ->
    exists xCol yCol row s v series,
      lookup mapping (js "x") = Some xCol /\
      lookup mapping (js "y") = Some yCol /\
      In row data /\
      d = [(js "x", VString s); (js "y", VNumber v);
           (js "series", VString series)] /\
      s = Mapper.category_of (Charts.key xCol) row /\ s <> [] /\
      (isNaN v = true -> get row (Charts.key yCol) = VNumber v) /\
      (Validator.falsy (lookup mapping (js "color")) = true ->
       series = js "__default__").
Proof.
  unfold Charts.lineChart_mapData. cbv zeta.
  destruct (lookup mapping (js "x")) as [x |] eqn:Lx;
    [| split; [simpl; lia | split; [reflexivity | intros d []]]].
  destruct (lookup mapping (js "y")) as [y |] eqn:Ly;
    [| split; [simpl; lia | split; [reflexivity | intros d []]]].
  destruct (Validator.falsy (Some x) || Validator.falsy (Some y)) eqn:F;
    [split; [simpl; lia | split; [reflexivity | intros d []]] |].
  apply orb_false_iff in F as [Fx Fy].
  split; [| split].
  - eapply Nat.le_trans; [apply filter_length_le |]. now rewrite length_map.
  - intros [E | E]; congruence.
  - intros d I. apply In_filter_map in I as [row [I [E P]]].
    destruct (number_of_value host y row) as [v [Ev Nv]].
    rewrite Ev in *. unfold Charts.text_of in *.
    assert (S : exists series,
               match lookup mapping (js "color") with
               | Some color =>
                   if Validator.falsy (lookup mapping (js "color"))
                   then VString (js "__default__")
                   else VString (Mapper.category_of (Charts.key color) row)
               | None => VString (js "__default__")
               end = VString series /\
               (Validator.falsy (lookup mapping (js "color")) = true ->
                series = js "__default__")).
    { destruct (lookup mapping (js "color")) as [color |].
      - destruct (Validator.falsy (Some color)).
        + now exists (js "__default__").
        + eexists. split; [reflexivity | discriminate].
      - now exists (js "__default__"). }
    destruct S as [series [Es Ds]]. rewrite Es in *.
    exists x, y, row, (Mapper.category_of (Charts.key x) row), v, series.
    repeat (split; [first [reflexivity | assumption] |]).
    split; [| split; assumption].
    now apply field_not_empty_first in P.
Qed.

(** X24. The Marimekko chart and the heatmap emit objects with three
    fields; the two text fields ([x] and [segment], resp. [x] and [y])
    are the string forms of the row's cells and are never empty, a row
    with either one empty being dropped; [value] is always a number and
    is NaN only when the cell itself is the number NaN. *)
Theorem grid_points (host : Host) (data : list Detector.DataRow)
  (mapping : Validator.MappingConfig) :
  (forall d, In d (Charts.mekkoChart_mapData data mapping) ->
     exists xCol segCol valCol row v,
       lookup mapping (js "x") = Some xCol /\
       lookup mapping (js "segment") = Some segCol /\
       lookup mapping (js "value") = Some valCol /\
       In row data /\
       d = [(js "x", VString (Mapper.category_of (Charts.key xCol) row));
            (js "segment", VString (Mapper.category_of (Charts.key segCol) row));
            (js "value", VNumber v)] /\
       Mapper.category_of (Charts.key xCol) row <> [] /\
       Mapper.category_of (Charts.key segCol) row <> [] /\
       (isNaN v = true -> get row (Charts.key valCol) = VNumber v)) /\
  (forall d, In d (Charts.heatmapChart_mapData data mapping) ->
     exists xCol yCol valueCol row v,
       lookup mapping (js "x") = Some xCol /\
       lookup mapping (js "y") = Some yCol /\
       lookup mapping (js "value") = Some valueCol /\
       In row data /\
       d = [(js "x", VString (Mapper.category_of (Charts.key xCol) row));
            (js "y", VString (Mapper.category_of (Charts.key yCol) row));
            (js "value", VNumber v)] /\
       Mapper.category_of (Charts.key xCol) row <> [] /\
       Mapper.category_of (Charts.key yCol) row <> [] /\
       (isNaN v = true -> get row (Charts.key valueCol) = VNumber v)).
Proof.
  split.
  - unfold Charts.mekkoChart_mapData. cbv zeta.
    destruct (lookup mapping (js "x")) as [x |]; [| intros d []].
    destruct (lookup mapping (js "segment")) as [seg |]; [| intros d []].
    destruct (lookup mapping (js "value")) as [val |]; [| intros d []].
    destruct (Validator.falsy (Some x) || Validator.falsy (Some seg)
              || Validator.falsy (Some val)); [intros d [] |].
    intros d I. apply In_filter_map in I as [row [I [E P]]].
    destruct (number_of_value host val row) as [v [Ev Nv]].
    rewrite Ev in *. unfold Charts.text_of in *.
    apply andb_true_iff in P as [P1 P2].
    apply field_not_empty_first in P1.
    apply field_not_empty_second in P2; [| reflexivity].
    exists x, seg, val, row, v. repeat (split; [first [reflexivity | assumption] |]).
    assumption.
  - unfold Charts.heatmapChart_mapData. cbv zeta.
    destruct (lookup mapping (js "x")) as [x |]; [| intros d []].
    destruct (lookup mapping (js "y")) as [y |]; [| intros d []].
    destruct (lookup mapping (js "value")) as [val |]; [| intros d []].
    destruct (Validator.falsy (Some x) || Validator.falsy (Some y)
              || Validator.falsy (Some val)); [intros d [] |].
    intros d I. apply In_filter_map in I as [row [I [E P]]].
    destruct (number_of_value host val row) as [v [Ev Nv]].
    rewrite Ev in *. unfold Charts.text_of in *.
    apply andb_true_iff in P as [P1 P2].
    apply field_not_empty_first in P1.
    apply field_not_empty_second in P2; [| reflexivity].
    exists x, y, val, row, v. repeat (split; [first [reflexivity | assumption] |]).
    assumption.
Qed.

Lemma groupAndAggregate_categories (host : Host) (data : list Detector.DataRow)
  (cc vc : jsstring) (aggregation : Mapper.AggregationType) :
  List.map Mapper.category (Mapper.groupAndAggregate data cc vc aggregation) =
  first_seen (List.map fst (contributions cc vc data)).
Proof.
  unfold Mapper.groupAndAggregate. cbv zeta. rewrite fold_group_step.
  rewrite fold_add_pair by constructor.
  cbn [List.map app]. rewrite filter_all by reflexivity.
  rewrite !map_map. cbn [Mapper.category fst]. apply map_id.
Qed.

Lemma NoDup_map_VString (l : list jsstring) :
  NoDup l -> NoDup (List.map VString l).
Proof.
  induction 1 as [| x l N ND IH]; simpl; constructor; [| exact IH].
  intro I. apply in_map_iff in I as [y [E I]]. inversion E. now subst.
Qed.

(** X25. When a mapping validates against the column chart's dimensions
    and no color column is mapped, [mapData] does not take its early
    return: both axes are mapped to columns that exist, the data is
    summed per category by [groupAndAggregate] over these two columns,
    and the chart gets one bar per distinct category. *)
Theorem valid_columnChart_mapData (host : Host) (data : list Detector.DataRow)
  (mapping : Validator.MappingConfig) (columns : list Detector.ColumnMeta) :
  Validator.isValid
    (Validator.validateMapping ColumnChart.dimensions mapping columns) = true ->
  Validator.falsy (lookup mapping (js "color")) = true ->
  exists xCol yCol,
    lookup mapping (js "x") = Some xCol /\
    lookup mapping (js "y") = Some yCol /\
    column_exists columns (Charts.key xCol) = true /\
    column_exists columns (Charts.key yCol) = true /\
    Charts.columnChart_mapData data mapping =
      List.map Charts.group_object
        (Mapper.groupAndAggregate data (Charts.key xCol) (Charts.key yCol)
           Mapper.AggSum) /\
    NoDup (List.map (fun d => get d (js "category"))
             (Charts.columnChart_mapData data mapping)).
Proof.
  intros V C.
  pose proof (valid_dimension_ok _ _ _ V) as Ok.
  destruct (required_resolved mapping columns _
              (Ok _ (or_introl eq_refl)) eq_refl)
    as (x & Lx & Fx & _ & Ex & Kx).
  destruct (required_resolved mapping columns _
              (Ok _ (or_intror (or_introl eq_refl))) eq_refl)
    as (y & Ly & Fy & _ & Ey & Ky).
  change (Validator.id _) with (js "x") in Lx.
  change (Validator.id _) with (js "y") in Ly.
  specialize (Kx eq_refl). specialize (Ky eq_refl).
  assert (M : Charts.columnChart_mapData data mapping =
              List.map Charts.group_object
                (Mapper.groupAndAggregate data (Charts.key x) (Charts.key y)
                   Mapper.AggSum)).
  { unfold Charts.columnChart_mapData. cbv zeta. rewrite Lx, Ly, Fx, Fy.
    cbn [orb]. destruct (lookup mapping (js "color")) as [color |];
      [rewrite C |]; reflexivity. }
  exists x, y. split; [exact Lx |]. split; [exact Ly |].
  split; [apply Ex; rewrite Kx; now left |].
  split; [apply Ey; rewrite Ky; now left |].
  split; [exact M |].
  rewrite M, map_map.
  rewrite (map_ext _ (fun g => VString (Mapper.category g)))
    by (intro g; reflexivity).
  rewrite <- (map_map Mapper.category VString).
  rewrite groupAndAggregate_categories.
  apply NoDup_map_VString, first_seen_NoDup.
Qed.

Lemma valid_columnChart_mapData_witness :
  exists xCol yCol,
    lookup [(js "x", Validator.One (js "Category"));
            (js "y", Validator.One (js "Value"))] (js "x") = Some xCol /\
    lookup [(js "x", Validator.One (js "Category"));
            (js "y", Validator.One (js "Value"))] (js "y") = Some yCol /\
    column_exists test_columns (Charts.key xCol) = true /\
    column_exists test_columns (Charts.key yCol) = true /\
    Charts.columnChart_mapData (H := example_host) region_rows
      [(js "x", Validator.One (js "Category"));
       (js "y", Validator.One (js "Value"))] =
      List.map Charts.group_object
        (Mapper.groupAndAggregate (H := example_host) region_rows
           (Charts.key xCol) (Charts.key yCol) Mapper.AggSum) /\
    NoDup (List.map (fun d => get d (js "category"))
             (Charts.columnChart_mapData (H := example_host) region_rows
                [(js "x", Validator.One (js "Category"));
                 (js "y", Validator.One (js "Value"))])).
Proof.
  apply (valid_columnChart_mapData example_host region_rows
           [(js "x", Validator.One (js "Category"));
            (js "y", Validator.One (js "Value"))] test_columns);
    reflexivity.
Defined.

(** The first of the Region/Sales rows as a point of the line chart. *)
Lemma lineChart_points_witness :
  exists xCol yCol row s v series,
    lookup [(js "x", Validator.One (js "Region"));
            (js "y", Validator.One (js "Sales"))] (js "x") = Some xCol /\
    lookup [(js "x", Validator.One (js "Region"));
            (js "y", Validator.One (js "Sales"))] (js "y") = Some yCol /\
    In row region_rows /\
    [(js "x", VString (js "North")); (js "y", VNumber (literal 100));
     (js "series", VString (js "__default__"))] =
    [(js "x", VString s); (js "y", VNumber v); (js "series", VString series)] /\
    s = Mapper.category_of (H := example_host) (Charts.key xCol) row /\
    s <> [] /\
    (isNaN v = true -> get row (Charts.key yCol) = VNumber v) /\
    (Validator.falsy
       (lookup [(js "x", Validator.One (js "Region"));
                (js "y", Validator.One (js "Sales"))] (js "color")) = true ->
     series = js "__default__").
Proof.
  apply (proj2 (proj2 (lineChart_points example_host region_rows
                         [(js "x", Validator.One (js "Region"));
                          (js "y", Validator.One (js "Sales"))]))).
  vm_compute. left. reflexivity.
Defined.

(** The first of the Region/Sales rows as a cell of the Marimekko chart,
    with the region on both text fields. *)
Lemma grid_points_witness :
  exists xCol segCol valCol row v,
    lookup [(js "x", Validator.One (js "Region"));
            (js "segment", Validator.One (js "Region"));
            (js "value", Validator.One (js "Sales"))] (js "x") = Some xCol /\
    lookup [(js "x", Validator.One (js "Region"));
            (js "segment", Validator.One (js "Region"));
            (js "value", Validator.One (js "Sales"))] (js "segment") = Some segCol /\
    lookup [(js "x", Validator.One (js "Region"));
            (js "segment", Validator.One (js "Region"));
            (js "value", Validator.One (js "Sales"))] (js "value") = Some valCol /\
    In row region_rows /\
    [(js "x", VString (js "North")); (js "segment", VString (js "North"));
     (js "value", VNumber (literal 100))] =
    [(js "x", VString (Mapper.category_of (H := example_host) (Charts.key xCol) row));
     (js "segment",
      VString (Mapper.category_of (H := example_host) (Charts.key segCol) row));
     (js "value", VNumber v)] /\
    Mapper.category_of (H := example_host) (Charts.key xCol) row <> [] /\
    Mapper.category_of (H := example_host) (Charts.key segCol) row <> [] /\
    (isNaN v = true -> get row (Charts.key valCol) = VNumber v).
Proof.
  apply (proj1 (grid_points example_host region_rows
                  [(js "x", Validator.One (js "Region"));
                   (js "segment", Validator.One (js "Region"));
                   (js "value", Validator.One (js "Sales"))])).
  vm_compute. left. reflexivity.
Defined.
